(** * Token sale backend: purchase orchestration and ledger reporting

    A shallow embedding of [server.js] (the six Express handlers) and of
    the ledger schema [models/Transaction], with the properties of the
    specification stated over it.

    Conventions of the embedding:
    - a JavaScript Number that takes part in the amount arithmetic is an
      IEEE-754 binary64 value, from the Standard Library's [SpecFloat] at
      [prec = 53] and [emax = 1024]; counts, page numbers and page sizes
      are integers far below 2^53, where Number arithmetic is exact, and
      are kept in [Z];
    - ethers' [bigint] amounts are [Z]; [parseUnits] and [formatUnits]
      follow ethers v6 (the version whose API the handlers use);
    - strings are [string]; a date is its time value, the milliseconds
      since the epoch, in [Z];
    - a JSON body field is a scalar [JsValue]; a query parameter is an
      optional string, or, for [page], [limit], [startDate] and [endDate],
      the positive integer or the instant the string denotes;
    - the chain gateway is an oracle: a record of answers, one per call,
      and every call is logged with its answer; the configuration
      (contract addresses, the signer's key) is taken to be valid;
    - the store is the list of its documents, a document's [_id] being its
      position; [save] and [find] do not fail, an aggregation fails only on
      a value it cannot convert, and its numbers are the exact rationals
      the stored decimal strings denote;
    - requests are served one at a time. *)

From Stdlib Require Import ZArith QArith Qpower String Ascii List Bool Lia SpecFloat.
From Stdlib Require Import DecimalString Sorted Permutation.
From Stdlib Require DecimalPos DecimalN.
From stdpp Require Import base list gmap strings.
Import ListNotations.

Local Open Scope string_scope.
Local Open Scope Z_scope.

(** ** Characters and decimal numerals *)

Module Chars.

Definition is_digit (c : ascii) : bool :=
  let n := nat_of_ascii c in ((48 <=? n) && (n <=? 57))%nat.

Definition digit_val (c : ascii) : Z := Z.of_nat (nat_of_ascii c) - 48.

(** White space and line terminators of the ASCII range (TAB, LF, VT, FF,
    CR, SP). *)
Definition is_space (c : ascii) : bool :=
  let n := nat_of_ascii c in (((9 <=? n) && (n <=? 13)) || (n =? 32))%nat.

Definition all_digits (l : list ascii) : bool := forallb is_digit l.

(** Value of a run of decimal digits, most significant first. *)
Definition digits_val (l : list ascii) : Z :=
  fold_left (fun acc c => 10 * acc + digit_val c) l 0.

(** Longest prefix of digits, and the rest. *)
Fixpoint span_digits (l : list ascii) : list ascii * list ascii :=
  match l with
  | c :: r =>
      if is_digit c then let '(d, k) := span_digits r in (c :: d, k)
      else ([], l)
  | [] => ([], [])
  end.

Fixpoint drop_spaces (l : list ascii) : list ascii :=
  match l with
  | c :: r => if is_space c then drop_spaces r else l
  | [] => []
  end.

(** [String.prototype.trim], on the ASCII white space. *)
Definition trim (l : list ascii) : list ascii :=
  rev (drop_spaces (rev (drop_spaces l))).

(** Decimal numeral of a non-negative integer ([BigInt.prototype.toString]
    on a non-negative value). *)
Definition decimal (z : Z) : string :=
  NilZero.string_of_uint (N.to_uint (Z.to_N z)).

Fixpoint zeros (n : nat) : string :=
  match n with
  | O => ""
  | S k => String "0" (zeros k)
  end.

End Chars.

(** ** JavaScript Numbers

    A Number is a binary64 value.  The operations are those of [SpecFloat]
    (round to nearest, ties to even); conversions from integers and from
    ratios of integers are correctly rounded. *)

Module JsNumber.

Definition prec : Z := 53.
Definition emax : Z := 1024.

Definition number : Type := spec_float.

Definition mul : number -> number -> number := SFmul prec emax.
Definition div : number -> number -> number := SFdiv prec emax.

(** The Number nearest to the integer [z]. *)
Definition of_Z (z : Z) : number := binary_normalize prec emax z 0 false.

(** The Number nearest to [p / q]. *)
Definition of_ratio (p q : positive) : number :=
  SFdiv prec emax (S754_finite false p 0) (S754_finite false q 0).

(** The Number nearest to [z * 10 ^ e10] (a decimal literal's value). *)
Definition of_decimal (z : Z) (e10 : Z) : number :=
  match z with
  | Z0 => S754_zero false
  | Zpos p =>
      if 0 <=? e10 then of_Z (Zpos p * 10 ^ e10)
      else of_ratio p (Z.to_pos (10 ^ (- e10)))
  | Zneg p =>
      SFopp (if 0 <=? e10 then of_Z (Zpos p * 10 ^ e10)
             else of_ratio p (Z.to_pos (10 ^ (- e10))))
  end.

(** The real number a Number stands for (0 for NaN and the infinities). *)
Definition value (x : number) : Q :=
  match x with
  | S754_finite s m e =>
      let a := (inject_Z (Zpos m) * Qpower 2 e)%Q in
      if s then Qopp a else a
  | _ => 0%Q
  end.

Definition eqb (x y : number) : bool :=
  match x, y with
  | S754_zero a, S754_zero b => Bool.eqb a b
  | S754_infinity a, S754_infinity b => Bool.eqb a b
  | S754_nan, S754_nan => true
  | S754_finite a m e, S754_finite b n f =>
      Bool.eqb a b && Pos.eqb m n && Z.eqb e f
  | _, _ => false
  end.

(** [10 ** TOKEN_DECIMALS] and the like: powers of ten up to 10^22 are
    Numbers, so the power is exact there. *)
Definition pow10 (n : Z) : number := of_Z (10 ^ n).

(** *** Number::toString (radix 10)

    For a finite positive Number [v = p / q], the digits [s] (with [k]
    digits) and the exponent [n] are such that [s * 10 ^ (n - k)] converts
    back to [v], with [k] as small as possible and, among the candidates,
    [s * 10 ^ (n - k)] closest to [v]. *)

(** [p / q < 10 ^ n] *)
Definition lt_pow10 (p q n : Z) : bool :=
  if 0 <=? n then p <? q * 10 ^ n else p * 10 ^ (- n) <? q.

(** The least [n' >= n] with [p / q < 10 ^ n'], searched over [fuel]
    steps. *)
Fixpoint up_exp (fuel : nat) (p q n : Z) : Z :=
  match fuel with
  | O => n
  | S f => if lt_pow10 p q n then n else up_exp f p q (n + 1)
  end.

(** [n] with [10 ^ (n - 1) <= p / q < 10 ^ n], for positive [p] and [q].
    With [l] the difference of the binary logarithms of [p] and [q],
    [2 ^ (l - 1) < p / q < 2 ^ (l + 1)]; the search starts at a power of
    ten below [2 ^ (l - 1)] and ends within three steps. *)
Definition dec_exp (p q : Z) : Z :=
  let l := Z.log2 p - Z.log2 q in
  let start :=
    if 0 <=? l - 1 then (l - 1) * 30102 / 100000
    else (l - 1) * 30103 / 100000 in
  up_exp 8 p q start.

(** The fraction [p / q] of a finite positive Number [m * 2 ^ e]. *)
Definition fraction (m : positive) (e : Z) : Z * Z :=
  if 0 <=? e then (Zpos m * 2 ^ e, 1) else (Zpos m, 2 ^ (- e)).

(** Does [s * 10 ^ t] convert to the Number [x]? *)
Definition converts_to (s t : Z) (x : number) : bool :=
  eqb (of_decimal s t) x.

(** With [k] digits: the candidate digits and exponent for [p / q], if one
    converts back to [x]. *)
Definition candidate (x : number) (p q n : Z) (k : Z) : option (Z * Z) :=
  let t := n - k in
  let '(num, den) := if 0 <=? t then (p, q * 10 ^ t) else (p * 10 ^ (- t), q) in
  let lo := num / den in
  let r := num - lo * den in
  let hi := lo + 1 in
  let ok_lo := converts_to lo t x in
  let ok_hi := converts_to hi t x in
  let pick (s : Z) := if s =? 10 ^ k then Some (10 ^ (k - 1), n + 1) else Some (s, n) in
  match ok_lo, ok_hi with
  | true, false => pick lo
  | false, true => pick hi
  | true, true =>
      match 2 * r ?= den with
      | Lt => pick lo
      | Gt => pick hi
      | Eq => if Z.even lo then pick lo else pick hi
      end
  | false, false => None
  end.

Fixpoint shortest (x : number) (p q n : Z) (ks : list Z) : Z * Z * Z :=
  match ks with
  | k :: r =>
      match candidate x p q n k with
      | Some (s, n') => (s, k, n')
      | None => shortest x p q n r
      end
  | [] => (0, 1, 0)
  end.

Definition digit_counts : list Z :=
  [1; 2; 3; 4; 5; 6; 7; 8; 9; 10; 11; 12; 13; 14; 15; 16; 17].

(** Steps 5 to 11 of Number::toString, for a finite positive Number. *)
Definition toString_pos (m : positive) (e : Z) : string :=
  let '(p, q) := fraction m e in
  let n0 := dec_exp p q in
  let '(s, k, n) := shortest (S754_finite false m e) p q n0 digit_counts in
  let ds := Chars.decimal s in
  if (k <=? n) && (n <=? 21) then
    ds ++ Chars.zeros (Z.to_nat (n - k))
  else if (0 <? n) && (n <=? 21) then
    substring 0 (Z.to_nat n) ds ++ "." ++
    substring (Z.to_nat n) (Z.to_nat (k - n)) ds
  else if (-6 <? n) && (n <=? 0) then
    "0." ++ Chars.zeros (Z.to_nat (- n)) ++ ds
  else
    let ex := n - 1 in
    let sign := if ex <? 0 then "-" else "+" in
    let mant :=
      if k =? 1 then ds
      else substring 0 1 ds ++ "." ++ substring 1 (Z.to_nat (k - 1)) ds in
    mant ++ "e" ++ sign ++ Chars.decimal (Z.abs ex).

Definition toString (x : number) : string :=
  match x with
  | S754_nan => "NaN"
  | S754_zero _ => "0"
  | S754_infinity s => if s then "-Infinity" else "Infinity"
  | S754_finite s m e =>
      (if s then "-" else "") ++ toString_pos m e
  end.

End JsNumber.

(** ** JavaScript values of a JSON body, and their coercions *)

Module Js.
Import JsNumber.

(** What a failed operation throws: ethers errors carry a [code] and, for
    reverted calls, a [reason]; every error has a [message]. *)
Record JsError : Type := mkError {
  err_code : string;
  err_reason : option string;
  err_message : string
}.

Inductive result (A : Type) : Type :=
| Ok (a : A)
| Throw (e : JsError).
Arguments Ok {A} a.
Arguments Throw {A} e.

(** The scalar values a parsed JSON body can hold in a field; [JUndefined]
    is an absent field. *)
Inductive JsValue : Type :=
| JUndefined
| JNull
| JBool (b : bool)
| JNum (x : number)
| JStr (s : string).

(** ToBoolean: [!v] is [negb (truthy v)]. *)
Definition truthy (v : JsValue) : bool :=
  match v with
  | JUndefined | JNull => false
  | JBool b => b
  | JNum (S754_zero _) | JNum S754_nan => false
  | JNum _ => true
  | JStr s => negb (String.eqb s "")
  end.

(** *** StringToNumber *)

Definition hex_digit (c : ascii) : option Z :=
  let n := Z.of_nat (nat_of_ascii c) in
  if (48 <=? n) && (n <=? 57) then Some (n - 48)
  else if (97 <=? n) && (n <=? 102) then Some (n - 87)
  else if (65 <=? n) && (n <=? 70) then Some (n - 55)
  else None.

(** Digits of a non-decimal integer literal in the given radix. *)
Fixpoint radix_val (radix : Z) (l : list ascii) (acc : Z) : option Z :=
  match l with
  | [] => Some acc
  | c :: r =>
      match hex_digit c with
      | Some d => if d <? radix then radix_val radix r (radix * acc + d) else None
      | None => None
      end
  end.

Definition lower (c : ascii) : ascii :=
  let n := nat_of_ascii c in
  if ((65 <=? n) && (n <=? 90))%nat then ascii_of_nat (n + 32) else c.

(** NonDecimalIntegerLiteral: 0x, 0o, 0b followed by at least one digit. *)
Definition non_decimal (l : list ascii) : option number :=
  match l with
  | "0"%char :: c :: (d :: _) as ds =>
      let radix :=
        match lower c with
        | "x"%char => Some 16
        | "o"%char => Some 8
        | "b"%char => Some 2
        | _ => None
        end in
      match radix with
      | Some r =>
          match radix_val r ds 0 with
          | Some z => Some (of_Z z)
          | None => None
          end
      | None => None
      end
  | _ => None
  end.

(** ExponentPart after its [e]: an optional sign and at least one digit. *)
Definition exponent_part (l : list ascii) : option Z :=
  let '(neg, ds) :=
    match l with
    | "-"%char :: r => (true, r)
    | "+"%char :: r => (false, r)
    | _ => (false, l)
    end in
  match ds with
  | [] => None
  | _ => if Chars.all_digits ds
         then Some (if neg then - Chars.digits_val ds else Chars.digits_val ds)
         else None
  end.

(** StrUnsignedDecimalLiteral. *)
Definition unsigned_decimal (l : list ascii) : option number :=
  if String.eqb (string_of_list_ascii l) "Infinity" then Some (S754_infinity false)
  else
    let '(ip, r1) := Chars.span_digits l in
    let '(fp, r2) :=
      match r1 with
      | "."%char :: r => Chars.span_digits r
      | _ => ([], r1)
      end in
    match (ip ++ fp)%list with
    | [] => None
    | ds =>
        let ex :=
          match r2 with
          | [] => Some 0
          | c :: r => if Ascii.eqb (lower c) "e" then exponent_part r else None
          end in
        match ex with
        | Some x => Some (of_decimal (Chars.digits_val ds) (x - Z.of_nat (length fp)))
        | None => None
        end
    end.

(** StrDecimalLiteral: an optional sign, then the unsigned literal. *)
Definition signed_decimal (l : list ascii) : option number :=
  match l with
  | "-"%char :: r => option_map SFopp (unsigned_decimal r)
  | "+"%char :: r => unsigned_decimal r
  | _ => unsigned_decimal l
  end.

Definition StringToNumber (s : string) : number :=
  match Chars.trim (list_ascii_of_string s) with
  | [] => S754_zero false
  | l =>
      match non_decimal l with
      | Some x => x
      | None =>
          match signed_decimal l with
          | Some x => x
          | None => S754_nan
          end
      end
  end.

Definition ToNumber (v : JsValue) : number :=
  match v with
  | JUndefined => S754_nan
  | JNull => S754_zero false
  | JBool b => if b then of_Z 1 else S754_zero false
  | JNum x => x
  | JStr s => StringToNumber s
  end.

(** [v.toString()]: a TypeError on [undefined] and [null]. *)
Definition toString (v : JsValue) : result string :=
  match v with
  | JUndefined | JNull =>
      Throw (mkError "" None "Cannot read properties of undefined (reading 'toString')")
  | JBool b => Ok (if b then "true" else "false")
  | JNum x => Ok (JsNumber.toString x)
  | JStr s => Ok s
  end.

End Js.


(** ** ethers: fixed-point conversions ([parseUnits], [formatUnits]) *)

Module Ethers.
Import Js.

(** The library appends the offending argument and its own version to the
    message; the model keeps the leading text. *)
Definition invalid_argument (msg : string) : JsError :=
  mkError "INVALID_ARGUMENT" None msg.

Definition numeric_fault (msg : string) : JsError :=
  mkError "NUMERIC_FAULT" None msg.

(** [checkValue] for the signed 512-bit format used by both functions. *)
Definition in_range (v : Z) : bool := (- 2 ^ 511 <=? v) && (v <? 2 ^ 511).

Definition is_zero_char (c : ascii) : bool := Ascii.eqb c "0".

(** [parseUnits(value, decimals)]: [value] must be an optional minus sign,
    digits, an optional point and digits, with at least one digit in all;
    the fraction is padded to [decimals] digits and anything beyond them
    must be zeros. *)
Definition parseUnits (value : string) (decimals : nat) : result Z :=
  let l := list_ascii_of_string value in
  let '(neg, l1) :=
    match l with
    | "-"%char :: r => (true, r)
    | _ => (false, l)
    end in
  let '(whole, l2) := Chars.span_digits l1 in
  let l3 := match l2 with "."%char :: r => r | _ => l2 end in
  let '(dec, l4) := Chars.span_digits l3 in
  match l4 with
  | _ :: _ => Throw (invalid_argument "invalid FixedNumber string value")
  | [] =>
      if (length whole + length dec =? 0)%nat
      then Throw (invalid_argument "invalid FixedNumber string value")
      else
        let padded := (dec ++ repeat "0"%char (decimals - length dec))%list in
        if negb (forallb is_zero_char (skipn decimals padded))
        then Throw (numeric_fault "too many decimals for format")
        else
          let v := Chars.digits_val (whole ++ firstn decimals padded)%list in
          let v := if neg then - v else v in
          if in_range v then Ok v else Throw (numeric_fault "overflow")
  end.

(** Drop leading zeros, keeping the last character. *)
Fixpoint trim_whole (l : list ascii) : list ascii :=
  match l with
  | c :: (_ :: _) as r => if is_zero_char c then trim_whole r else l
  | _ => l
  end.

(** [formatUnits(value, decimals)] for a value in the 512-bit range (the
    gateway returns uint256 values and [parseUnits] results are in range):
    at least one digit on each side of the point, no other padding. *)
Definition formatUnits (value : Z) (decimals : nat) : string :=
  let negative := if value <? 0 then "-" else "" in
  let str := list_ascii_of_string (Chars.decimal (Z.abs value)) in
  match decimals with
  | O => negative ++ string_of_list_ascii str
  | _ =>
      let str := (repeat "0"%char (S decimals - length str) ++ str)%list in
      let index := (length str - decimals)%nat in
      let whole := trim_whole (firstn index str) in
      let frac := rev (trim_whole (rev (skipn index str))) in
      negative ++ string_of_list_ascii whole ++ "." ++ string_of_list_ascii frac
  end.

End Ethers.


(** ** The ledger schema ([models/Transaction])

    The fields and their enumerations are the schema's.  Its indexes are
    not part of the embedding: the store does not refuse a document for the
    [unique] flag of [txHash]. *)

Module Transaction.

Inductive TxType : Type := BUY | APPROVE.

Inductive TxStatus : Type := SUCCESS | FAILED | PENDING.

Record t : Type := mk {
  buyerAddress : string;
  type : TxType;
  amount : string;
  status : TxStatus;
  txHash : string;
  timestamp : Z;
  tokenPrice : JsNumber.number;
  usdtAmount : string
}.

Definition type_name (ty : TxType) : string :=
  match ty with
  | BUY => "BUY"
  | APPROVE => "APPROVE"
  end.

Definition status_name (st : TxStatus) : string :=
  match st with
  | SUCCESS => "SUCCESS"
  | FAILED => "FAILED"
  | PENDING => "PENDING"
  end.

Definition is_terminal (st : TxStatus) : bool :=
  match st with
  | PENDING => false
  | _ => true
  end.

(** [doc.status = st; doc.txHash = h] *)
Definition set_status (st : TxStatus) (d : t) : t :=
  mk (buyerAddress d) (type d) (amount d) st (txHash d) (timestamp d)
     (tokenPrice d) (usdtAmount d).

Definition set_txHash (h : string) (d : t) : t :=
  mk (buyerAddress d) (type d) (amount d) (status d) h (timestamp d)
     (tokenPrice d) (usdtAmount d).

End Transaction.

(** ** The world of a handler: the store and the chain gateway *)

Module World.
Import Js.

(** Calls made to the chain gateway, two reads and two writes, each with
    the answer it got. *)
Inductive ChainCall : Type :=
| CallBalanceOf (owner : string) (answer : result Z)
| CallAllowance (owner spender : string) (answer : result Z)
| SendTransferFrom (from to : string) (value : Z) (answer : result string)
| SendMint (to : string) (amount : Z) (answer : result string).

Definition is_write (c : ChainCall) : bool :=
  match c with
  | SendTransferFrom _ _ _ _ | SendMint _ _ _ => true
  | _ => false
  end.

(** What the gateway answers.  A write answers [Ok hash] when the
    transaction was sent and its confirmation awaited ([tx.wait()]), and
    throws when either step fails. *)
Record Gateway : Type := {
  gw_balanceOf : string -> result Z;
  gw_allowance : string -> string -> result Z;
  gw_transferFrom : string -> string -> Z -> result string;
  gw_mint : string -> Z -> result string
}.

(** Writes to the store: the first [save] of a document inserts it, a
    later one updates it. *)
Inductive StoreWrite : Type :=
| Insert (id : nat) (doc : Transaction.t)
| Update (id : nat) (doc : Transaction.t).

Record t : Type := mk {
  ledger : list Transaction.t;
  store_log : list StoreWrite;
  chain_log : list ChainCall
}.

Definition empty : t := mk [] [] [].

(** Computations of a handler: they may throw, and act on the world. *)
Definition M (A : Type) : Type := t -> result A * t.

Definition ret {A} (a : A) : M A := fun w => (Ok a, w).

Definition throw {A} (e : JsError) : M A := fun w => (Throw e, w).

Definition bind {A B} (m : M A) (k : A -> M B) : M B :=
  fun w =>
    match m w with
    | (Ok a, w') => k a w'
    | (Throw e, w') => (Throw e, w')
    end.

(** [try { m } catch (error) { h error }] *)
Definition try_catch {A} (m : M A) (h : JsError -> M A) : M A :=
  fun w =>
    match m w with
    | (Ok a, w') => (Ok a, w')
    | (Throw e, w') => h e w'
    end.

Definition lift {A} (r : result A) : M A := fun w => (r, w).

(** A gateway call: logged with its answer. *)
Definition call {A} (c : result A -> ChainCall) (answer : result A) : M A :=
  fun w => (answer, mk (ledger w) (store_log w) (chain_log w ++ [c answer])).

(** [await doc.save()] of a new document: appended; its [_id] is its
    position. *)
Definition save_new (d : Transaction.t) : M nat :=
  fun w =>
    let id := length (ledger w) in
    (Ok id, mk (ledger w ++ [d]) (store_log w ++ [Insert id d]) (chain_log w)).

(** [await doc.save()] of a document already stored. *)
Definition save (id : nat) (d : Transaction.t) : M unit :=
  fun w =>
    (Ok tt, mk (<[id := d]> (ledger w)) (store_log w ++ [Update id d]) (chain_log w)).

(** [Model.find(...)], [countDocuments], [aggregate]: reads of the whole
    collection. *)
Definition documents : M (list Transaction.t) := fun w => (Ok (ledger w), w).

(** The gateway writes among a list of calls. *)
Definition writes (l : list ChainCall) : list ChainCall := List.filter is_write l.

End World.

Declare Scope handler_scope.
Delimit Scope handler_scope with handler.
Notation "x <- c ;; k" := (World.bind c (fun x => k))
  (at level 100, c at next level, right associativity) : handler_scope.
Notation "c ;;; k" := (World.bind c (fun _ => k))
  (at level 100, right associativity) : handler_scope.

(** An HTTP response: [res.status(n).json(body)]. *)
Record Response (B : Type) : Type := respond {
  res_status : Z;
  res_body : B
}.
Arguments respond {B} _ _.
Arguments res_status {B} _.
Arguments res_body {B} _.

(** ** The purchase orchestrator ([POST /api/buy-tokens]) *)

Module Server.
Import JsNumber Js Ethers World.

(** Token sale configuration. *)
Definition TOKEN_PRICE_USDT : number := of_Z 1.
Definition TOKEN_DECIMALS : nat := 18.
Definition USDT_DECIMALS : nat := 6.

(** [(usdtAmount * (10 ** TOKEN_DECIMALS)) / TOKEN_PRICE_USDT]; the
    multiplication converts its operand with ToNumber. *)
Definition calculateTokenAmount (usdtAmount : JsValue) : number :=
  div (mul (ToNumber usdtAmount) (pow10 (Z.of_nat TOKEN_DECIMALS)))
      TOKEN_PRICE_USDT.

(** Bodies of the purchase endpoint's responses. *)
Inductive BuyBody : Type :=
| BodyError (error : string)
| BodyInsufficientBalance (error required available : string)
| BodyInsufficientAllowance (error required approved : string)
| BodyPurchased (success : bool) (message transactionHash tokenAmount : string)
| BodyFailed (error details : string).

(** An address argument of a contract call: ethers rejects what is not a
    string before anything is sent. *)
Definition resolveAddress (v : JsValue) : result string :=
  match v with
  | JStr s => Ok s
  | _ => Throw (invalid_argument "unsupported addressable value")
  end.

(** The outer [catch] of the handler. *)
Definition purchase_failure (error : JsError) : Response BuyBody :=
  if String.eqb (err_code error) "INSUFFICIENT_FUNDS" then
    respond 400 (BodyError "Insufficient funds for gas (admin wallet)")
  else if String.eqb (err_code error) "UNPREDICTABLE_GAS_LIMIT" then
    respond 400 (BodyError
      "Transaction would fail on chain. Check gas limit, balance, and contract logic.")
  else if String.eqb (err_code error) "CALL_EXCEPTION" then
    respond 400 (BodyError ("Blockchain call failed: " ++
      match err_reason error with
      | Some r => if String.eqb r "" then "unknown revert" else r
      | None => "unknown revert"
      end))
  else
    respond 500 (BodyFailed "Failed to process token purchase" (err_message error)).

Section Handlers.

(** [process.env.ADMIN_ADDRESS], the gateway, and [Date.now()] when the
    request is served. *)
Variable ADMIN_ADDRESS : string.
Variable gw : Gateway.
Variable now : Z.

Local Open Scope handler_scope.

(** The [try] block of the handler, up to its response. *)
Definition purchase (usdtAmount buyerAddress : JsValue) : M (Response BuyBody) :=
  if negb (truthy usdtAmount) || negb (truthy buyerAddress) then
    ret (respond 400 (BodyError "Missing required parameters"))
  else
    let tokenAmount := calculateTokenAmount usdtAmount in
    usdtString <- lift (Js.toString usdtAmount) ;;
    usdtAmountWithDecimals <- lift (parseUnits usdtString USDT_DECIMALS) ;;
    let tokenString := JsNumber.toString tokenAmount in
    tokenAmountWithDecimals <- lift (parseUnits tokenString TOKEN_DECIMALS) ;;
    buyer <- lift (resolveAddress buyerAddress) ;;
    buyerBalance <- call (CallBalanceOf buyer) (gw_balanceOf gw buyer) ;;
    if buyerBalance <? usdtAmountWithDecimals then
      ret (respond 400 (BodyInsufficientBalance
             "Insufficient USDT balance"
             (formatUnits usdtAmountWithDecimals USDT_DECIMALS)
             (formatUnits buyerBalance USDT_DECIMALS)))
    else
      allowance <- call (CallAllowance buyer ADMIN_ADDRESS)
                        (gw_allowance gw buyer ADMIN_ADDRESS) ;;
      if allowance <? usdtAmountWithDecimals then
        ret (respond 400 (BodyInsufficientAllowance
               "Insufficient USDT allowance. Please approve USDT transfer first."
               (formatUnits usdtAmountWithDecimals USDT_DECIMALS)
               (formatUnits allowance USDT_DECIMALS)))
      else
        let pendingTx :=
          Transaction.mk buyer Transaction.BUY tokenString Transaction.PENDING
                         "pending" now TOKEN_PRICE_USDT usdtString in
        id <- save_new pendingTx ;;
        try_catch
          (_ <- call (SendTransferFrom buyer ADMIN_ADDRESS usdtAmountWithDecimals)
                     (gw_transferFrom gw buyer ADMIN_ADDRESS usdtAmountWithDecimals) ;;
           mintHash <- call (SendMint buyer tokenAmountWithDecimals)
                            (gw_mint gw buyer tokenAmountWithDecimals) ;;
           save id (Transaction.set_txHash mintHash
                      (Transaction.set_status Transaction.SUCCESS pendingTx)) ;;;
           ret (respond 200 (BodyPurchased true "Token purchase successful"
                               mintHash tokenString)))
          (fun error =>
             save id (Transaction.set_status Transaction.FAILED pendingTx) ;;;
             throw error).

(** The whole handler: what is thrown becomes an error response. *)
Definition buy_tokens (usdtAmount buyerAddress : JsValue) (w : World.t)
  : Response BuyBody * World.t :=
  match purchase usdtAmount buyerAddress w with
  | (Ok r, w') => (r, w')
  | (Throw error, w') => (purchase_failure error, w')
  end.

End Handlers.
End Server.


(** ** Store queries: sorting, grouping, dates and numeric conversion *)

Module Query.

Section Sort.
Context {A : Type} (leb : A -> A -> bool).

Fixpoint insert_sorted (x : A) (l : list A) : list A :=
  match l with
  | [] => [x]
  | y :: r => if leb x y then x :: l else y :: insert_sorted x r
  end.

(** [.sort(...)] and [$sort]: the order among equal keys is the store's
    choice; here it is the order of arrival. *)
Definition sort (l : list A) : list A := fold_right insert_sorted [] l.

End Sort.

Section Group.
Context {A : Type}.

(** Add [x] to the group of key [k], opening one if need be. *)
Fixpoint add_to_group (k : string) (x : A) (gs : list (string * list A))
  : list (string * list A) :=
  match gs with
  | [] => [(k, [x])]
  | (k', xs) :: r =>
      if String.eqb k k' then (k', (xs ++ [x])%list) :: r
      else (k', xs) :: add_to_group k x r
  end.

(** [$group] by a string key: one group per distinct key. *)
Definition group_by (key : A -> string) (l : list A) : list (string * list A) :=
  fold_left (fun gs x => add_to_group (key x) x gs) l [].

End Group.

(** *** Dates: milliseconds since the epoch, UTC *)

Definition ms_per_day : Z := 86400000.

(** Year, month and day of a day number (days since 1970-01-01), in the
    proleptic Gregorian calendar. *)
Definition civil_from_days (days : Z) : Z * Z * Z :=
  let z := days + 719468 in
  let era := z / 146097 in
  let doe := z - era * 146097 in
  let yoe := (doe - doe / 1460 + doe / 36524 - doe / 146096) / 365 in
  let doy := doe - (365 * yoe + yoe / 4 - yoe / 100) in
  let mp := (5 * doy + 2) / 153 in
  let d := doy - (153 * mp + 2) / 5 + 1 in
  let m := if mp <? 10 then mp + 3 else mp - 9 in
  let y := yoe + era * 400 + (if m <=? 2 then 1 else 0) in
  (y, m, d).

(** A non-negative integer on at least [width] digits. *)
Definition pad (width : nat) (z : Z) : string :=
  let d := Chars.decimal z in
  Chars.zeros (width - String.length d) ++ d.

(** [{ $dateToString: { format: '%Y-%m-%d', date: ... } }]; the store
    refuses years outside 0..9999. *)
Definition dateToString (ms : Z) : option string :=
  let '(y, m, d) := civil_from_days (ms / ms_per_day) in
  if (0 <=? y) && (y <=? 9999)
  then Some (pad 4 y ++ "-" ++ pad 2 m ++ "-" ++ pad 2 d)
  else None.

(** [new Date(ms).toISOString()] *)
Definition toISOString (ms : Z) : string :=
  let '(y, m, d) := civil_from_days (ms / ms_per_day) in
  let t := ms mod ms_per_day in
  let year :=
    if (0 <=? y) && (y <=? 9999) then pad 4 y
    else (if y <? 0 then "-" else "+") ++ pad 6 (Z.abs y) in
  year ++ "-" ++ pad 2 m ++ "-" ++ pad 2 d ++ "T" ++
  pad 2 (t / 3600000) ++ ":" ++ pad 2 (t / 60000 mod 60) ++ ":" ++
  pad 2 (t / 1000 mod 60) ++ "." ++ pad 3 (t mod 1000) ++ "Z".

(** *** [$toDouble]

    The store converts the decimal strings of the ledger to doubles and
    adds doubles; the aggregation is modelled on the exact rationals the
    strings denote.  [None] is the store's conversion failure. *)
Definition toDouble (s : string) : option Q :=
  let l := list_ascii_of_string s in
  let '(neg, l1) :=
    match l with
    | "-"%char :: r => (true, r)
    | "+"%char :: r => (false, r)
    | _ => (false, l)
    end in
  let '(ip, r1) := Chars.span_digits l1 in
  let '(fp, r2) :=
    match r1 with
    | "."%char :: r => Chars.span_digits r
    | _ => ([], r1)
    end in
  match (ip ++ fp)%list with
  | [] => None
  | ds =>
      let ex :=
        match r2 with
        | [] => Some 0
        | c :: r => if Ascii.eqb (Js.lower c) "e" then Js.exponent_part r else None
        end in
      match ex with
      | Some x =>
          let m := Chars.digits_val ds in
          let m := if neg then - m else m in
          let e := x - Z.of_nat (length fp) in
          Some (Qred (if 0 <=? e then inject_Z (m * 10 ^ e)
                      else Qmake m (Z.to_pos (10 ^ (- e)))))
      | None => None
      end
  end.

(** [$sum] of converted values. *)
Definition sum (l : list Q) : Q := Qred (fold_left Qplus l 0%Q).

(** [$avg] of a non-empty list of converted values. *)
Definition avg (l : list Q) : Q :=
  Qred (sum l / inject_Z (Z.of_nat (length l))).

(** All conversions of a pipeline, or the first failure. *)
Fixpoint all_some {A B : Type} (f : A -> option B) (l : list A) : option (list B) :=
  match l with
  | [] => Some []
  | x :: r =>
      match f x, all_some f r with
      | Some y, Some ys => Some (y :: ys)
      | _, _ => None
      end
  end.

End Query.


(** ** The reporting service and the remaining endpoints *)

(** Parameters of [GET /api/transaction-history].  [page] and [limit] are
    the positive integers their numerals denote; [startDate] and [endDate]
    are the instants [new Date(...)] reads. *)
Module HistoryQuery.
Record t : Type := mk {
  address : option string;
  page : option positive;
  limit : option positive;
  type : option string;
  status : option string;
  startDate : option Z;
  endDate : option Z
}.
End HistoryQuery.

Module StatsQuery.
Record t : Type := mk {
  startDate : option Z;
  endDate : option Z
}.
End StatsQuery.

Module ExportQuery.
Record t : Type := mk {
  address : option string;
  format : option string
}.
End ExportQuery.

Module TotalStats.
Record t : Type := mk {
  totalTokensSold : Q;
  totalUsdtRaised : Q;
  transactionCount : Z;
  averagePurchaseAmount : Q
}.
End TotalStats.

Module DailyStats.
Record t : Type := mk {
  _id : string;
  tokensSold : Q;
  usdtRaised : Q;
  transactionCount : Z
}.
End DailyStats.

Module TopBuyer.
Record t : Type := mk {
  _id : string;
  totalTokens : Q;
  totalUsdt : Q;
  transactionCount : Z
}.
End TopBuyer.

Module Reports.
Import Js Ethers World Query.

(** A query parameter that is present and not the empty string. *)
Definition given (o : option string) : option string :=
  match o with
  | Some s => if String.eqb s "" then None else Some s
  | None => None
  end.

Definition with_default {A} (d : A) (o : option A) : A :=
  match o with
  | Some a => a
  | None => d
  end.

(** [timestamp: { $gte: startDate, $lte: endDate }], for the bounds given. *)
Definition date_filter (startDate endDate : option Z) (d : Transaction.t) : bool :=
  match startDate with
  | Some a => a <=? Transaction.timestamp d
  | None => true
  end &&
  match endDate with
  | Some b => Transaction.timestamp d <=? b
  | None => true
  end.

(** [.sort({ timestamp: -1 })] *)
Definition newest_first (a b : Transaction.t) : bool :=
  Transaction.timestamp b <=? Transaction.timestamp a.

(** [Math.ceil(total / limit)] for a count and a positive limit. *)
Definition Math_ceil_div (total limit : Z) : Z := (total + limit - 1) / limit.

(** *** [GET /api/transaction-history] *)

Inductive HistoryBody : Type :=
| HistoryError (error : string)
| HistoryPage (transactions : list Transaction.t) (total page limit pages : Z).

(** The [query] object built from the parameters. *)
Definition history_match (address : string) (q : HistoryQuery.t)
    (d : Transaction.t) : bool :=
  String.eqb (Transaction.buyerAddress d) address &&
  match given (HistoryQuery.type q) with
  | Some ty => String.eqb (Transaction.type_name (Transaction.type d)) ty
  | None => true
  end &&
  match given (HistoryQuery.status q) with
  | Some st => String.eqb (Transaction.status_name (Transaction.status d)) st
  | None => true
  end &&
  date_filter (HistoryQuery.startDate q) (HistoryQuery.endDate q) d.

Local Open Scope handler_scope.

Definition history (q : HistoryQuery.t) : M (Response HistoryBody) :=
  let page := with_default 1%positive (HistoryQuery.page q) in
  let limit := with_default 10%positive (HistoryQuery.limit q) in
  match given (HistoryQuery.address q) with
  | None => ret (respond 400 (HistoryError "Address is required"))
  | Some address =>
      let skip := (Zpos page - 1) * Zpos limit in
      docs <- documents ;;
      let found := List.filter (history_match address q) docs in
      let transactions :=
        firstn (Pos.to_nat limit) (skipn (Z.to_nat skip) (sort newest_first found)) in
      let total := Z.of_nat (length found) in
      ret (respond 200 (HistoryPage transactions total (Zpos page) (Zpos limit)
                          (Math_ceil_div total (Zpos limit))))
  end.

Definition transaction_history (q : HistoryQuery.t) (w : World.t)
  : Response HistoryBody * World.t :=
  match history q w with
  | (Ok r, w') => (r, w')
  | (Throw _, w') => (respond 500 (HistoryError "Failed to get transaction history"), w')
  end.

(** *** [GET /api/stats] *)

Inductive StatsBody : Type :=
| StatsError (error : string)
| StatsReport (totalStats : TotalStats.t) (dailyStats : list DailyStats.t)
              (topBuyers : list TopBuyer.t).

(** [{ ...dateFilter, type: 'BUY', status: 'SUCCESS' }] *)
Definition stats_match (q : StatsQuery.t) (d : Transaction.t) : bool :=
  date_filter (StatsQuery.startDate q) (StatsQuery.endDate q) d &&
  String.eqb (Transaction.type_name (Transaction.type d)) "BUY" &&
  String.eqb (Transaction.status_name (Transaction.status d)) "SUCCESS".

(** What the three pipelines compute from a matched document: its buyer,
    its day, and its two amounts converted. *)
Record Sale : Type := mkSale {
  sale_buyer : string;
  sale_day : string;
  sale_tokens : Q;
  sale_usdt : Q
}.

Definition sale_of (d : Transaction.t) : option Sale :=
  match toDouble (Transaction.amount d), toDouble (Transaction.usdtAmount d),
        dateToString (Transaction.timestamp d) with
  | Some a, Some u, Some day => Some (mkSale (Transaction.buyerAddress d) day a u)
  | _, _, _ => None
  end.

Definition store_error : JsError :=
  mkError "" None "aggregation failed".

(** First pipeline: one group of all the sales, none when there is no
    sale. *)
Definition total_pipeline (sales : list Sale) : list TotalStats.t :=
  match sales with
  | [] => []
  | _ =>
      [TotalStats.mk (sum (map sale_tokens sales)) (sum (map sale_usdt sales))
                     (Z.of_nat (length sales)) (avg (map sale_usdt sales))]
  end.

(** Second pipeline: per day, ascending by the day string. *)
Definition daily_pipeline (sales : list Sale) : list DailyStats.t :=
  sort (fun a b => String.leb (DailyStats._id a) (DailyStats._id b))
       (map (fun '(day, g) =>
               DailyStats.mk day (sum (map sale_tokens g)) (sum (map sale_usdt g))
                             (Z.of_nat (length g)))
            (group_by sale_day sales)).

(** Third pipeline: per buyer, descending by the stablecoin spent, ten at
    most. *)
Definition top_pipeline (sales : list Sale) : list TopBuyer.t :=
  firstn 10
    (sort (fun a b => Qle_bool (TopBuyer.totalUsdt b) (TopBuyer.totalUsdt a))
          (map (fun '(buyer, g) =>
                  TopBuyer.mk buyer (sum (map sale_tokens g)) (sum (map sale_usdt g))
                              (Z.of_nat (length g)))
               (group_by sale_buyer sales))).

Definition no_sales : TotalStats.t := TotalStats.mk 0 0 0 0.

Definition sale_stats (q : StatsQuery.t) : M (Response StatsBody) :=
  docs <- documents ;;
  let matched := List.filter (stats_match q) docs in
  match all_some sale_of matched with
  | None => throw store_error
  | Some sales =>
      let totalStats := total_pipeline sales in
      let dailyStats := daily_pipeline sales in
      let topBuyers := top_pipeline sales in
      ret (respond 200 (StatsReport
             (match totalStats with
              | first :: _ => first
              | [] => no_sales
              end)
             dailyStats topBuyers))
  end.

Definition stats (q : StatsQuery.t) (w : World.t) : Response StatsBody * World.t :=
  match sale_stats q w with
  | (Ok r, w') => (r, w')
  | (Throw _, w') => (respond 500 (StatsError "Failed to get sale statistics"), w')
  end.

(** *** [GET /api/export-transactions] *)

Inductive ExportBody : Type :=
| ExportError (error : string)
| ExportCsv (csv : string)
| ExportJson (transactions : list Transaction.t).

Definition newline : string := String (ascii_of_nat 10) EmptyString.

(** [row.join(sep)] *)
Fixpoint join (sep : string) (row : list string) : string :=
  match row with
  | [] => ""
  | [x] => x
  | x :: r => x ++ sep ++ join sep r
  end.

Definition csv_header : list string :=
  ["Date"; "Type"; "Amount"; "Status"; "Transaction Hash"; "Token Price";
   "USDT Amount"].

Definition csv_row (tx : Transaction.t) : list string :=
  [toISOString (Transaction.timestamp tx);
   Transaction.type_name (Transaction.type tx);
   Transaction.amount tx;
   Transaction.status_name (Transaction.status tx);
   Transaction.txHash tx;
   JsNumber.toString (Transaction.tokenPrice tx);
   Transaction.usdtAmount tx].

Definition export (q : ExportQuery.t) : M (Response ExportBody) :=
  let format := with_default "csv" (ExportQuery.format q) in
  match given (ExportQuery.address q) with
  | None => ret (respond 400 (ExportError "Address is required"))
  | Some address =>
      docs <- documents ;;
      let transactions :=
        sort newest_first
             (List.filter (fun d => String.eqb (Transaction.buyerAddress d) address) docs) in
      if String.eqb format "csv" then
        ret (respond 200 (ExportCsv
               (join newline (map (join ",") (csv_header :: map csv_row transactions)))))
      else
        ret (respond 200 (ExportJson transactions))
  end.

Definition export_transactions (q : ExportQuery.t) (w : World.t)
  : Response ExportBody * World.t :=
  match export q w with
  | (Ok r, w') => (r, w')
  | (Throw _, w') => (respond 500 (ExportError "Failed to export transactions"), w')
  end.

(** *** [GET /api/token-price] and [GET /api/usdt-allowance] *)

Inductive PriceBody : Type :=
| PriceInfo (price : JsNumber.number) (decimals : nat).

Definition token_price (w : World.t) : Response PriceBody * World.t :=
  (respond 200 (PriceInfo Server.TOKEN_PRICE_USDT Server.TOKEN_DECIMALS), w).

Inductive AllowanceBody : Type :=
| AllowanceError (error : string)
| AllowanceInfo (allowance : string).

Definition usdt_allowance (ADMIN_ADDRESS : string) (gw : Gateway)
    (address : option string) (w : World.t) : Response AllowanceBody * World.t :=
  match given address with
  | None => (respond 400 (AllowanceError "Address is required"), w)
  | Some a =>
      match call (CallAllowance a ADMIN_ADDRESS) (gw_allowance gw a ADMIN_ADDRESS) w with
      | (Ok allowance, w') =>
          (respond 200 (AllowanceInfo (formatUnits allowance Server.USDT_DECIMALS)), w')
      | (Throw _, w') =>
          (respond 500 (AllowanceError "Failed to get USDT allowance"), w')
      end
  end.

End Reports.


(** ** The server: one request at a time *)

Module Service.
Import Js World Server Reports.

Inductive Request : Type :=
| BuyTokens (gw : Gateway) (now : Z) (usdtAmount buyerAddress : JsValue)
| TokenPrice
| UsdtAllowance (gw : Gateway) (address : option string)
| TransactionHistory (q : HistoryQuery.t)
| Stats (q : StatsQuery.t)
| ExportTransactions (q : ExportQuery.t).

Inductive Reply : Type :=
| BuyReply (r : Response BuyBody)
| PriceReply (r : Response PriceBody)
| AllowanceReply (r : Response AllowanceBody)
| HistoryReply (r : Response HistoryBody)
| StatsReply (r : Response StatsBody)
| ExportReply (r : Response ExportBody).

Definition is_purchase (r : Request) : bool :=
  match r with
  | BuyTokens _ _ _ _ => true
  | _ => false
  end.

Definition serve (ADMIN_ADDRESS : string) (r : Request) (w : World.t)
  : Reply * World.t :=
  match r with
  | BuyTokens gw now usdtAmount buyerAddress =>
      let '(res, w') := buy_tokens ADMIN_ADDRESS gw now usdtAmount buyerAddress w in
      (BuyReply res, w')
  | TokenPrice =>
      let '(res, w') := token_price w in (PriceReply res, w')
  | UsdtAllowance gw address =>
      let '(res, w') := usdt_allowance ADMIN_ADDRESS gw address w in
      (AllowanceReply res, w')
  | TransactionHistory q =>
      let '(res, w') := transaction_history q w in (HistoryReply res, w')
  | Stats q =>
      let '(res, w') := stats q w in (StatsReply res, w')
  | ExportTransactions q =>
      let '(res, w') := export_transactions q w in (ExportReply res, w')
  end.

(** The world after a sequence of requests. *)
Definition serve_all (ADMIN_ADDRESS : string) (rs : list Request) (w : World.t)
  : World.t :=
  fold_left (fun w r => snd (serve ADMIN_ADDRESS r w)) rs w.

End Service.

(** ** Start-up: the environment check ([server.js], lines 7 to 32)

    [process.env] is the finite map of the variables that are set to their
    values, [gmap string string].  The connection to the store is opened
    asynchronously and is not part of this synchronous run of the script. *)

Module Startup.
Import Js.

Definition requiredEnvVars : list string :=
  ["USDT_CONTRACT_ADDRESS"; "NATIVE_TOKEN_CONTRACT_ADDRESS"; "ADMIN_PRIVATE_KEY";
   "ADMIN_ADDRESS"; "RPC_URL"; "MONGODB_URI"].

(** [process.env[varName]] *)
Definition getenv (env : gmap string string) (varName : string) : JsValue :=
  match env !! varName with
  | Some value => JStr value
  | None => JUndefined
  end.

Definition missingEnvVars (env : gmap string string) : list string :=
  List.filter (fun varName => negb (truthy (getenv env varName))) requiredEnvVars.

(** [process.env.PORT || 5001] *)
Definition port (env : gmap string string) : JsValue :=
  if truthy (getenv env "PORT") then getenv env "PORT" else JNum (JsNumber.of_Z 5001).

(** How the script ends its synchronous part: [process.exit(1)] after
    reporting the missing variables, or [app.listen(port)]. *)
Inductive Outcome : Type :=
| Exit (code : Z) (reported : list string)
| Listen (port : JsValue).

Definition start (env : gmap string string) : Outcome :=
  let missing := missingEnvVars env in
  if (0 <? length missing)%nat then Exit 1 missing else Listen (port env).

End Startup.


(** * Specification

    The vocabulary of the statements: the runs of the purchase handler, what
    a request does to the store, what grouping means, and the concrete
    worlds the statements are instantiated at. *)

Import JsNumber Js Ethers World Server Query Reports Service.
Local Open Scope list_scope.

(** The conversions are kept folded in proofs about the handlers. *)
Arguments formatUnits : simpl never.
Arguments parseUnits : simpl never.
Arguments JsNumber.toString : simpl never.
Arguments Js.toString : simpl never.
Arguments calculateTokenAmount : simpl never.
Arguments resolveAddress : simpl never.
Arguments truthy : simpl never.
Arguments TOKEN_PRICE_USDT : simpl never.

(** ** Runs of the purchase handler

    Every run of [purchase] is of one of nine kinds, told apart by how far
    it got.  The claims about the orchestrator are read off this relation. *)

Section PurchaseRuns.

Variable ADMIN_ADDRESS : string.
Variable gw : Gateway.
Variable now : Z.

(** The world after more gateway calls, the store untouched. *)
Definition after_calls (w : World.t) (calls : list ChainCall) : World.t :=
  World.mk (ledger w) (store_log w) (chain_log w ++ calls).

(** The world after a document was inserted as [doc0] and saved again as
    [doc1], and the calls made meanwhile. *)
Definition after_purchase (w : World.t) (doc0 doc1 : Transaction.t)
    (calls : list ChainCall) : World.t :=
  World.mk (ledger w ++ [doc1])
           (store_log w ++ [Insert (length (ledger w)) doc0;
                            Update (length (ledger w)) doc1])
           (chain_log w ++ calls).

(** The request passed its conversions: lines 87 to 103 of the handler. *)
Definition prepared (usdtAmount buyerAddress : JsValue)
    (usdtString : string) (required minted : Z) (buyer : string) : Prop :=
  truthy usdtAmount = true /\ truthy buyerAddress = true /\
  Js.toString usdtAmount = Ok usdtString /\
  parseUnits usdtString USDT_DECIMALS = Ok required /\
  parseUnits (JsNumber.toString (calculateTokenAmount usdtAmount)) TOKEN_DECIMALS
    = Ok minted /\
  resolveAddress buyerAddress = Ok buyer.

Definition pending_doc (usdtAmount : JsValue) (usdtString buyer : string)
  : Transaction.t :=
  Transaction.mk buyer Transaction.BUY
    (JsNumber.toString (calculateTokenAmount usdtAmount))
    Transaction.PENDING "pending" now TOKEN_PRICE_USDT usdtString.

Inductive run (usdtAmount buyerAddress : JsValue) (w : World.t)
  : result (Response BuyBody) -> World.t -> Prop :=
| run_missing :
    truthy usdtAmount && truthy buyerAddress = false ->
    run usdtAmount buyerAddress w
        (Ok (respond 400 (BodyError "Missing required parameters"))) w
| run_refused e :
    truthy usdtAmount = true -> truthy buyerAddress = true ->
    run usdtAmount buyerAddress w (Throw e) w
| run_balance_unread s req tok buyer e :
    prepared usdtAmount buyerAddress s req tok buyer ->
    gw_balanceOf gw buyer = Throw e ->
    run usdtAmount buyerAddress w (Throw e)
        (after_calls w [CallBalanceOf buyer (Throw e)])
| run_insufficient_balance s req tok buyer bal :
    prepared usdtAmount buyerAddress s req tok buyer ->
    gw_balanceOf gw buyer = Ok bal -> bal < req ->
    run usdtAmount buyerAddress w
        (Ok (respond 400 (BodyInsufficientBalance "Insufficient USDT balance"
               (formatUnits req USDT_DECIMALS) (formatUnits bal USDT_DECIMALS))))
        (after_calls w [CallBalanceOf buyer (Ok bal)])
| run_allowance_unread s req tok buyer bal e :
    prepared usdtAmount buyerAddress s req tok buyer ->
    gw_balanceOf gw buyer = Ok bal -> req <= bal ->
    gw_allowance gw buyer ADMIN_ADDRESS = Throw e ->
    run usdtAmount buyerAddress w (Throw e)
        (after_calls w [CallBalanceOf buyer (Ok bal);
                        CallAllowance buyer ADMIN_ADDRESS (Throw e)])
| run_insufficient_allowance s req tok buyer bal allow :
    prepared usdtAmount buyerAddress s req tok buyer ->
    gw_balanceOf gw buyer = Ok bal -> req <= bal ->
    gw_allowance gw buyer ADMIN_ADDRESS = Ok allow -> allow < req ->
    run usdtAmount buyerAddress w
        (Ok (respond 400 (BodyInsufficientAllowance
               "Insufficient USDT allowance. Please approve USDT transfer first."
               (formatUnits req USDT_DECIMALS) (formatUnits allow USDT_DECIMALS))))
        (after_calls w [CallBalanceOf buyer (Ok bal);
                        CallAllowance buyer ADMIN_ADDRESS (Ok allow)])
| run_payment_failed s req tok buyer bal allow e :
    prepared usdtAmount buyerAddress s req tok buyer ->
    gw_balanceOf gw buyer = Ok bal -> req <= bal ->
    gw_allowance gw buyer ADMIN_ADDRESS = Ok allow -> req <= allow ->
    gw_transferFrom gw buyer ADMIN_ADDRESS req = Throw e ->
    run usdtAmount buyerAddress w (Throw e)
        (after_purchase w (pending_doc usdtAmount s buyer)
           (Transaction.set_status Transaction.FAILED (pending_doc usdtAmount s buyer))
           [CallBalanceOf buyer (Ok bal);
            CallAllowance buyer ADMIN_ADDRESS (Ok allow);
            SendTransferFrom buyer ADMIN_ADDRESS req (Throw e)])
| run_mint_failed s req tok buyer bal allow payHash e :
    prepared usdtAmount buyerAddress s req tok buyer ->
    gw_balanceOf gw buyer = Ok bal -> req <= bal ->
    gw_allowance gw buyer ADMIN_ADDRESS = Ok allow -> req <= allow ->
    gw_transferFrom gw buyer ADMIN_ADDRESS req = Ok payHash ->
    gw_mint gw buyer tok = Throw e ->
    run usdtAmount buyerAddress w (Throw e)
        (after_purchase w (pending_doc usdtAmount s buyer)
           (Transaction.set_status Transaction.FAILED (pending_doc usdtAmount s buyer))
           [CallBalanceOf buyer (Ok bal);
            CallAllowance buyer ADMIN_ADDRESS (Ok allow);
            SendTransferFrom buyer ADMIN_ADDRESS req (Ok payHash);
            SendMint buyer tok (Throw e)])
| run_purchased s req tok buyer bal allow payHash mintHash :
    prepared usdtAmount buyerAddress s req tok buyer ->
    gw_balanceOf gw buyer = Ok bal -> req <= bal ->
    gw_allowance gw buyer ADMIN_ADDRESS = Ok allow -> req <= allow ->
    gw_transferFrom gw buyer ADMIN_ADDRESS req = Ok payHash ->
    gw_mint gw buyer tok = Ok mintHash ->
    run usdtAmount buyerAddress w
        (Ok (respond 200 (BodyPurchased true "Token purchase successful" mintHash
               (JsNumber.toString (calculateTokenAmount usdtAmount)))))
        (after_purchase w (pending_doc usdtAmount s buyer)
           (Transaction.set_txHash mintHash
              (Transaction.set_status Transaction.SUCCESS (pending_doc usdtAmount s buyer)))
           [CallBalanceOf buyer (Ok bal);
            CallAllowance buyer ADMIN_ADDRESS (Ok allow);
            SendTransferFrom buyer ADMIN_ADDRESS req (Ok payHash);
            SendMint buyer tok (Ok mintHash)]).

End PurchaseRuns.

(** The gateway calls made between two worlds. *)
Definition new_calls (w w' : World.t) : list ChainCall :=
  skipn (length (chain_log w)) (chain_log w').

(** The response of a run: what was returned, or the outer [catch]'s
    answer to what was thrown. *)
Definition response_of (r : result (Response BuyBody)) : Response BuyBody :=
  match r with
  | Ok res => res
  | Throw error => purchase_failure error
  end.

Definition is_error_body (b : BuyBody) : bool :=
  match b with
  | BodyError _ | BodyFailed _ _ => true
  | _ => false
  end.

(** The three rejections by a precondition of the handler. *)
Definition rejected_by_precondition (b : BuyBody) : bool :=
  match b with
  | BodyError error => String.eqb error "Missing required parameters"
  | BodyInsufficientBalance _ _ _ => true
  | BodyInsufficientAllowance _ _ _ => true
  | _ => false
  end.

(** ** Matching a history query

    A record matches the buyer and the filters of a query: it is the
    buyer's, of the type and status asked for, if any, and within the dates
    asked for, if any. *)
Definition matches (address : string) (q : HistoryQuery.t) (d : Transaction.t)
  : Prop :=
  Transaction.buyerAddress d = address /\
  (forall ty, given (HistoryQuery.type q) = Some ty ->
              Transaction.type_name (Transaction.type d) = ty) /\
  (forall st, given (HistoryQuery.status q) = Some st ->
              Transaction.status_name (Transaction.status d) = st) /\
  (forall a, HistoryQuery.startDate q = Some a -> a <= Transaction.timestamp d) /\
  (forall b, HistoryQuery.endDate q = Some b -> Transaction.timestamp d <= b).

(** ** The store over time *)

(** Does a store write concern the document [i]? *)
Definition touches (i : nat) (s : StoreWrite) : bool :=
  match s with
  | Insert j _ | Update j _ => Nat.eqb i j
  end.

(** The writes the store saw for the document [i], in order. *)
Definition writes_of (i : nat) (w : World.t) : list StoreWrite :=
  List.filter (touches i) (store_log w).

(** Every record of the ledger was written exactly twice: inserted as
    PENDING, then saved once with the terminal status it still has; and
    nothing else was ever written. *)
Definition settled (w : World.t) : Prop :=
  (forall i d, ledger w !! i = Some d ->
     exists pending,
       writes_of i w = [Insert i pending; Update i d] /\
       Transaction.status pending = Transaction.PENDING /\
       Transaction.is_terminal (Transaction.status d) = true) /\
  (forall i, (length (ledger w) <= i)%nat -> writes_of i w = []).

(** What a request does to the store: nothing, or the insertion of one
    PENDING record and its one update to a terminal status. *)
Definition store_step (w w' : World.t) : Prop :=
  (ledger w' = ledger w /\ store_log w' = store_log w) \/
  (exists pending doc,
     ledger w' = ledger w ++ [doc] /\
     store_log w' = store_log w ++ [Insert (length (ledger w)) pending;
                                    Update (length (ledger w)) doc] /\
     Transaction.status pending = Transaction.PENDING /\
     Transaction.is_terminal (Transaction.status doc) = true).

(** ** Groups and their sums *)

Section Groups.
Context {A : Type} (key : A -> string).



End Groups.



(** ** The token amount on whole amounts *)


(** The Number 1.1 (the nearest binary64 value to 11/10). *)
Definition one_point_one : number := of_decimal 11 (-1).

(** The whole amounts whose product with 10^18 is a Number. *)
Definition whole_amounts : list Z := map Z.of_nat (seq 1 2362).

Definition exact_at (n : Z) : bool :=
  Qeq_bool (value (calculateTokenAmount (JNum (of_Z n)))) (inject_Z (n * 10 ^ 18)).

(** The whole amounts the handler converts (below 1000), and whether the
    token amount of one prints as the numeral of the amount times 10^18. *)
Definition convertible_amounts : list Z := map Z.of_nat (seq 1 999).

Definition prints_exactly (n : Z) : bool :=
  String.eqb (JsNumber.toString (calculateTokenAmount (JNum (of_Z n))))
             (Chars.decimal (n * 10 ^ 18)).

(** ** Concrete gateways, ledgers and queries *)

(** Addresses of the privileged signer and of three buyers, and hashes of
    confirmed transactions. *)
Definition admin_0 : string := "0xf39Fd6e51aad88F6F4ce6aB8827279cffFb92266".
Definition buyer_1 : string := "0x70997970C51812dc3A010C7d01b50e0d17dc79C8".
Definition buyer_2 : string := "0x3C44CdDdB6a900fa2b585dd299e03d12FA4293BC".
Definition buyer_3 : string := "0x90F79bf6EB2c4f870365E785982E1f101E93b906".

Definition payment_hash : string :=
  "0x5c504ed432cb51138bcf09aa5e8a410dd4a1e204ef84bfed1be16dfba1b22060".
Definition mint_hash : string :=
  "0x19f1df2c7ee6b464720ad28e903aeda1a5ad8780afc22f0b960827bd4fcf656d".
Definition mint_hash_2 : string :=
  "0x2f1c5c2b44f771e942a8506148e256f94f1a464babc938ae0690c6e34cd79190".
Definition mint_hash_3 : string :=
  "0x54e443b756ba837e1a2e8a2ea1ac3f7fe8ed3a78d9dfb4a1bd7de3cd9a5f0b8f".

(** A gateway that answers every read with the given balance and
    allowance and confirms every write. *)
Definition demo_gateway (balance allowance : Z) : Gateway :=
  Build_Gateway (fun _ => Ok balance) (fun _ _ => Ok allowance)
                (fun _ _ _ => Ok payment_hash) (fun _ _ => Ok mint_hash).

(** A gateway whose payment is confirmed and whose mint reverts. *)
Definition mint_reverts : Gateway :=
  Build_Gateway (fun _ => Ok 100000000) (fun _ _ => Ok 100000000)
                (fun _ _ _ => Ok payment_hash)
                (fun _ _ => Throw (mkError "CALL_EXCEPTION" (Some "paused") "execution reverted")).

Definition demo_now : Z := 1700000000000.

Definition demo_record (buyer usdt tokens hash : string) (ts : Z)
    (st : Transaction.TxStatus) : Transaction.t :=
  Transaction.mk buyer Transaction.BUY tokens st hash ts TOKEN_PRICE_USDT usdt.

(** Two purchases of 10 and 20 on 2023-11-14, an older one of 5.5 and a
    failed one. *)
Definition demo_world : World.t :=
  World.mk
    [demo_record buyer_1 "10" "10000000000000000000" mint_hash 1700000000000
                 Transaction.SUCCESS;
     demo_record buyer_2 "20" "20000000000000000000" mint_hash_2 1700000001000
                 Transaction.SUCCESS;
     demo_record buyer_1 "5.5" "5500000000000000000" mint_hash_3 1600000001000
                 Transaction.SUCCESS;
     demo_record buyer_3 "7" "7000000000000000000" "pending" 1650000000000
                 Transaction.FAILED]
    [] [].


Definition demo_history : HistoryQuery.t :=
  HistoryQuery.mk (Some buyer_1) None (Some 1%positive) None None None None.

(** A gateway whose node cannot be reached for reads. *)
Definition node_down : Gateway :=
  Build_Gateway (fun _ => Throw (mkError "NETWORK_ERROR" None "could not detect network"))
                (fun _ _ => Throw (mkError "NETWORK_ERROR" None "could not detect network"))
                (fun _ _ _ => Ok payment_hash) (fun _ _ => Ok mint_hash).

(** ** Whole amounts of one thousand and more *)



(** Whether a whole amount prints as its decimal numeral. *)
Definition prints_as_numeral (n : Z) : bool :=
  String.eqb (JsNumber.toString (of_Z n)) (Chars.decimal n).

(** ** Pages of a history *)

Definition with_page (p : positive) (q : HistoryQuery.t) : HistoryQuery.t :=
  HistoryQuery.mk (HistoryQuery.address q) (Some p) (HistoryQuery.limit q)
                  (HistoryQuery.type q) (HistoryQuery.status q)
                  (HistoryQuery.startDate q) (HistoryQuery.endDate q).

(** The transactions the history endpoint returns for page [p] of a query. *)
Definition page_of (q : HistoryQuery.t) (w : World.t) (p : positive)
  : list Transaction.t :=
  match res_body (fst (transaction_history (with_page p q) w)) with
  | HistoryPage transactions _ _ _ _ => transactions
  | HistoryError _ => []
  end.

(** Pages 1 to [n], one after the other. *)
Definition first_pages (n : nat) (q : HistoryQuery.t) (w : World.t)
  : list Transaction.t :=
  flat_map (fun i => page_of q w (Pos.of_nat i)) (seq 1 n).

(** The unfiltered history query of an export query. *)
Definition history_of (q : ExportQuery.t) : HistoryQuery.t :=
  HistoryQuery.mk (ExportQuery.address q) None None None None None None.

(** ** Reading an export back *)

(** [s.split(sep)] for a separator of one character. *)
Fixpoint split_on (sep : ascii) (s : string) : list string :=
  match s with
  | EmptyString => [""%string]
  | String c r =>
      if Ascii.eqb c sep then ""%string :: split_on sep r
      else
        match split_on sep r with
        | x :: xs => String c x :: xs
        | [] => [String c ""]
        end
  end.

Definition free_of (sep : ascii) (s : string) : bool :=
  forallb (fun c => negb (Ascii.eqb c sep)) (list_ascii_of_string s).

(** A field that holds neither of the two separators of the export, the
    comma and the line feed. *)
Definition plain (s : string) : bool :=
  free_of ","%char s && free_of (ascii_of_nat 10) s.

(** Requests whose gateway names its mint transactions by plain strings
    (transaction hashes are hexadecimal numerals). *)
Definition plain_hashes (r : Request) : Prop :=
  match r with
  | BuyTokens gw _ _ _ =>
      forall to amount hash, gw_mint gw to amount = Ok hash -> plain hash = true
  | _ => True
  end.

(** ** The ledger and the chain *)

Definition is_payment (c : ChainCall) : bool :=
  match c with
  | SendTransferFrom _ _ _ _ => true
  | _ => false
  end.

Definition confirmed_mint (c : ChainCall) : bool :=
  match c with
  | SendMint _ _ (Ok _) => true
  | _ => false
  end.

Definition failed_write (c : ChainCall) : bool :=
  match c with
  | SendTransferFrom _ _ _ (Throw _) | SendMint _ _ (Throw _) => true
  | _ => false
  end.

Definition has_status (st : Transaction.TxStatus) (d : Transaction.t) : bool :=
  match st, Transaction.status d with
  | Transaction.SUCCESS, Transaction.SUCCESS
  | Transaction.FAILED, Transaction.FAILED
  | Transaction.PENDING, Transaction.PENDING => true
  | _, _ => false
  end.

Definition count {A} (f : A -> bool) (l : list A) : nat := length (List.filter f l).

(** The ledger agrees with what was sent to the chain: one record per
    payment attempted, one SUCCESS record per confirmed mint, carrying its
    hash and its recipient, and one FAILED record per failed write. *)
Definition reconciled (w : World.t) : Prop :=
  count is_payment (chain_log w) = length (ledger w) /\
  count confirmed_mint (chain_log w) = count (has_status Transaction.SUCCESS) (ledger w) /\
  count failed_write (chain_log w) = count (has_status Transaction.FAILED) (ledger w) /\
  (forall d, In d (ledger w) -> Transaction.status d = Transaction.SUCCESS ->
             exists amount,
               In (SendMint (Transaction.buyerAddress d) amount (Ok (Transaction.txHash d)))
                  (chain_log w)).

(** ** The records the server writes *)

(** Requests served at an instant the store can print as a day. *)
Definition dated (r : Request) : Prop :=
  match r with
  | BuyTokens _ now _ _ => exists day, dateToString now = Some day
  | _ => True
  end.

(** A record as the purchase handler writes them: a BUY at the fixed
    price, settled, its two amounts the numerals printed from one request. *)
Definition well_formed (d : Transaction.t) : Prop :=
  Transaction.type d = Transaction.BUY /\
  Transaction.tokenPrice d = TOKEN_PRICE_USDT /\
  Transaction.status d <> Transaction.PENDING /\
  (Transaction.status d = Transaction.FAILED -> Transaction.txHash d = "pending"%string) /\
  (exists usdtAmount paid minted,
     Js.toString usdtAmount = Ok (Transaction.usdtAmount d) /\
     parseUnits (Transaction.usdtAmount d) USDT_DECIMALS = Ok paid /\
     Transaction.amount d = JsNumber.toString (calculateTokenAmount usdtAmount) /\
     parseUnits (Transaction.amount d) TOKEN_DECIMALS = Ok minted).

(** ** Start-up *)

(** A variable that is set to a non-empty value. *)
Definition configured (env : gmap string string) (name : string) : Prop :=
  exists value, env !! name = Some value /\ value <> ""%string.

(** An environment with the six required variables and no port. *)
Definition demo_env : gmap string string :=
  list_to_map
    [("USDT_CONTRACT_ADDRESS", "0xdAC17F958D2ee523a2206206994597C13D831ec7");
     ("NATIVE_TOKEN_CONTRACT_ADDRESS", "0x5FbDB2315678afecb367f032d93F642f64180aa3");
     ("ADMIN_PRIVATE_KEY", "key");
     ("ADMIN_ADDRESS", admin_0);
     ("RPC_URL", "http://127.0.0.1:8545");
     ("MONGODB_URI", "mongodb://127.0.0.1:27017/sale")]%string.


(** * Proofs *)

(** ** Runs of the purchase handler *)

Lemma insert_last (l : list Transaction.t) (d0 d1 : Transaction.t) :
  <[length l := d1]> (l ++ [d0]) = l ++ [d1].
Proof.
  induction l as [|x l IH]; simpl; [reflexivity|].
  f_equal. exact IH.
Qed.

Lemma app_two {A} (l : list A) (a b : A) : (l ++ [a]) ++ [b] = l ++ [a; b].
Proof. rewrite <- app_assoc. reflexivity. Qed.

Lemma app_three {A} (l : list A) (a b c : A) :
  ((l ++ [a]) ++ [b]) ++ [c] = l ++ [a; b; c].
Proof. rewrite <- !app_assoc. reflexivity. Qed.

Lemma app_four {A} (l : list A) (a b c d : A) :
  (((l ++ [a]) ++ [b]) ++ [c]) ++ [d] = l ++ [a; b; c; d].
Proof. rewrite <- !app_assoc. reflexivity. Qed.

(** Every run of the handler's [try] block is a [run]. *)
Lemma purchase_run (ADMIN_ADDRESS : string) (gw : Gateway) (now : Z)
    (usdtAmount buyerAddress : JsValue) (w : World.t) :
  run ADMIN_ADDRESS gw now usdtAmount buyerAddress w
      (fst (purchase ADMIN_ADDRESS gw now usdtAmount buyerAddress w))
      (snd (purchase ADMIN_ADDRESS gw now usdtAmount buyerAddress w)).
Proof.
  unfold purchase.
  destruct (truthy usdtAmount) eqn:Hu; simpl;
    [|apply run_missing; rewrite Hu; reflexivity].
  destruct (truthy buyerAddress) eqn:Hb; simpl;
    [|apply run_missing; rewrite Hu, Hb; reflexivity].
  unfold bind, lift, call, try_catch, save_new, save, ret, throw.
  destruct (Js.toString usdtAmount) as [s|e] eqn:Hs; simpl;
    [|apply run_refused; assumption].
  destruct (parseUnits s USDT_DECIMALS) as [req|e] eqn:Hreq; simpl;
    [|apply run_refused; assumption].
  destruct (parseUnits (JsNumber.toString (calculateTokenAmount usdtAmount))
                       TOKEN_DECIMALS) as [tok|e] eqn:Htok; simpl;
    [|apply run_refused; assumption].
  destruct (resolveAddress buyerAddress) as [buyer|e] eqn:Hbuyer; simpl;
    [|apply run_refused; assumption].
  assert (Hprep : prepared usdtAmount buyerAddress s req tok buyer)
    by (unfold prepared; auto 10).
  destruct (gw_balanceOf gw buyer) as [bal|e] eqn:Hbal; simpl;
    [|eapply run_balance_unread; eauto].
  destruct (Z.ltb_spec bal req) as [Hlt|Hge]; simpl.
  { eapply run_insufficient_balance; eauto. }
  destruct (gw_allowance gw buyer ADMIN_ADDRESS) as [allow|e] eqn:Hall; simpl.
  2:{ rewrite app_two.
      exact (run_allowance_unread _ _ _ _ _ _ s req tok buyer bal e Hprep Hbal Hge Hall). }
  destruct (Z.ltb_spec allow req) as [Hlt'|Hge']; simpl.
  { rewrite app_two.
    exact (run_insufficient_allowance _ _ _ _ _ _ s req tok buyer bal allow
             Hprep Hbal Hge Hall Hlt'). }
  destruct (gw_transferFrom gw buyer ADMIN_ADDRESS req) as [payHash|e] eqn:Hpay; simpl.
  2:{ rewrite insert_last, app_two, app_three.
      exact (run_payment_failed _ _ _ _ _ _ s req tok buyer bal allow e
               Hprep Hbal Hge Hall Hge' Hpay). }
  destruct (gw_mint gw buyer tok) as [mintHash|e] eqn:Hmint; simpl.
  2:{ rewrite insert_last, app_two, app_four.
      exact (run_mint_failed _ _ _ _ _ _ s req tok buyer bal allow payHash e
               Hprep Hbal Hge Hall Hge' Hpay Hmint). }
  rewrite insert_last, app_two, app_four.
  exact (run_purchased _ _ _ _ _ _ s req tok buyer bal allow payHash mintHash
           Hprep Hbal Hge Hall Hge' Hpay Hmint).
Qed.

Lemma skipn_length_app {A} (l k : list A) : skipn (length l) (l ++ k) = k.
Proof. induction l as [|x l IH]; simpl; [reflexivity | exact IH]. Qed.

Lemma new_calls_after_calls w calls : new_calls w (after_calls w calls) = calls.
Proof. unfold new_calls, after_calls. simpl. apply skipn_length_app. Qed.

Lemma new_calls_after_purchase w d0 d1 calls :
  new_calls w (after_purchase w d0 d1 calls) = calls.
Proof. unfold new_calls, after_purchase. simpl. apply skipn_length_app. Qed.

Lemma new_calls_same w : new_calls w w = [].
Proof.
  unfold new_calls. rewrite <- (app_nil_r (chain_log w)) at 2.
  apply skipn_length_app.
Qed.

Lemma buy_tokens_run ADMIN gw now usdtAmount buyerAddress w resp w' :
  buy_tokens ADMIN gw now usdtAmount buyerAddress w = (resp, w') ->
  exists r, run ADMIN gw now usdtAmount buyerAddress w r w' /\ resp = response_of r.
Proof.
  unfold buy_tokens. intros H.
  pose proof (purchase_run ADMIN gw now usdtAmount buyerAddress w) as Hrun.
  destruct (purchase ADMIN gw now usdtAmount buyerAddress w) as [[res|e] w1];
    simpl in Hrun; inversion H; subst; eexists; split; eauto.
Qed.

Lemma purchase_failure_is_error e :
  (res_status (purchase_failure e) = 400 \/ res_status (purchase_failure e) = 500) /\
  is_error_body (res_body (purchase_failure e)) = true /\
  rejected_by_precondition (res_body (purchase_failure e)) = false.
Proof.
  unfold purchase_failure.
  repeat match goal with
         | |- context [if ?b then _ else _] => destruct b
         end; simpl; auto.
Qed.

Ltac in_calls :=
  repeat match goal with
         | H : In _ (new_calls _ (after_calls _ _)) |- _ =>
             rewrite new_calls_after_calls in H
         | H : In _ (new_calls _ (after_purchase _ _ _ _)) |- _ =>
             rewrite new_calls_after_purchase in H
         | H : In _ (new_calls ?w ?w) |- _ => rewrite new_calls_same in H
         | H : In _ (_ :: _) |- _ => destruct H as [H|H]
         | H : In _ [] |- _ => destruct H
         | H : _ = _ :> ChainCall |- _ => first [discriminate H | injection H as; subst]
         | H : Ok _ = Throw _ |- _ => discriminate H
         | H : Throw _ = Ok _ |- _ => discriminate H
         | H : Ok _ = Ok _ |- _ => injection H as; subst
         | H : Throw _ = Throw _ |- _ => injection H as; subst
         end.

(** ** The purchase orchestrator: claims C1, C5, C9, C4, C3 *)





(** C9. A purchase rejected by a precondition (a missing input, an
    insufficient balance, an insufficient allowance) leaves the store as it
    was: nothing was inserted, nothing updated. *)
Theorem rejected_purchase_leaves_ledger ADMIN gw now usdtAmount buyerAddress w resp w' :
  buy_tokens ADMIN gw now usdtAmount buyerAddress w = (resp, w') ->
  rejected_by_precondition (res_body resp) = true ->
  ledger w' = ledger w /\ store_log w' = store_log w /\
  World.writes (new_calls w w') = [].
Proof.
  intros Hrun Hrej.
  apply buy_tokens_run in Hrun as [r [Hrun ->]].
  inversion Hrun; subst; simpl in Hrej;
    try (destruct (purchase_failure_is_error e) as [_ [_ Hno]];
         rewrite Hno in Hrej; discriminate Hrej);
    try discriminate Hrej;
    rewrite ?new_calls_after_calls, ?new_calls_same; auto.
Qed.

Lemma rejected_purchase_leaves_ledger_witness :
  ledger (snd (buy_tokens admin_0 (demo_gateway 100000000 50000000) demo_now
                 (JNum (of_Z 80)) (JStr buyer_1) World.empty))
    = ledger World.empty /\
  store_log (snd (buy_tokens admin_0 (demo_gateway 100000000 50000000) demo_now
                    (JNum (of_Z 80)) (JStr buyer_1) World.empty))
    = store_log World.empty /\
  World.writes (new_calls World.empty
     (snd (buy_tokens admin_0 (demo_gateway 100000000 50000000) demo_now
             (JNum (of_Z 80)) (JStr buyer_1) World.empty))) = [].
Proof.
  apply (rejected_purchase_leaves_ledger admin_0 (demo_gateway 100000000 50000000)
           demo_now (JNum (of_Z 80)) (JStr buyer_1) World.empty
           (fst (buy_tokens admin_0 (demo_gateway 100000000 50000000) demo_now
                   (JNum (of_Z 80)) (JStr buyer_1) World.empty))).
  - vm_compute. reflexivity.
  - vm_compute. reflexivity.
Defined.

(** The run of a request whose conversions succeeded and whose gateway
    grants and confirms everything. *)
Lemma purchase_succeeds ADMIN gw now usdtAmount buyerAddress w
    s req tok buyer bal allow payHash mintHash :
  prepared usdtAmount buyerAddress s req tok buyer ->
  gw_balanceOf gw buyer = Ok bal -> req <= bal ->
  gw_allowance gw buyer ADMIN = Ok allow -> req <= allow ->
  gw_transferFrom gw buyer ADMIN req = Ok payHash ->
  gw_mint gw buyer tok = Ok mintHash ->
  buy_tokens ADMIN gw now usdtAmount buyerAddress w
  = (respond 200 (BodyPurchased true "Token purchase successful" mintHash
                    (JsNumber.toString (calculateTokenAmount usdtAmount))),
     after_purchase w (pending_doc now usdtAmount s buyer)
       (Transaction.set_txHash mintHash
          (Transaction.set_status Transaction.SUCCESS (pending_doc now usdtAmount s buyer)))
       [CallBalanceOf buyer (Ok bal);
        CallAllowance buyer ADMIN (Ok allow);
        SendTransferFrom buyer ADMIN req (Ok payHash);
        SendMint buyer tok (Ok mintHash)]).
Proof.
  intros (Hu & Hb & Hs & Hreq & Htok & Hbuyer) Hbal Hge Hall Hge' Hpay Hmint.
  unfold buy_tokens, purchase. rewrite Hu, Hb. simpl.
  unfold bind, lift, call, ret, try_catch, save_new, save.
  rewrite Hs, Hreq, Htok, Hbuyer, Hbal. simpl.
  destruct (Z.ltb_spec bal req); [lia|].
  rewrite Hall. simpl.
  destruct (Z.ltb_spec allow req); [lia|].
  simpl. rewrite Hpay. simpl. rewrite Hmint. simpl.
  unfold after_purchase, pending_doc.
  rewrite insert_last, app_two, app_four. reflexivity.
Qed.

(** The two rejections reached once the conversions of lines 92 to 96
    succeeded. *)
Lemma purchase_insufficient_balance ADMIN gw now usdtAmount buyerAddress w
    s req tok buyer bal :
  prepared usdtAmount buyerAddress s req tok buyer ->
  gw_balanceOf gw buyer = Ok bal -> bal < req ->
  buy_tokens ADMIN gw now usdtAmount buyerAddress w
  = (respond 400 (BodyInsufficientBalance "Insufficient USDT balance"
                    (formatUnits req USDT_DECIMALS) (formatUnits bal USDT_DECIMALS)),
     after_calls w [CallBalanceOf buyer (Ok bal)]).
Proof.
  intros (Hu & Hb & Hs & Hreq & Htok & Hbuyer) Hbal Hlt.
  unfold buy_tokens, purchase. rewrite Hu, Hb. simpl.
  unfold bind, lift, call, ret. rewrite Hs, Hreq, Htok, Hbuyer, Hbal. simpl.
  destruct (Z.ltb_spec bal req); [reflexivity | lia].
Qed.

(** C4 (amended). When the conversions of the request succeeded, the
    balance covers the requested amount and the allowance does not, the
    handler makes the two reads and no write, leaves the store as it was
    and answers 400 with the insufficient-allowance error, [required] and
    [approved] being the amounts as [formatUnits] prints them: "80.0" and
    "50.0" for a request of 80 against an allowance of 50. *)
Theorem insufficient_allowance_rejected ADMIN gw now usdtAmount buyerAddress w
    s req tok buyer bal allow :
  prepared usdtAmount buyerAddress s req tok buyer ->
  gw_balanceOf gw buyer = Ok bal -> req <= bal ->
  gw_allowance gw buyer ADMIN = Ok allow -> allow < req ->
  buy_tokens ADMIN gw now usdtAmount buyerAddress w
  = (respond 400 (BodyInsufficientAllowance
                    "Insufficient USDT allowance. Please approve USDT transfer first."
                    (formatUnits req USDT_DECIMALS) (formatUnits allow USDT_DECIMALS)),
     after_calls w [CallBalanceOf buyer (Ok bal); CallAllowance buyer ADMIN (Ok allow)])
  /\ World.writes [CallBalanceOf buyer (Ok bal); CallAllowance buyer ADMIN (Ok allow)] = []
  /\ ledger (after_calls w [CallBalanceOf buyer (Ok bal);
                            CallAllowance buyer ADMIN (Ok allow)]) = ledger w.
Proof.
  intros (Hu & Hb & Hs & Hreq & Htok & Hbuyer) Hbal Hge Hall Hlt.
  split; [|split; reflexivity].
  unfold buy_tokens, purchase. rewrite Hu, Hb. simpl.
  unfold bind, lift, call, ret. rewrite Hs, Hreq, Htok, Hbuyer, Hbal. simpl.
  destruct (Z.ltb_spec bal req); [lia|].
  rewrite Hall. simpl.
  destruct (Z.ltb_spec allow req); [|lia].
  unfold after_calls. simpl. rewrite app_two. reflexivity.
Qed.

Lemma insufficient_allowance_rejected_witness :
  buy_tokens admin_0 (demo_gateway 100000000 50000000) demo_now
             (JNum (of_Z 80)) (JStr buyer_1) World.empty
  = (respond 400 (BodyInsufficientAllowance
                    "Insufficient USDT allowance. Please approve USDT transfer first."
                    "80.0" "50.0"),
     after_calls World.empty
       [CallBalanceOf buyer_1 (Ok 100000000);
        CallAllowance buyer_1 admin_0 (Ok 50000000)]).
Proof.
  exact (proj1 (insufficient_allowance_rejected admin_0
           (demo_gateway 100000000 50000000) demo_now (JNum (of_Z 80)) (JStr buyer_1)
           World.empty "80" 80000000 80000000000000000000000000000000000000
           buyer_1 100000000 50000000
           ltac:(vm_compute; repeat split; reflexivity)
           ltac:(reflexivity) ltac:(lia) ltac:(reflexivity) ltac:(lia))).
Defined.

(** C4, as the specification words it: the request of 80 against a balance
    of 100 and an allowance of 50 is not answered with [approved: "50"] and
    [required: "80"], whether the amount comes as a Number or as a string. *)
Lemma allowance_example_not_plain :
  (forall error,
     fst (buy_tokens admin_0 (demo_gateway 100000000 50000000) demo_now
            (JNum (of_Z 80)) (JStr buyer_1) World.empty)
     <> respond 400 (BodyInsufficientAllowance error "80" "50")) /\
  (forall error,
     fst (buy_tokens admin_0 (demo_gateway 100000000 50000000) demo_now
            (JStr "80") (JStr buyer_1) World.empty)
     <> respond 400 (BodyInsufficientAllowance error "80" "50")).
Proof.
  split; intros error; vm_compute; intros H; discriminate H.
Qed.

(** C3, at a request of 1000 by a buyer who holds 5: the requested amount
    converts (to 1000000000 units, above the balance of 5000000), but the
    token amount prints as "1e+21", which [parseUnits] refuses; the handler
    answers 500 without having read the balance. *)
Theorem insufficient_balance_thousand :
  parseUnits "1000" USDT_DECIMALS = Ok 1000000000 /\
  gw_balanceOf (demo_gateway 5000000 0) buyer_1 = Ok 5000000 /\
  JsNumber.toString (calculateTokenAmount (JNum (of_Z 1000))) = "1e+21" /\
  buy_tokens admin_0 (demo_gateway 5000000 0) demo_now
             (JNum (of_Z 1000)) (JStr buyer_1) World.empty
  = (respond 500 (BodyFailed "Failed to process token purchase"
                    "invalid FixedNumber string value"),
     World.empty) /\
  buy_tokens admin_0 (demo_gateway 5000000 0) demo_now
             (JStr "1000") (JStr buyer_1) World.empty
  = (respond 500 (BodyFailed "Failed to process token purchase"
                    "invalid FixedNumber string value"),
     World.empty).
Proof. repeat split; vm_compute; reflexivity. Qed.

(** ** The token amount: claim C2 *)

Lemma whole_amounts_checked : forallb exact_at whole_amounts = true.
Proof. vm_compute. reflexivity. Qed.


(** Whole amounts from 1 to 2362 are converted exactly. *)
Lemma token_amount_exact_on_whole_amounts (n : Z) :
  1 <= n <= 2362 ->
  (value (calculateTokenAmount (JNum (of_Z n))) == inject_Z n * inject_Z (10 ^ 18))%Q.
Proof.
  intros Hn.
  assert (Hin : In n whole_amounts).
  { unfold whole_amounts. apply in_map_iff. exists (Z.to_nat n). split; [lia|].
    apply in_seq. lia. }
  pose proof whole_amounts_checked as Hall.
  rewrite forallb_forall in Hall. specialize (Hall n Hin).
  unfold exact_at in Hall. apply Qeq_bool_iff in Hall.
  rewrite Hall. rewrite inject_Z_mult. reflexivity.
Qed.

Lemma convertible_amounts_checked : forallb prints_exactly convertible_amounts = true.
Proof. vm_compute. reflexivity. Qed.

(** The amount recorded for a whole purchase below 1000 is the numeral of
    the amount times 10^18. *)
Lemma token_amount_prints_exactly (n : Z) :
  1 <= n <= 999 ->
  JsNumber.toString (calculateTokenAmount (JNum (of_Z n))) = Chars.decimal (n * 10 ^ 18).
Proof.
  intros Hn.
  assert (Hin : In n convertible_amounts).
  { unfold convertible_amounts. apply in_map_iff. exists (Z.to_nat n). split; [lia|].
    apply in_seq. lia. }
  pose proof convertible_amounts_checked as Hall.
  rewrite forallb_forall in Hall. specialize (Hall n Hin).
  apply String.eqb_eq. exact Hall.
Qed.

(** *** Products that are binary64 values *)
















(** ** Sorting and paging *)

Section SortFacts.
Context {A : Type} (leb : A -> A -> bool).
Hypothesis leb_total : forall x y, leb x y = true \/ leb y x = true.

Let R (x y : A) : Prop := leb x y = true.

Lemma insert_sorted_perm x l : Permutation (x :: l) (insert_sorted leb x l).
Proof.
  induction l as [|y l IH]; simpl; [reflexivity|].
  destruct (leb x y); [reflexivity|].
  rewrite perm_swap. apply perm_skip. exact IH.
Qed.

Lemma sort_perm l : Permutation l (sort leb l).
Proof.
  induction l as [|x l IH]; simpl; [reflexivity|].
  rewrite <- insert_sorted_perm. apply perm_skip. exact IH.
Qed.

Lemma insert_sorted_HdRel a x l :
  R a x -> HdRel R a l -> HdRel R a (insert_sorted leb x l).
Proof.
  intros Hax Hal. destruct l as [|y l]; simpl; [constructor; exact Hax|].
  destruct (leb x y); constructor; [exact Hax|].
  inversion Hal; assumption.
Qed.

Lemma insert_sorted_Sorted x l : Sorted R l -> Sorted R (insert_sorted leb x l).
Proof.
  induction l as [|y l IH]; simpl; intros Hs; [repeat constructor|].
  destruct (leb x y) eqn:Hxy.
  - constructor; [exact Hs | constructor; exact Hxy].
  - inversion Hs as [|? ? Hl Hhd]; subst.
    constructor; [apply IH; exact Hl|].
    apply insert_sorted_HdRel; [|exact Hhd].
    destruct (leb_total x y) as [H|H]; [congruence | exact H].
Qed.

Lemma sort_Sorted l : Sorted R (sort leb l).
Proof.
  induction l as [|x l IH]; simpl; [constructor|].
  apply insert_sorted_Sorted. exact IH.
Qed.

Lemma sort_length l : length (sort leb l) = length l.
Proof. symmetry. apply Permutation_length, sort_perm. Qed.

Lemma sort_In x l : In x (sort leb l) <-> In x l.
Proof.
  split; apply Permutation_in; [symmetry|]; apply sort_perm.
Qed.

End SortFacts.

Section Paging.
Context {A : Type} (R : A -> A -> Prop).

Lemma Sorted_skipn n l : Sorted R l -> Sorted R (skipn n l).
Proof.
  revert l. induction n as [|n IH]; intros l Hs; [exact Hs|].
  destruct l as [|x l]; [constructor|].
  simpl. apply IH. inversion Hs; assumption.
Qed.

Lemma Sorted_firstn n l : Sorted R l -> Sorted R (firstn n l).
Proof.
  revert l. induction n as [|n IH]; intros l Hs; [constructor|].
  destruct l as [|x l]; [constructor|].
  simpl. inversion Hs as [|? ? Hl Hhd]; subst.
  constructor; [apply IH; exact Hl|].
  destruct l as [|y l]; destruct n; simpl; constructor.
  inversion Hhd; assumption.
Qed.

End Paging.

Lemma In_firstn {A} n (x : A) (l : list A) : In x (firstn n l) -> In x l.
Proof.
  revert l. induction n as [|n IH]; intros [|y l]; simpl; try tauto.
  intros [H|H]; [left; exact H | right; apply IH; exact H].
Qed.

Lemma In_skipn {A} n (x : A) (l : list A) : In x (skipn n l) -> In x l.
Proof.
  revert l. induction n as [|n IH]; intros [|y l]; simpl; try tauto.
  intros H. right. apply IH. exact H.
Qed.

Lemma Sorted_impl {A} (R R' : A -> A -> Prop) (l : list A) :
  (forall a b, R a b -> R' a b) -> Sorted R l -> Sorted R' l.
Proof.
  intros Himp Hs. induction Hs as [|a l Hs IH Hhd]; constructor; [exact IH|].
  destruct Hhd; constructor. apply Himp. assumption.
Qed.

(** [Math_ceil_div] is the ceiling of the quotient. *)
Lemma Math_ceil_div_spec total limit :
  0 <= total -> 0 < limit ->
  total <= Math_ceil_div total limit * limit /\
  (Math_ceil_div total limit - 1) * limit < total.
Proof.
  intros Ht Hl. unfold Math_ceil_div.
  pose proof (Z.div_mod (total + limit - 1) limit ltac:(lia)) as Hdm.
  pose proof (Z.mod_pos_bound (total + limit - 1) limit Hl) as Hb.
  nia.
Qed.

(** The query object selects the matching records. *)
Lemma history_match_spec (address : string) (q : HistoryQuery.t) (d : Transaction.t) :
  history_match address q d = true <-> matches address q d.
Proof.
  unfold history_match, matches, date_filter.
  rewrite !andb_true_iff, String.eqb_eq.
  destruct (given (HistoryQuery.type q)) as [ty|];
    destruct (given (HistoryQuery.status q)) as [st|];
    destruct (HistoryQuery.startDate q) as [a|];
    destruct (HistoryQuery.endDate q) as [b|];
    rewrite ?String.eqb_eq, ?Z.leb_le;
    (split;
     [ intros (((Hb & Hty) & Hst) & Ha & Hb');
       repeat split; try assumption; intros x Hx;
       first [discriminate Hx | injection Hx as <-; assumption]
     | intros (Hb & Hty & Hst & Ha & Hb');
       repeat split; auto ]).
Qed.

(** ** Transaction history: claim C7 *)

(** C7. A history request with an address is answered with the slice of
    the matching records, newest first, that page [p] of size [s] covers:
    at most [s] records, each a ledger record matching the buyer and the
    filters, in non-increasing order of timestamp; [total] counts all the
    matching records, [pages] is the ceiling of [total / s], and [p] and
    [s] are 1 and 10 when the parameters are omitted.  The world is left as
    it was. *)
Theorem history_page (q : HistoryQuery.t) (w : World.t) (address : string) :
  given (HistoryQuery.address q) = Some address ->
  exists transactions total pages,
    let p := with_default 1%positive (HistoryQuery.page q) in
    let s := with_default 10%positive (HistoryQuery.limit q) in
    let found := List.filter (history_match address q) (ledger w) in
    transaction_history q w
    = (respond 200 (HistoryPage transactions total (Zpos p) (Zpos s) pages), w) /\
    transactions
    = firstn (Pos.to_nat s)
        (skipn (Z.to_nat ((Zpos p - 1) * Zpos s)) (sort newest_first found)) /\
    (length transactions <= Pos.to_nat s)%nat /\
    (forall d, In d transactions -> In d (ledger w) /\ matches address q d) /\
    Sorted (fun a b => Transaction.timestamp b <= Transaction.timestamp a) transactions /\
    total = Z.of_nat (length found) /\
    (forall d, In d found <-> In d (ledger w) /\ matches address q d) /\
    total <= pages * Zpos s /\ (pages - 1) * Zpos s < total /\
    (HistoryQuery.page q = None -> p = 1%positive) /\
    (HistoryQuery.limit q = None -> s = 10%positive).
Proof.
  intros Haddr.
  do 3 eexists. cbv zeta.
  split.
  { unfold transaction_history, history. rewrite Haddr.
    unfold bind, documents, ret. reflexivity. }
  split; [reflexivity|].
  split; [apply firstn_le_length|].
  split.
  { intros d Hd. apply In_firstn, In_skipn in Hd.
    apply sort_In in Hd. apply filter_In in Hd.
    rewrite history_match_spec in Hd. exact Hd. }
  split.
  { apply Sorted_firstn, Sorted_skipn.
    eapply Sorted_ind with (P := fun l => Sorted _ l);
      [constructor | | apply (sort_Sorted newest_first)].
    - intros a l _ IH Hhd. constructor; [exact IH|].
      destruct Hhd as [|b l Hab]; constructor.
      unfold newest_first in Hab. apply Z.leb_le. exact Hab.
    - intros x y. unfold newest_first.
      destruct (Z.leb_spec (Transaction.timestamp y) (Transaction.timestamp x));
        [left; reflexivity | right; apply Z.leb_le; lia]. }
  split; [reflexivity|].
  split; [intros d; rewrite filter_In, history_match_spec; reflexivity|].
  pose proof (Math_ceil_div_spec
                (Z.of_nat (length (List.filter (history_match address q) (ledger w))))
                (Zpos (with_default 10%positive (HistoryQuery.limit q)))
                ltac:(lia) ltac:(lia)) as [H1 H2].
  split; [exact H1|]. split; [exact H2|].
  split; intros ->; reflexivity.
Qed.

Lemma history_page_witness :
  exists transactions total pages,
    transaction_history demo_history demo_world
    = (respond 200 (HistoryPage transactions total 1 1 pages), demo_world) /\
    (length transactions <= 1)%nat /\ total = 2 /\ pages = 2.
Proof.
  destruct (history_page demo_history demo_world buyer_1 eq_refl)
    as (transactions & total & pages & Hres & _ & Hlen & _ & _ & Htotal & _ & Hup & Hlow & _).
  exists transactions, total, pages.
  split; [exact Hres|]. split; [exact Hlen|].
  assert (Ht : total = 2) by (rewrite Htotal; vm_compute; reflexivity).
  split; [exact Ht|].
  subst total. simpl in Hup, Hlow. lia.
Defined.

(** ** Sale statistics: claims C10 and C8 *)

(** C10. When no SUCCESS BUY record passes the date filter, the response
    still carries a [totalStats] object, with its four figures at 0, and
    empty [dailyStats] and [topBuyers]. *)
Theorem stats_without_sales (q : StatsQuery.t) (w : World.t) :
  List.filter (stats_match q) (ledger w) = [] ->
  stats q w = (respond 200 (StatsReport (TotalStats.mk 0 0 0 0) [] []), w).
Proof.
  intros Hnone.
  unfold stats, sale_stats, bind, documents. rewrite Hnone. reflexivity.
Qed.

Lemma stats_without_sales_witness :
  stats (StatsQuery.mk (Some 1800000000000) None) demo_world
  = (respond 200 (StatsReport (TotalStats.mk 0 0 0 0) [] []), demo_world).
Proof.
  exact (stats_without_sales (StatsQuery.mk (Some 1800000000000) None)
           demo_world eq_refl).
Defined.



Section GroupFacts.
Context {A : Type} (key : A -> string).







Lemma group_by_snoc (l : list A) (x : A) :
  group_by key (l ++ [x]) = add_to_group (key x) x (group_by key l).
Proof. unfold group_by. rewrite fold_left_app. reflexivity. Qed.


End GroupFacts.

Lemma all_some_Forall2 {A B} (f : A -> option B) (l : list A) (l' : list B) :
  all_some f l = Some l' -> Forall2 (fun x y => f x = Some y) l l'.
Proof.
  revert l'. induction l as [|x l IH]; simpl; intros l' H.
  - injection H as <-. constructor.
  - destruct (f x) as [y|] eqn:Hx; [|discriminate H].
    destruct (all_some f l) as [ys|]; [|discriminate H].
    injection H as <-. constructor; [exact Hx | apply IH; reflexivity].
Qed.






(** ** The ledger over time: claim C6 *)

Lemma buy_tokens_store_step ADMIN gw now usdtAmount buyerAddress w :
  store_step w (snd (buy_tokens ADMIN gw now usdtAmount buyerAddress w)).
Proof.
  destruct (buy_tokens ADMIN gw now usdtAmount buyerAddress w) as [resp w'] eqn:Hrun.
  apply buy_tokens_run in Hrun as [r [Hrun _]]. simpl.
  inversion Hrun; subst;
    first [ left; split; reflexivity
          | right; do 2 eexists; repeat split; reflexivity ].
Qed.

Lemma reports_read_only :
  (forall q w, snd (transaction_history q w) = w) /\
  (forall q w, snd (stats q w) = w) /\
  (forall q w, snd (export_transactions q w) = w).
Proof.
  repeat split; intros q w.
  - unfold transaction_history, history.
    destruct (given (HistoryQuery.address q)); reflexivity.
  - unfold stats, sale_stats, bind, documents.
    destruct (all_some sale_of _); reflexivity.
  - unfold export_transactions, export.
    destruct (given (ExportQuery.address q)); [|reflexivity].
    unfold bind, documents. destruct (String.eqb _ "csv"); reflexivity.
Qed.

Lemma serve_store_step ADMIN r w :
  store_step w (snd (serve ADMIN r w)) /\
  (is_purchase r = true \/
   (ledger (snd (serve ADMIN r w)) = ledger w /\
    store_log (snd (serve ADMIN r w)) = store_log w)).
Proof.
  destruct reports_read_only as (Hh & Hs & He).
  destruct r as [gw now u b| |gw a|q|q|q]; simpl.
  - split; [|left; reflexivity].
    pose proof (buy_tokens_store_step ADMIN gw now u b w) as Hstep.
    destruct (buy_tokens ADMIN gw now u b w). exact Hstep.
  - split; [left|right]; split; reflexivity.
  - unfold usdt_allowance. destruct (given a); simpl;
      [destruct (gw_allowance gw _ ADMIN)|]; simpl;
      (split; [left|right]; split; reflexivity).
  - specialize (Hh q w). destruct (transaction_history q w) as [res w'].
    simpl in *. subst w'. split; [left|right]; split; reflexivity.
  - specialize (Hs q w). destruct (stats q w) as [res w'].
    simpl in *. subst w'. split; [left|right]; split; reflexivity.
  - specialize (He q w). destruct (export_transactions q w) as [res w'].
    simpl in *. subst w'. split; [left|right]; split; reflexivity.
Qed.

Lemma settled_step (w w' : World.t) : store_step w w' -> settled w -> settled w'.
Proof.
  intros [[Hl Hs]|(pending & doc & Hl & Hs & Hp & Ht)] [Hrec Hfree].
  - unfold settled, writes_of in *. rewrite Hl, Hs. split; assumption.
  - unfold settled, writes_of in *. rewrite Hl, Hs. split.
    + intros i d Hi. rewrite List.filter_app. simpl.
      destruct (Nat.eqb_spec i (length (ledger w))) as [->|Hne].
      * rewrite list_lookup_middle in Hi by reflexivity. injection Hi as <-.
        rewrite (Hfree (length (ledger w))) by lia.
        exists pending. auto.
      * assert (Hlt : (i < length (ledger w))%nat).
        { apply lookup_lt_Some in Hi. rewrite length_app in Hi. simpl in Hi. lia. }
        rewrite lookup_app_l in Hi by exact Hlt.
        rewrite app_nil_r. apply Hrec. exact Hi.
    + intros i Hi. rewrite length_app in Hi. simpl in Hi.
      rewrite List.filter_app. simpl.
      destruct (Nat.eqb_spec i (length (ledger w))) as [->|Hne]; [lia|].
      rewrite app_nil_r. apply Hfree. lia.
Qed.

Lemma settled_empty : settled World.empty.
Proof.
  split.
  - intros i d Hi. destruct i; discriminate Hi.
  - intros i _. reflexivity.
Qed.

Lemma serve_all_settled ADMIN rs w : settled w -> settled (serve_all ADMIN rs w).
Proof.
  revert w. induction rs as [|r rs IH]; intros w Hw; [exact Hw|].
  simpl. apply IH. eapply settled_step; [|exact Hw].
  apply serve_store_step.
Qed.

(** C6. Whatever requests the server has answered since the store was
    empty, every ledger record was inserted as PENDING and saved exactly
    once more, with the terminal status (SUCCESS or FAILED) it has; a
    request never removes or changes a record it found, and only a
    purchase writes to the store: history, statistics and export leave the
    world as it was. *)
Theorem ledger_lifecycle :
  (forall ADMIN rs, settled (serve_all ADMIN rs World.empty)) /\
  (forall ADMIN r w, ledger w `prefix_of` ledger (snd (serve ADMIN r w))) /\
  (forall ADMIN r w,
     is_purchase r = true \/
     (ledger (snd (serve ADMIN r w)) = ledger w /\
      store_log (snd (serve ADMIN r w)) = store_log w)) /\
  (forall q w, snd (transaction_history q w) = w) /\
  (forall q w, snd (stats q w) = w) /\
  (forall q w, snd (export_transactions q w) = w).
Proof.
  split; [|split; [|split]].
  - intros ADMIN rs. apply serve_all_settled, settled_empty.
  - intros ADMIN r w.
    destruct (serve_store_step ADMIN r w) as [[[Hl _]|(p & d & Hl & _)] _];
      rewrite Hl; [reflexivity | apply prefix_app_r; reflexivity].
  - intros ADMIN r w. apply serve_store_step.
  - exact reports_read_only.
Qed.

(** * Further properties of the handlers *)

(** ** What a purchase sends to the chain *)

Lemma resolveAddress_Ok v s : resolveAddress v = Ok s -> v = JStr s.
Proof.
  unfold resolveAddress. destruct v; try discriminate.
  intros H; injection H as ->. reflexivity.
Qed.

(** X1. The handler pulls funds only from the address of the request, only
    to the admin and only for the amount the request parses to, and only
    after it read a balance and an allowance that both cover that amount
    and stored the PENDING record of the purchase. *)
Theorem payment_only_after_checks ADMIN gw now usdtAmount buyerAddress w resp w'
    from to value answer :
  buy_tokens ADMIN gw now usdtAmount buyerAddress w = (resp, w') ->
  In (SendTransferFrom from to value answer) (new_calls w w') ->
  buyerAddress = JStr from /\ to = ADMIN /\
  answer = gw_transferFrom gw from ADMIN value /\
  (exists usdtString,
      Js.toString usdtAmount = Ok usdtString /\
      parseUnits usdtString USDT_DECIMALS = Ok value) /\
  (exists balance allowance rest,
      gw_balanceOf gw from = Ok balance /\ value <= balance /\
      gw_allowance gw from ADMIN = Ok allowance /\ value <= allowance /\
      new_calls w w' = CallBalanceOf from (Ok balance)
                       :: CallAllowance from ADMIN (Ok allowance)
                       :: SendTransferFrom from ADMIN value answer :: rest) /\
  (exists pending rest,
      store_log w' = store_log w ++ Insert (length (ledger w)) pending :: rest /\
      Transaction.status pending = Transaction.PENDING /\
      Transaction.buyerAddress pending = from).
Proof.
  intros Hrun Hin.
  apply buy_tokens_run in Hrun as [r [Hrun ->]].
  inversion Hrun; subst; in_calls;
    match goal with
    | Hp : prepared _ _ _ _ _ _ |- _ =>
        destruct Hp as (Hu & Hb & Hs & Hreq & Htok & Hbuyer);
        apply resolveAddress_Ok in Hbuyer
    end;
    (split; [assumption|]); (split; [reflexivity|]);
    (split; [congruence|]);
    (split; [eexists; split; eassumption|]);
    rewrite ?new_calls_after_purchase;
    (split; [do 3 eexists; repeat split; try eassumption; reflexivity|]);
    do 2 eexists; repeat split; reflexivity.
Qed.

Lemma payment_only_after_checks_witness :
  exists balance allowance rest,
    gw_balanceOf mint_reverts buyer_1 = Ok balance /\ 80000000 <= balance /\
    gw_allowance mint_reverts buyer_1 admin_0 = Ok allowance /\ 80000000 <= allowance /\
    new_calls World.empty
      (snd (buy_tokens admin_0 mint_reverts demo_now (JStr "80") (JStr buyer_1)
              World.empty))
    = CallBalanceOf buyer_1 (Ok balance)
      :: CallAllowance buyer_1 admin_0 (Ok allowance)
      :: SendTransferFrom buyer_1 admin_0 80000000 (Ok payment_hash) :: rest.
Proof.
  destruct (payment_only_after_checks admin_0 mint_reverts demo_now
              (JStr "80") (JStr buyer_1) World.empty
              (fst (buy_tokens admin_0 mint_reverts demo_now (JStr "80") (JStr buyer_1)
                      World.empty))
              (snd (buy_tokens admin_0 mint_reverts demo_now (JStr "80") (JStr buyer_1)
                      World.empty))
              buyer_1 admin_0 80000000 (Ok payment_hash))
    as (_ & _ & _ & _ & H & _); [| |exact H].
  - vm_compute. reflexivity.
  - vm_compute. right; right; left; reflexivity.
Defined.

(** X2. The handler asks for a mint only after the payment of the same
    request was confirmed, only for the buyer who paid and only for the
    amount the printed token amount parses to; whatever the mint answers,
    the payment and the mint are the only writes of the request: nothing is
    retried and nothing is paid back. *)
Theorem mint_only_after_payment ADMIN gw now usdtAmount buyerAddress w resp w'
    to amount answer :
  buy_tokens ADMIN gw now usdtAmount buyerAddress w = (resp, w') ->
  In (SendMint to amount answer) (new_calls w w') ->
  buyerAddress = JStr to /\
  parseUnits (JsNumber.toString (calculateTokenAmount usdtAmount)) TOKEN_DECIMALS
    = Ok amount /\
  answer = gw_mint gw to amount /\
  exists value payHash,
    World.writes (new_calls w w')
    = [SendTransferFrom to ADMIN value (Ok payHash); SendMint to amount answer].
Proof.
  intros Hrun Hin.
  apply buy_tokens_run in Hrun as [r [Hrun ->]].
  inversion Hrun; subst; in_calls;
    match goal with
    | Hp : prepared _ _ _ _ _ _ |- _ =>
        destruct Hp as (Hu & Hb & Hs & Hreq & Htok & Hbuyer);
        apply resolveAddress_Ok in Hbuyer
    end;
    rewrite ?new_calls_after_purchase;
    (split; [assumption|]); (split; [assumption|]); (split; [congruence|]);
    do 2 eexists; reflexivity.
Qed.

Lemma mint_only_after_payment_witness :
  exists value payHash,
    World.writes (new_calls World.empty
       (snd (buy_tokens admin_0 mint_reverts demo_now (JStr "80") (JStr buyer_1)
               World.empty)))
    = [SendTransferFrom buyer_1 admin_0 value (Ok payHash);
       SendMint buyer_1 80000000000000000000000000000000000000
         (Throw (mkError "CALL_EXCEPTION" (Some "paused") "execution reverted"))].
Proof.
  destruct (mint_only_after_payment admin_0 mint_reverts demo_now
              (JStr "80") (JStr buyer_1) World.empty
              (fst (buy_tokens admin_0 mint_reverts demo_now (JStr "80") (JStr buyer_1)
                      World.empty))
              (snd (buy_tokens admin_0 mint_reverts demo_now (JStr "80") (JStr buyer_1)
                      World.empty))
              buyer_1 80000000000000000000000000000000000000
              (Throw (mkError "CALL_EXCEPTION" (Some "paused") "execution reverted")))
    as (_ & _ & _ & H); [| |exact H].
  - vm_compute. reflexivity.
  - vm_compute. right; right; right; left; reflexivity.
Defined.

Lemma purchase_failure_not_200 e : res_status (purchase_failure e) <> 200.
Proof.
  destruct (purchase_failure_is_error e) as [[H|H] _]; rewrite H; discriminate.
Qed.

Lemma app_one_neq {A} (l : list A) (x : A) : l <> l ++ [x].
Proof.
  intros H. apply (f_equal (@length A)) in H. rewrite length_app in H. simpl in H. lia.
Qed.

(** X3. The handler answers 200 exactly when the request added a SUCCESS
    record to the ledger, and then the payment and the mint were both
    confirmed, in that order, for one buyer, and the record and the body
    carry the hash of that mint. *)
Theorem success_means_confirmed_mint ADMIN gw now usdtAmount buyerAddress w resp w' :
  buy_tokens ADMIN gw now usdtAmount buyerAddress w = (resp, w') ->
  (res_status resp = 200 <->
   exists doc, ledger w' = ledger w ++ [doc] /\
               Transaction.status doc = Transaction.SUCCESS) /\
  (res_status resp = 200 ->
   exists buyer value amount payHash mintHash doc,
     World.writes (new_calls w w')
     = [SendTransferFrom buyer ADMIN value (Ok payHash);
        SendMint buyer amount (Ok mintHash)] /\
     ledger w' = ledger w ++ [doc] /\
     Transaction.txHash doc = mintHash /\
     Transaction.buyerAddress doc = buyer /\
     res_body resp = BodyPurchased true "Token purchase successful" mintHash
                       (Transaction.amount doc)).
Proof.
  intros Hrun.
  apply buy_tokens_run in Hrun as [r [Hrun ->]].
  inversion Hrun; subst; simpl; (split; [split|]);
    try (intros H200; first [discriminate H200
                            | exfalso; exact (purchase_failure_not_200 _ H200)]);
    try (intros [doc [Hl Hst]];
         first [ exfalso; exact (app_one_neq _ _ Hl)
               | apply app_inj_tail in Hl as [_ <-]; discriminate Hst ]).
  - eexists; split; reflexivity.
  - reflexivity.
  - rewrite new_calls_after_purchase. do 6 eexists. repeat split.
Qed.

Lemma success_means_confirmed_mint_witness :
  res_status (fst (buy_tokens admin_0 mint_reverts demo_now (JStr "80") (JStr buyer_1)
                     World.empty)) = 200 <->
  exists doc,
    ledger (snd (buy_tokens admin_0 mint_reverts demo_now (JStr "80") (JStr buyer_1)
                   World.empty)) = ledger World.empty ++ [doc] /\
    Transaction.status doc = Transaction.SUCCESS.
Proof.
  apply (success_means_confirmed_mint admin_0 mint_reverts demo_now
           (JStr "80") (JStr buyer_1) World.empty).
  vm_compute. reflexivity.
Defined.

(** X4. When the gateway fails to answer a read (the balance or the
    allowance), the handler sends no write and stores nothing; its response
    is the error response made from what the read threw. *)
Theorem unread_chain_is_not_touched ADMIN gw now usdtAmount buyerAddress w resp w' e :
  buy_tokens ADMIN gw now usdtAmount buyerAddress w = (resp, w') ->
  (exists owner, In (CallBalanceOf owner (Throw e)) (new_calls w w')) \/
  (exists owner spender, In (CallAllowance owner spender (Throw e)) (new_calls w w')) ->
  resp = purchase_failure e /\
  ledger w' = ledger w /\ store_log w' = store_log w /\
  World.writes (new_calls w w') = [].
Proof.
  intros Hrun Hfail.
  apply buy_tokens_run in Hrun as [r [Hrun ->]].
  inversion Hrun; subst;
    destruct Hfail as [[owner Hin]|[owner [spender Hin]]];
    in_calls; rewrite ?new_calls_after_calls; repeat split.
Qed.

Lemma unread_chain_is_not_touched_witness :
  fst (buy_tokens admin_0 node_down demo_now (JStr "80") (JStr buyer_1) demo_world)
  = respond 500 (BodyFailed "Failed to process token purchase" "could not detect network") /\
  ledger (snd (buy_tokens admin_0 node_down demo_now (JStr "80") (JStr buyer_1) demo_world))
  = ledger demo_world.
Proof.
  destruct (unread_chain_is_not_touched admin_0 node_down demo_now
              (JStr "80") (JStr buyer_1) demo_world
              (fst (buy_tokens admin_0 node_down demo_now (JStr "80") (JStr buyer_1)
                      demo_world))
              (snd (buy_tokens admin_0 node_down demo_now (JStr "80") (JStr buyer_1)
                      demo_world))
              (mkError "NETWORK_ERROR" None "could not detect network"))
    as (H1 & H2 & _); [| |split; [exact H1 | exact H2]].
  - vm_compute. reflexivity.
  - left. exists buyer_1. vm_compute. left. reflexivity.
Defined.

(** ** Requests that are refused *)






Lemma purchase_failure_not_missing (e : JsError) :
  res_body (purchase_failure e) <> BodyError "Missing required parameters".
Proof.
  intros H. destruct (purchase_failure_is_error e) as (_ & _ & Hno).
  rewrite H in Hno. discriminate Hno.
Qed.

(** X6. The handler answers "Missing required parameters" exactly when one
    of the two inputs is falsy (absent, null, false, 0, NaN or the empty
    string), and then with status 400 and the world left as it was: the
    presence check is the only validation of the inputs. *)
Theorem missing_parameters_iff_falsy ADMIN gw now usdtAmount buyerAddress w :
  (res_body (fst (buy_tokens ADMIN gw now usdtAmount buyerAddress w))
   = BodyError "Missing required parameters"
   <-> truthy usdtAmount = false \/ truthy buyerAddress = false) /\
  (truthy usdtAmount = false \/ truthy buyerAddress = false ->
   buy_tokens ADMIN gw now usdtAmount buyerAddress w
   = (respond 400 (BodyError "Missing required parameters"), w)).
Proof.
  assert (Hmiss : truthy usdtAmount = false \/ truthy buyerAddress = false ->
                  buy_tokens ADMIN gw now usdtAmount buyerAddress w
                  = (respond 400 (BodyError "Missing required parameters"), w)).
  { intros H. unfold buy_tokens, purchase.
    destruct H as [-> | ->]; [reflexivity|].
    rewrite orb_true_r. reflexivity. }
  split; [|exact Hmiss].
  split; [|intros H; rewrite (Hmiss H); reflexivity].
  destruct (buy_tokens ADMIN gw now usdtAmount buyerAddress w) as [resp w'] eqn:Hrun.
  apply buy_tokens_run in Hrun as [r [Hrun ->]]. simpl.
  inversion Hrun; subst; simpl; intros Hbody;
    try discriminate Hbody;
    try (exfalso; exact (purchase_failure_not_missing _ Hbody)).
  apply andb_false_iff. assumption.
Qed.

(** X7. The sign of the amount is not checked.  When the request parses to
    an amount that is zero or negative (the strings "0" and "-5", the
    Number -5) and the gateway reads a balance and an allowance, as it
    does, that are not negative, both checks pass: the record of the
    purchase is stored and the transfer of that amount is sent.  The ledger
    is one that holds no record with the placeholder txHash ["pending"], so
    that the [unique] flag of the schema has nothing against the new
    record. *)
Theorem nonpositive_amount_reaches_chain ADMIN gw now usdtAmount buyerAddress w
    s req tok buyer bal allow :
  prepared usdtAmount buyerAddress s req tok buyer -> req <= 0 ->
  gw_balanceOf gw buyer = Ok bal -> 0 <= bal ->
  gw_allowance gw buyer ADMIN = Ok allow -> 0 <= allow ->
  (forall d, In d (ledger w) -> Transaction.txHash d <> "pending"%string) ->
  exists doc,
    ledger (snd (buy_tokens ADMIN gw now usdtAmount buyerAddress w)) = ledger w ++ [doc] /\
    Transaction.usdtAmount doc = s /\
    Transaction.amount doc = JsNumber.toString (calculateTokenAmount usdtAmount) /\
    In (SendTransferFrom buyer ADMIN req (gw_transferFrom gw buyer ADMIN req))
       (new_calls w (snd (buy_tokens ADMIN gw now usdtAmount buyerAddress w))).
Proof.
  intros Hprep Hreq Hbal Hb0 Hall Ha0 _.
  destruct Hprep as (Hu & Hb & Hs & Hr & Htok & Hbuyer).
  unfold buy_tokens, purchase. rewrite Hu, Hb. simpl.
  unfold bind, lift, call, ret, throw, try_catch, save_new, save.
  rewrite Hs, Hr, Htok, Hbuyer, Hbal. simpl.
  destruct (Z.ltb_spec bal req); [lia|].
  rewrite Hall. simpl.
  destruct (Z.ltb_spec allow req); [lia|].
  simpl.
  destruct (gw_transferFrom gw buyer ADMIN req) as [payHash|e]; simpl.
  - destruct (gw_mint gw buyer tok) as [mintHash|e]; simpl;
      rewrite insert_last; eexists; (split; [reflexivity|]);
      (split; [reflexivity|]); (split; [reflexivity|]);
      unfold new_calls; simpl;
      rewrite ?app_four, skipn_length_app; right; right; left; reflexivity.
  - rewrite insert_last; eexists; (split; [reflexivity|]);
      (split; [reflexivity|]); (split; [reflexivity|]);
      unfold new_calls; simpl;
      rewrite ?app_three, skipn_length_app; right; right; left; reflexivity.
Qed.

Lemma nonpositive_amount_reaches_chain_witness :
  exists doc,
    ledger (snd (buy_tokens admin_0 (demo_gateway 100 100) demo_now
                   (JNum (of_Z (-5))) (JStr buyer_1) World.empty))
    = ledger World.empty ++ [doc] /\
    Transaction.usdtAmount doc = "-5"%string /\
    Transaction.amount doc = JsNumber.toString (calculateTokenAmount (JNum (of_Z (-5)))) /\
    In (SendTransferFrom buyer_1 admin_0 (-5000000)
          (gw_transferFrom (demo_gateway 100 100) buyer_1 admin_0 (-5000000)))
       (new_calls World.empty
          (snd (buy_tokens admin_0 (demo_gateway 100 100) demo_now
                  (JNum (of_Z (-5))) (JStr buyer_1) World.empty))).
Proof.
  apply (nonpositive_amount_reaches_chain admin_0 (demo_gateway 100 100) demo_now
           (JNum (of_Z (-5))) (JStr buyer_1) World.empty
           "-5" (-5000000) (-5000000000000000000000000000000000000) buyer_1 100 100).
  - vm_compute. repeat split; reflexivity.
  - lia.
  - reflexivity.
  - lia.
  - reflexivity.
  - lia.
  - intros d [].
Defined.

(** ** Decimal numerals *)
Lemma digits_val_acc (l : list ascii) (a : Z) :
  fold_left (fun acc c => 10 * acc + Chars.digit_val c) l a
  = a * 10 ^ Z.of_nat (length l) + Chars.digits_val l.
Proof.
  unfold Chars.digits_val. revert a.
  induction l as [|c l IH]; intros a.
  - simpl. lia.
  - cbn [fold_left length]. rewrite IH, (IH (10 * 0 + _)).
    rewrite Nat2Z.inj_succ, Z.pow_succ_r by lia. ring.
Qed.

Lemma digits_val_app (a b : list ascii) :
  Chars.digits_val (a ++ b)
  = Chars.digits_val a * 10 ^ Z.of_nat (length b) + Chars.digits_val b.
Proof.
  unfold Chars.digits_val at 1. rewrite fold_left_app.
  rewrite digits_val_acc. reflexivity.
Qed.

Lemma digits_val_zeros (n : nat) : Chars.digits_val (repeat "0"%char n) = 0.
Proof.
  induction n as [|n IH]; [reflexivity|].
  change (repeat "0"%char (S n)) with (["0"%char] ++ repeat "0"%char n).
  rewrite digits_val_app, IH. reflexivity.
Qed.

Lemma digits_val_nonneg (l : list ascii) :
  Chars.all_digits l = true -> 0 <= Chars.digits_val l.
Proof.
  induction l as [|c l IH] using rev_ind; intros H; [reflexivity|].
  unfold Chars.all_digits in *. rewrite forallb_app in H.
  apply andb_true_iff in H as [Hl Hc]. simpl in Hc. rewrite andb_true_r in Hc.
  rewrite digits_val_app. specialize (IH Hl).
  assert (0 <= Chars.digits_val [c]).
  { unfold Chars.digits_val, Chars.digit_val. simpl.
    unfold Chars.is_digit in Hc. apply andb_true_iff in Hc as [H1 _].
    apply Nat.leb_le in H1. lia. }
  simpl. lia.
Qed.

Lemma span_digits_all (l : list ascii) :
  Chars.all_digits l = true -> Chars.span_digits l = (l, []).
Proof.
  induction l as [|c l IH]; [reflexivity|].
  unfold Chars.all_digits. simpl. intros H.
  apply andb_true_iff in H as [Hc Hl]. rewrite Hc, (IH Hl). reflexivity.
Qed.

Lemma span_digits_app (a b : list ascii) :
  Chars.all_digits a = true ->
  match b with c :: _ => Chars.is_digit c = false | [] => True end ->
  Chars.span_digits (a ++ b) = (a, b).
Proof.
  intros Ha Hb. induction a as [|c a IH].
  - simpl. destruct b as [|c b]; [reflexivity|]. simpl. rewrite Hb. reflexivity.
  - unfold Chars.all_digits in Ha. simpl in Ha.
    apply andb_true_iff in Ha as [Hc Ha]. simpl. rewrite Hc, (IH Ha). reflexivity.
Qed.

Lemma span_digits_spec (l d r : list ascii) :
  Chars.span_digits l = (d, r) ->
  l = d ++ r /\ Chars.all_digits d = true /\
  match r with c :: _ => Chars.is_digit c = false | [] => True end.
Proof.
  revert d r. induction l as [|c l IH]; intros d r H; simpl in H.
  - injection H as <- <-. auto.
  - destruct (Chars.is_digit c) eqn:Hc.
    + destruct (Chars.span_digits l) as [d' k] eqn:Hl. injection H as <- <-.
      destruct (IH d' k eq_refl) as (-> & Hd & Hk).
      repeat split; [|exact Hk]. unfold Chars.all_digits in *. simpl. rewrite Hc, Hd. reflexivity.
    + injection H as <- <-. repeat split. exact Hc.
Qed.

(** The characters of a decimal numeral, and its value. *)
Lemma numeral_acc (d : Decimal.uint) (acc : positive) :
  fold_left (fun a c => 10 * a + Chars.digit_val c)
            (list_ascii_of_string (NilEmpty.string_of_uint d)) (Zpos acc)
  = Zpos (Pos.of_uint_acc d acc).
Proof.
  revert acc. induction d; intros acc; simpl; try reflexivity;
    cbn [fold_left]; rewrite <- IHd; f_equal;
    match goal with
    | |- context [Chars.digit_val ?c] =>
        let v := eval vm_compute in (Chars.digit_val c) in
        change (Chars.digit_val c) with v
    end; lia.
Qed.

Lemma numeral_val (d : Decimal.uint) :
  Chars.digits_val (list_ascii_of_string (NilEmpty.string_of_uint d)) = Z.of_N (Pos.of_uint d).
Proof.
  unfold Chars.digits_val.
  induction d; simpl; try reflexivity; try exact IHd;
    cbn [fold_left]; apply numeral_acc.
Qed.

Lemma numeral_digits (d : Decimal.uint) :
  Chars.all_digits (list_ascii_of_string (NilEmpty.string_of_uint d)) = true.
Proof.
  unfold Chars.all_digits. induction d; simpl; try reflexivity; exact IHd.
Qed.

Lemma decimal_numeral (z : Z) :
  Chars.decimal z = NilEmpty.string_of_uint (N.to_uint (Z.to_N z)).
Proof.
  unfold Chars.decimal, NilZero.string_of_uint.
  destruct (N.to_uint (Z.to_N z)) eqn:H; try reflexivity.
  exfalso. destruct (Z.to_N z) as [|p]; [discriminate H|].
  exact (DecimalPos.Unsigned.to_uint_nonnil p H).
Qed.

Lemma decimal_val (z : Z) :
  0 <= z -> Chars.digits_val (list_ascii_of_string (Chars.decimal z)) = z.
Proof.
  intros Hz. rewrite decimal_numeral, numeral_val.
  change (Pos.of_uint ?d) with (N.of_uint d).
  rewrite DecimalN.Unsigned.of_to. lia.
Qed.

Lemma decimal_digits (z : Z) :
  Chars.all_digits (list_ascii_of_string (Chars.decimal z)) = true.
Proof. rewrite decimal_numeral. apply numeral_digits. Qed.

Lemma decimal_not_empty (z : Z) : list_ascii_of_string (Chars.decimal z) <> [].
Proof.
  rewrite decimal_numeral.
  destruct (N.to_uint (Z.to_N z)) eqn:H; simpl; try discriminate.
  exfalso. destruct (Z.to_N z) as [|p]; [discriminate H|].
  exact (DecimalPos.Unsigned.to_uint_nonnil p H).
Qed.


(** ** [parseUnits] and [formatUnits] *)

Lemma chars_app (a b : string) :
  list_ascii_of_string (a ++ b)%string = list_ascii_of_string a ++ list_ascii_of_string b.
Proof. induction a as [|c a IH]; simpl; [reflexivity | rewrite IH; reflexivity]. Qed.

Lemma string_of_chars_app (a b : list ascii) :
  string_of_list_ascii (a ++ b)
  = (string_of_list_ascii a ++ string_of_list_ascii b)%string.
Proof. induction a as [|c a IH]; simpl; [reflexivity | rewrite IH; reflexivity]. Qed.

Lemma digit_not_minus (c : ascii) : Chars.is_digit c = true -> c <> "-"%char.
Proof. intros H ->. discriminate H. Qed.

(** What [parseUnits] reads from a numeral given by its parts. *)
Lemma parseUnits_parts (neg point : bool) (whole dec : list ascii) (decimals : nat) :
  Chars.all_digits whole = true -> Chars.all_digits dec = true ->
  (point = false -> dec = []) ->
  (0 < length whole + length dec)%nat ->
  (length dec <= decimals)%nat ->
  let v := Chars.digits_val (whole ++ dec ++ repeat "0"%char (decimals - length dec)) in
  in_range (if neg then - v else v) = true ->
  parseUnits (string_of_list_ascii
                ((if neg then ["-"%char] else []) ++ whole ++
                 (if point then ["."%char] else []) ++ dec)) decimals
  = Ok (if neg then - v else v).
Proof.
  intros Hw Hd Hpoint Hlen Hdec v Hrange.
  unfold parseUnits. rewrite list_ascii_of_string_of_list_ascii.
  set (body := whole ++ (if point then ["."%char] else []) ++ dec).
  assert (Hsplit : (let '(neg', l1) :=
                      match (if neg then ["-"%char] else []) ++ body with
                      | "-"%char :: r => (true, r)
                      | _ => (false, (if neg then ["-"%char] else []) ++ body)
                      end in (neg', l1)) = (neg, body)).
  { destruct neg; [reflexivity|]. simpl.
    destruct body as [|c r] eqn:Hb; [reflexivity|].
    assert (Hc : c <> "-"%char).
    { subst body. destruct whole as [|c0 whole'].
      - destruct point; simpl in Hb.
        + injection Hb as <- _. discriminate.
        + rewrite (Hpoint eq_refl) in Hlen. simpl in Hlen. lia.
      - simpl in Hb. injection Hb as <- _.
        unfold Chars.all_digits in Hw. simpl in Hw.
        apply andb_true_iff in Hw as [Hc _]. apply digit_not_minus. exact Hc. }
    destruct c as [[] [] [] [] [] [] [] []]; try reflexivity. congruence. }
  destruct (match (if neg then ["-"%char] else []) ++ body with
            | "-"%char :: r => (true, r)
            | _ => (false, (if neg then ["-"%char] else []) ++ body)
            end) as [neg' l1].
  injection Hsplit as -> ->.
  assert (Hspan1 : Chars.span_digits body
                   = (whole, (if point then ["."%char] else []) ++ dec)).
  { subst body. apply span_digits_app; [exact Hw|].
    destruct point; simpl; [reflexivity|].
    rewrite (Hpoint eq_refl). exact I. }
  rewrite Hspan1.
  assert (Hl3 : match (if point then ["."%char] else []) ++ dec with
                | "."%char :: r => r
                | _ => (if point then ["."%char] else []) ++ dec
                end = dec).
  { destruct point; [reflexivity|]. rewrite (Hpoint eq_refl). reflexivity. }
  rewrite Hl3, (span_digits_all dec Hd).
  destruct (Nat.eqb_spec (length whole + length dec) 0) as [H0|_]; [lia|].
  assert (Hskip : skipn decimals (dec ++ repeat "0"%char (decimals - length dec)) = []).
  { apply skipn_all2. rewrite length_app, repeat_length. lia. }
  rewrite Hskip. simpl forallb. cbn [negb].
  rewrite firstn_all2 by (rewrite length_app, repeat_length; lia).
  fold v. rewrite Hrange. reflexivity.
Qed.

(** [trim_whole] drops leading zeros and keeps the last character. *)
Lemma trim_whole_spec (l : list ascii) :
  exists k, l = repeat "0"%char k ++ trim_whole l.
Proof.
  induction l as [|c l IH]; [exists O; reflexivity|].
  destruct l as [|c' l]; [exists O; reflexivity|].
  change (trim_whole (c :: c' :: l))
    with (if is_zero_char c then trim_whole (c' :: l) else c :: c' :: l).
  destruct (is_zero_char c) eqn:Hc.
  - destruct IH as [k Hk]. exists (S k). cbn [repeat app]. rewrite <- Hk. f_equal.
    unfold is_zero_char in Hc. apply Ascii.eqb_eq in Hc. exact Hc.
  - exists O. reflexivity.
Qed.

Lemma trim_whole_not_empty (l : list ascii) : l <> [] -> trim_whole l <> [].
Proof.
  induction l as [|c l IH]; [congruence|]. intros _.
  destruct l as [|c' l]; [discriminate|].
  change (trim_whole (c :: c' :: l))
    with (if is_zero_char c then trim_whole (c' :: l) else c :: c' :: l).
  destruct (is_zero_char c); [apply IH; discriminate | discriminate].
Qed.

Lemma all_digits_app (a b : list ascii) :
  Chars.all_digits (a ++ b) = Chars.all_digits a && Chars.all_digits b.
Proof. apply forallb_app. Qed.

Lemma all_digits_zeros (n : nat) : Chars.all_digits (repeat "0"%char n) = true.
Proof. induction n; [reflexivity | exact IHn]. Qed.

Lemma all_digits_rev (l : list ascii) : Chars.all_digits (rev l) = Chars.all_digits l.
Proof.
  induction l as [|c l IH]; [reflexivity|].
  simpl rev. rewrite all_digits_app, IH. unfold Chars.all_digits. simpl.
  rewrite andb_true_r. apply andb_comm.
Qed.

Lemma trim_whole_digits (l : list ascii) :
  Chars.all_digits l = true -> Chars.all_digits (trim_whole l) = true.
Proof.
  intros H. destruct (trim_whole_spec l) as [k Hk].
  rewrite Hk, all_digits_app in H. apply andb_true_iff in H as [_ H]. exact H.
Qed.

Lemma rev_zeros (n : nat) : rev (repeat "0"%char n) = repeat "0"%char n.
Proof.
  induction n as [|n IH]; [reflexivity|].
  simpl. rewrite IH. symmetry. apply repeat_cons.
Qed.

(** The digits [formatUnits] prints, read back: the value. *)
Lemma format_parse_digits (str : list ascii) (decimals : nat) :
  Chars.all_digits str = true -> (decimals < length str)%nat ->
  let index := (length str - decimals)%nat in
  let whole := trim_whole (firstn index str) in
  let frac := rev (trim_whole (rev (skipn index str))) in
  Chars.all_digits whole = true /\ Chars.all_digits frac = true /\
  whole <> [] /\ (length frac <= decimals)%nat /\
  Chars.digits_val (whole ++ frac ++ repeat "0"%char (decimals - length frac))
  = Chars.digits_val str.
Proof.
  intros Hd Hlen index whole frac.
  assert (Hparts : str = firstn index str ++ skipn index str)
    by (symmetry; apply firstn_skipn).
  rewrite Hparts, all_digits_app in Hd. apply andb_true_iff in Hd as [Hd1 Hd2].
  assert (Hlf : length (skipn index str) = decimals)
    by (rewrite length_skipn; subst index; lia).
  destruct (trim_whole_spec (firstn index str)) as [k1 Hk1]. fold whole in Hk1.
  destruct (trim_whole_spec (rev (skipn index str))) as [k2 Hk2].
  assert (Hfrac : skipn index str = frac ++ repeat "0"%char k2).
  { rewrite <- (rev_involutive (skipn index str)), Hk2 at 1.
    rewrite rev_app_distr, rev_zeros. reflexivity. }
  assert (Hk2' : (k2 = decimals - length frac)%nat).
  { apply (f_equal (@length ascii)) in Hfrac.
    rewrite length_app, repeat_length in Hfrac. lia. }
  split; [apply trim_whole_digits; exact Hd1|].
  split.
  { subst frac. rewrite all_digits_rev. apply trim_whole_digits.
    rewrite all_digits_rev. exact Hd2. }
  split.
  { apply trim_whole_not_empty. intros Hnil.
    apply (f_equal (@length ascii)) in Hnil. rewrite length_firstn in Hnil.
    simpl in Hnil. subst index. lia. }
  split; [apply (f_equal (@length ascii)) in Hfrac;
          rewrite length_app, repeat_length in Hfrac; lia|].
  rewrite <- Hk2', <- Hfrac.
  assert (Hwv : Chars.digits_val (firstn index str) = Chars.digits_val whole).
  { rewrite Hk1 at 1. rewrite digits_val_app, digits_val_zeros. lia. }
  transitivity (Chars.digits_val (firstn index str ++ skipn index str));
    [|rewrite firstn_skipn; reflexivity].
  rewrite (digits_val_app whole), (digits_val_app (firstn index str)), Hwv.
  reflexivity.
Qed.

(** Reading back what [formatUnits] printed gives the value. *)
Lemma parse_format (value : Z) (decimals : nat) :
  in_range value = true ->
  parseUnits (formatUnits value decimals) decimals = Ok value.
Proof.
  intros Hrange. unfold formatUnits.
  set (str := list_ascii_of_string (Chars.decimal (Z.abs value))).
  assert (Hstr : Chars.all_digits str = true) by apply decimal_digits.
  assert (Hval : Chars.digits_val str = Z.abs value)
    by (apply decimal_val; lia).
  assert (Hne : (0 < length str)%nat).
  { pose proof (decimal_not_empty (Z.abs value)) as H. fold str in H.
    destruct str; [congruence | simpl; lia]. }
  destruct decimals as [|d].
  - replace ((if (value <? 0)%Z then "-" else "") ++ string_of_list_ascii str)%string
      with (string_of_list_ascii
              ((if value <? 0 then ["-"%char] else []) ++ str ++
               (if false then ["."%char] else []) ++ []))
      by (rewrite app_nil_r; destruct (value <? 0); reflexivity).
    rewrite (parseUnits_parts (value <? 0) false str [] 0 Hstr eq_refl
               (fun _ => eq_refl) ltac:(simpl; lia) ltac:(simpl; lia)).
    + simpl. rewrite app_nil_r, Hval. f_equal. destruct (Z.ltb_spec value 0); lia.
    + simpl. rewrite app_nil_r, Hval.
      replace (if value <? 0 then - Z.abs value else Z.abs value) with value
        by (destruct (Z.ltb_spec value 0); lia).
      exact Hrange.
  - set (str' := repeat "0"%char (S (S d) - length str) ++ str).
    assert (Hstr' : Chars.all_digits str' = true).
    { subst str'. rewrite all_digits_app, all_digits_zeros, Hstr. reflexivity. }
    assert (Hlen' : (S d < length str')%nat).
    { subst str'. rewrite length_app, repeat_length. lia. }
    assert (Hval' : Chars.digits_val str' = Z.abs value).
    { subst str'. rewrite digits_val_app, digits_val_zeros, Hval. lia. }
    destruct (format_parse_digits str' (S d) Hstr' Hlen')
      as (Hw & Hf & Hwne & Hfl & Hdv).
    set (whole := trim_whole (firstn (length str' - S d) str')) in *.
    set (frac := rev (trim_whole (rev (skipn (length str' - S d) str')))) in *.
    replace ((if (value <? 0)%Z then "-" else "") ++ string_of_list_ascii whole ++ "." ++
             string_of_list_ascii frac)%string
      with (string_of_list_ascii
              ((if value <? 0 then ["-"%char] else []) ++ whole ++
               (if true then ["."%char] else []) ++ frac)).
    2:{ rewrite !string_of_chars_app. destruct (value <? 0); reflexivity. }
    assert (Hpos : (0 < length whole + length frac)%nat)
      by (destruct whole; [congruence | simpl; lia]).
    rewrite (parseUnits_parts (value <? 0) true whole frac (S d) Hw Hf
               ltac:(discriminate) Hpos Hfl).
    + rewrite Hdv, Hval'. f_equal. destruct (Z.ltb_spec value 0); lia.
    + rewrite Hdv, Hval'.
      replace (if value <? 0 then - Z.abs value else Z.abs value) with value
        by (destruct (Z.ltb_spec value 0); lia).
      exact Hrange.
Qed.

Lemma parseUnits_decimal (z : Z) (decimals : nat) :
  0 <= z -> in_range (z * 10 ^ Z.of_nat decimals) = true ->
  parseUnits (Chars.decimal z) decimals = Ok (z * 10 ^ Z.of_nat decimals).
Proof.
  intros Hz Hrange.
  pose proof (parseUnits_parts false false (list_ascii_of_string (Chars.decimal z)) []
                decimals (decimal_digits z) eq_refl (fun _ => eq_refl)) as H.
  cbn [length app] in H. rewrite app_nil_r, string_of_list_ascii_of_string in H.
  rewrite Nat.sub_0_r, digits_val_app, digits_val_zeros, repeat_length, decimal_val in H
    by exact Hz.
  rewrite Z.add_0_r in H. apply H; [|lia|exact Hrange].
  pose proof (decimal_not_empty z).
  destruct (list_ascii_of_string (Chars.decimal z)); [congruence | simpl; lia].
Qed.

Lemma in_range_small (z : Z) : 0 <= z < 10 ^ 40 -> in_range z = true.
Proof.
  intros Hz. unfold in_range. apply andb_true_iff. split.
  - apply Z.leb_le. assert (0 < 2 ^ 511) by (apply Z.pow_pos_nonneg; lia). lia.
  - apply Z.ltb_lt.
    assert (10 ^ 40 < 2 ^ 511) by (apply Z.ltb_lt; vm_compute; reflexivity). lia.
Qed.

Lemma in_range_uint256 (v : Z) : 0 <= v < 2 ^ 256 -> in_range v = true.
Proof.
  intros Hv. unfold in_range. apply andb_true_iff. split.
  - apply Z.leb_le. assert (0 < 2 ^ 511) by (apply Z.pow_pos_nonneg; lia). lia.
  - apply Z.ltb_lt.
    assert (2 ^ 256 < 2 ^ 511) by (apply Z.pow_lt_mono_r; lia). lia.
Qed.

Lemma parseUnits_in_range (s : string) (decimals : nat) (v : Z) :
  parseUnits s decimals = Ok v -> in_range v = true.
Proof.
  unfold parseUnits.
  destruct (match list_ascii_of_string s with
            | "-"%char :: r => (true, r)
            | _ => (false, list_ascii_of_string s)
            end) as [neg l1].
  destruct (Chars.span_digits l1) as [whole l2].
  destruct (Chars.span_digits _) as [dec l4].
  destruct l4; [|discriminate].
  destruct (_ =? _)%nat; [discriminate|].
  destruct (negb _); [discriminate|].
  destruct (in_range _) eqn:Hr; [|discriminate].
  intros H. injection H as <-. exact Hr.
Qed.

(** ** Whole amounts: one thousand and more, and below *)


Lemma small_amounts_checked : forallb prints_as_numeral convertible_amounts = true.
Proof. vm_compute. reflexivity. Qed.



Lemma whole_amount_prints (n : Z) :
  1 <= n <= 999 -> JsNumber.toString (of_Z n) = Chars.decimal n.
Proof.
  intros Hn.
  assert (Hin : In n convertible_amounts).
  { unfold convertible_amounts. apply in_map_iff. exists (Z.to_nat n). split; [lia|].
    apply in_seq. lia. }
  pose proof small_amounts_checked as Hall.
  rewrite forallb_forall in Hall. specialize (Hall n Hin).
  apply String.eqb_eq. exact Hall.
Qed.

(** X9. The token amount is scaled twice.  For a whole amount [n] from 1 to
    999 sent as a Number, whenever the handler asks for a mint, the amount
    it asks for is [n * 10^18 * 10^18] base units: [calculateTokenAmount]
    has already multiplied by 10^18 and [parseUnits] multiplies again.  The
    payment confirmed before is of [n * 10^6] units, and the record holds
    the numerals of [n] and of [n * 10^18]. *)
Theorem whole_purchase_is_scaled_twice ADMIN gw now n buyerAddress w resp w'
    to amount answer :
  1 <= n <= 999 ->
  buy_tokens ADMIN gw now (JNum (of_Z n)) buyerAddress w = (resp, w') ->
  In (SendMint to amount answer) (new_calls w w') ->
  amount = n * 10 ^ 18 * 10 ^ 18 /\
  exists payHash doc,
    In (SendTransferFrom to ADMIN (n * 10 ^ 6) (Ok payHash)) (new_calls w w') /\
    ledger w' = ledger w ++ [doc] /\
    Transaction.usdtAmount doc = Chars.decimal n /\
    Transaction.amount doc = Chars.decimal (n * 10 ^ 18).
Proof.
  intros Hn Hrun Hin.
  assert (Htok : parseUnits (JsNumber.toString (calculateTokenAmount (JNum (of_Z n))))
                            TOKEN_DECIMALS = Ok (n * 10 ^ 18 * 10 ^ 18)).
  { rewrite token_amount_prints_exactly by exact Hn.
    apply parseUnits_decimal; [lia|]. apply in_range_small.
    change (Z.of_nat TOKEN_DECIMALS) with 18.
    assert (H18 : 10 ^ 18 = 1000000000000000000) by reflexivity.
    assert (H40 : 10 ^ 40 = 10000000000000000000000000000000000000000) by reflexivity.
    rewrite H18, H40. lia. }
  assert (Hreq : parseUnits (JsNumber.toString (of_Z n)) USDT_DECIMALS = Ok (n * 10 ^ 6)).
  { rewrite whole_amount_prints by exact Hn.
    apply parseUnits_decimal; [lia|]. apply in_range_small.
    change (Z.of_nat USDT_DECIMALS) with 6.
    assert (H6 : 10 ^ 6 = 1000000) by reflexivity.
    assert (H40 : 10 ^ 40 = 10000000000000000000000000000000000000000) by reflexivity.
    rewrite H6, H40. lia. }
  apply buy_tokens_run in Hrun as [r [Hrun ->]].
  inversion Hrun; subst; in_calls;
    match goal with
    | Hp : prepared _ _ _ _ _ _ |- _ =>
        destruct Hp as (_ & _ & Hs & Hr & Ht & _)
    end;
    change (Js.toString (JNum (of_Z n))) with (Ok (JsNumber.toString (of_Z n))) in Hs;
    injection Hs as <-;
    rewrite Hreq in Hr; injection Hr as <-;
    rewrite Htok in Ht; injection Ht as <-;
    rewrite new_calls_after_purchase;
    (split; [reflexivity|]);
    do 2 eexists; (split; [right; right; left; reflexivity|]);
    (split; [reflexivity|]); simpl;
    rewrite whole_amount_prints, token_amount_prints_exactly by exact Hn;
    split; reflexivity.
Qed.

Lemma whole_purchase_is_scaled_twice_witness :
  80000000000000000000000000000000000000 = 80 * 10 ^ 18 * 10 ^ 18 /\
  exists payHash doc,
    In (SendTransferFrom buyer_1 admin_0 (80 * 10 ^ 6) (Ok payHash))
       (new_calls World.empty
          (snd (buy_tokens admin_0 (demo_gateway 100000000 100000000) demo_now
                  (JNum (of_Z 80)) (JStr buyer_1) World.empty))) /\
    ledger (snd (buy_tokens admin_0 (demo_gateway 100000000 100000000) demo_now
                   (JNum (of_Z 80)) (JStr buyer_1) World.empty))
    = ledger World.empty ++ [doc] /\
    Transaction.usdtAmount doc = Chars.decimal 80 /\
    Transaction.amount doc = Chars.decimal (80 * 10 ^ 18).
Proof.
  apply (whole_purchase_is_scaled_twice admin_0 (demo_gateway 100000000 100000000)
           demo_now 80 (JStr buyer_1) World.empty
           (fst (buy_tokens admin_0 (demo_gateway 100000000 100000000) demo_now
                   (JNum (of_Z 80)) (JStr buyer_1) World.empty))
           (snd (buy_tokens admin_0 (demo_gateway 100000000 100000000) demo_now
                   (JNum (of_Z 80)) (JStr buyer_1) World.empty))
           buyer_1 80000000000000000000000000000000000000 (Ok mint_hash)).
  - lia.
  - vm_compute. reflexivity.
  - vm_compute. right; right; right; left; reflexivity.
Defined.

(** ** Amounts in the responses *)

(** X10. The allowance endpoint reports the allowance exactly: for an
    address that is given, the string in its 200 response, read back with
    [parseUnits] at six decimals, is the uint256 the gateway answered, and
    the request made that one read and nothing else.  When the read fails the
    answer is 500 with a fixed message; when the address is absent or
    empty it is 400 and the gateway is not called. *)
Theorem allowance_is_reported_exactly ADMIN gw address w :
  (forall a allowance,
     given address = Some a ->
     gw_allowance gw a ADMIN = Ok allowance -> 0 <= allowance < 2 ^ 256 ->
     exists shown,
       usdt_allowance ADMIN gw address w
       = (respond 200 (AllowanceInfo shown),
          after_calls w [CallAllowance a ADMIN (Ok allowance)]) /\
       parseUnits shown USDT_DECIMALS = Ok allowance) /\
  (forall a e,
     given address = Some a -> gw_allowance gw a ADMIN = Throw e ->
     usdt_allowance ADMIN gw address w
     = (respond 500 (AllowanceError "Failed to get USDT allowance"),
        after_calls w [CallAllowance a ADMIN (Throw e)])) /\
  (address = None \/ address = Some ""%string ->
   usdt_allowance ADMIN gw address w
   = (respond 400 (AllowanceError "Address is required"), w)).
Proof.
  split; [|split].
  - intros a allowance Ha Hall Hrange.
    exists (formatUnits allowance USDT_DECIMALS). split.
    + unfold usdt_allowance, call. rewrite Ha, Hall. reflexivity.
    + apply parse_format, in_range_uint256. exact Hrange.
  - intros a e Ha Hall. unfold usdt_allowance, call. rewrite Ha, Hall. reflexivity.
  - intros [-> | ->]; reflexivity.
Qed.

Lemma allowance_is_reported_exactly_witness :
  exists shown,
    usdt_allowance admin_0 (demo_gateway 100000000 50000000) (Some buyer_1) demo_world
    = (respond 200 (AllowanceInfo shown),
       after_calls demo_world [CallAllowance buyer_1 admin_0 (Ok 50000000)]) /\
    parseUnits shown USDT_DECIMALS = Ok 50000000.
Proof.
  apply (proj1 (allowance_is_reported_exactly admin_0 (demo_gateway 100000000 50000000)
                  (Some buyer_1) demo_world) buyer_1 50000000).
  - reflexivity.
  - reflexivity.
  - split; [lia|]. apply Z.ltb_lt. vm_compute. reflexivity.
Defined.

(** X11. The two insufficient-funds responses report their amounts
    exactly.  With a gateway whose reads are uint256 values, [required]
    reads back (with [parseUnits] at six decimals) as the amount the
    request parsed to, [available] or [approved] reads back as what the
    gateway answered for the buyer, and the latter is the smaller. *)
Theorem shortfall_is_reported_exactly ADMIN gw now usdtAmount buyerAddress w resp w' :
  (forall owner v, gw_balanceOf gw owner = Ok v -> 0 <= v < 2 ^ 256) ->
  (forall owner spender v, gw_allowance gw owner spender = Ok v -> 0 <= v < 2 ^ 256) ->
  buy_tokens ADMIN gw now usdtAmount buyerAddress w = (resp, w') ->
  (forall error required available,
     res_body resp = BodyInsufficientBalance error required available ->
     exists s req buyer bal,
       Js.toString usdtAmount = Ok s /\
       parseUnits s USDT_DECIMALS = Ok req /\
       buyerAddress = JStr buyer /\ gw_balanceOf gw buyer = Ok bal /\
       parseUnits required USDT_DECIMALS = Ok req /\
       parseUnits available USDT_DECIMALS = Ok bal /\
       bal < req) /\
  (forall error required approved,
     res_body resp = BodyInsufficientAllowance error required approved ->
     exists s req buyer allow,
       Js.toString usdtAmount = Ok s /\
       parseUnits s USDT_DECIMALS = Ok req /\
       buyerAddress = JStr buyer /\ gw_allowance gw buyer ADMIN = Ok allow /\
       parseUnits required USDT_DECIMALS = Ok req /\
       parseUnits approved USDT_DECIMALS = Ok allow /\
       allow < req).
Proof.
  intros Hbal Hall Hrun.
  apply buy_tokens_run in Hrun as [r [Hrun ->]].
  inversion Hrun; subst; simpl;
    (split; intros error required shown Hbody);
    try discriminate Hbody;
    try (exfalso;
         match goal with
         | H : res_body (purchase_failure ?e) = _ |- _ =>
             destruct (purchase_failure_is_error e) as (_ & Herr & _);
             rewrite H in Herr; discriminate Herr
         end);
    injection Hbody as <- <- <-;
    match goal with
    | Hp : prepared _ _ _ _ _ _ |- _ =>
        destruct Hp as (_ & _ & Hs & Hreq & _ & Hbuyer);
        apply resolveAddress_Ok in Hbuyer
    end;
    do 4 eexists;
    (split; [exact Hs|]); (split; [exact Hreq|]); (split; [exact Hbuyer|]);
    (split; [eassumption|]);
    (split; [apply parse_format; eapply parseUnits_in_range; exact Hreq|]);
    (split; [apply parse_format, in_range_uint256; eauto | assumption]).
Qed.

Lemma shortfall_is_reported_exactly_witness :
  exists s req buyer allow,
    Js.toString (JNum (of_Z 80)) = Ok s /\
    parseUnits s USDT_DECIMALS = Ok req /\
    JStr buyer_1 = JStr buyer /\
    gw_allowance (demo_gateway 100000000 50000000) buyer admin_0 = Ok allow /\
    parseUnits "80.0" USDT_DECIMALS = Ok req /\
    parseUnits "50.0" USDT_DECIMALS = Ok allow /\
    allow < req.
Proof.
  apply (proj2 (shortfall_is_reported_exactly admin_0 (demo_gateway 100000000 50000000)
                  demo_now (JNum (of_Z 80)) (JStr buyer_1) World.empty
                  (fst (buy_tokens admin_0 (demo_gateway 100000000 50000000) demo_now
                          (JNum (of_Z 80)) (JStr buyer_1) World.empty))
                  (snd (buy_tokens admin_0 (demo_gateway 100000000 50000000) demo_now
                          (JNum (of_Z 80)) (JStr buyer_1) World.empty))
                  ltac:(intros owner v H; injection H as <-; split;
                        [lia | apply Z.ltb_lt; vm_compute; reflexivity])
                  ltac:(intros owner spender v H; injection H as <-; split;
                        [lia | apply Z.ltb_lt; vm_compute; reflexivity])
                  ltac:(vm_compute; reflexivity))
           "Insufficient USDT allowance. Please approve USDT transfer first."%string).
  vm_compute. reflexivity.
Defined.

(** ** Pages of a history, and the export *)

Lemma firstn_plus {A} (n m : nat) (l : list A) :
  firstn (n + m) l = firstn n l ++ firstn m (skipn n l).
Proof.
  revert l. induction n as [|n IH]; intros l; [reflexivity|].
  destruct l as [|x l]; simpl; [rewrite firstn_nil; reflexivity|].
  rewrite IH. reflexivity.
Qed.

(** Consecutive slices of a list make up its beginning. *)
Lemma slices_concat {A} (s : nat) (l : list A) (n : nat) :
  flat_map (fun i => firstn s (skipn ((i - 1) * s) l)) (seq 1 n) = firstn (n * s) l.
Proof.
  induction n as [|n IH]; [reflexivity|].
  rewrite seq_S, flat_map_app, IH. cbn [flat_map]. rewrite app_nil_r.
  replace (1 + n - 1)%nat with n by lia.
  replace (S n * s)%nat with (n * s + s)%nat by lia.
  symmetry. apply firstn_plus.
Qed.

Lemma page_of_slice (q : HistoryQuery.t) (w : World.t) (address : string) (p : positive) :
  given (HistoryQuery.address q) = Some address ->
  page_of q w p
  = firstn (Pos.to_nat (with_default 10%positive (HistoryQuery.limit q)))
      (skipn ((Pos.to_nat p - 1) * Pos.to_nat (with_default 10%positive (HistoryQuery.limit q)))
         (sort newest_first (List.filter (history_match address q) (ledger w)))).
Proof.
  intros Ha. unfold page_of, transaction_history, history.
  cbn [HistoryQuery.address HistoryQuery.page HistoryQuery.limit with_page with_default].
  rewrite Ha. unfold bind, documents, ret. cbn [fst res_body].
  f_equal. f_equal. rewrite Z2Nat.inj_mul by lia. f_equal; lia.
Qed.

Lemma first_pages_all (q : HistoryQuery.t) (w : World.t) (address : string) :
  given (HistoryQuery.address q) = Some address ->
  let s := with_default 10%positive (HistoryQuery.limit q) in
  let found := List.filter (history_match address q) (ledger w) in
  first_pages (Z.to_nat (Math_ceil_div (Z.of_nat (length found)) (Zpos s))) q w
  = sort newest_first found.
Proof.
  intros Ha s found.
  assert (Hlen : length (sort newest_first found) = length found).
  { symmetry. apply Permutation_length, sort_perm. }
  destruct (Math_ceil_div_spec (Z.of_nat (length found)) (Zpos s) ltac:(lia) ltac:(lia))
    as [Hup Hlow].
  unfold first_pages.
  rewrite (flat_map_ext _ (fun i => firstn (Pos.to_nat s)
             (skipn ((i - 1) * Pos.to_nat s) (sort newest_first found)))).
  - rewrite slices_concat. apply firstn_all2. rewrite Hlen. nia.
  - intros i. rewrite (page_of_slice q w address _ Ha). fold s found.
    destruct i as [|i]; [reflexivity|].
    rewrite Nat2Pos.id by discriminate. reflexivity.
Qed.

(** X12. The pages of a history fit together.  For a query with an
    address, every page reports the same number of pages; each page before
    the last holds exactly [limit] records and each page after the last is
    empty; together the pages hold as many records as match; and, when no
    two matching records share a timestamp (so that the order newest first
    is the same on every call), pages 1 to the last, one after the other,
    are the matching records newest first, each exactly once. *)
Theorem history_pages_cover (q : HistoryQuery.t) (w : World.t) (address : string) :
  given (HistoryQuery.address q) = Some address ->
  let s := with_default 10%positive (HistoryQuery.limit q) in
  let found := List.filter (history_match address q) (ledger w) in
  let pages := Math_ceil_div (Z.of_nat (length found)) (Zpos s) in
  (forall p, exists transactions total,
     transaction_history (with_page p q) w
     = (respond 200 (HistoryPage transactions total (Zpos p) (Zpos s) pages), w)) /\
  (forall p, Zpos p < pages -> length (page_of q w p) = Pos.to_nat s) /\
  (forall p, pages < Zpos p -> page_of q w p = []) /\
  length (first_pages (Z.to_nat pages) q w) = length found /\
  (List.NoDup (map Transaction.timestamp found) ->
   first_pages (Z.to_nat pages) q w = sort newest_first found /\
   Permutation (first_pages (Z.to_nat pages) q w) found).
Proof.
  intros Ha s found pages.
  assert (Hlen : length (sort newest_first found) = length found).
  { symmetry. apply Permutation_length, sort_perm. }
  destruct (Math_ceil_div_spec (Z.of_nat (length found)) (Zpos s) ltac:(lia) ltac:(lia))
    as [Hup Hlow]. fold pages in Hup, Hlow.
  assert (Hall : first_pages (Z.to_nat pages) q w = sort newest_first found)
    by exact (first_pages_all q w address Ha).
  split; [|split; [|split; [|split]]].
  - intros p. do 2 eexists. unfold transaction_history, history.
    cbn [HistoryQuery.address HistoryQuery.page HistoryQuery.limit with_page with_default].
    rewrite Ha. unfold bind, documents, ret. reflexivity.
  - intros p Hp. rewrite (page_of_slice q w address p Ha). fold s found.
    rewrite length_firstn, length_skipn, Hlen. nia.
  - intros p Hp. rewrite (page_of_slice q w address p Ha). fold s found.
    rewrite skipn_all2; [apply firstn_nil|]. rewrite Hlen. nia.
  - rewrite Hall. exact Hlen.
  - intros _. split; [exact Hall|]. rewrite Hall. symmetry. apply sort_perm.
Qed.

Lemma history_pages_cover_witness :
  length (first_pages 2 demo_history demo_world) = 2%nat /\
  (List.NoDup [1700000000000; 1600000001000] ->
   first_pages 2 demo_history demo_world
   = sort newest_first
       (List.filter (history_match buyer_1 demo_history) (ledger demo_world)) /\
   Permutation (first_pages 2 demo_history demo_world)
     (List.filter (history_match buyer_1 demo_history) (ledger demo_world))).
Proof.
  exact (proj2 (proj2 (proj2 (history_pages_cover demo_history demo_world buyer_1
                                eq_refl)))).
Defined.

Lemma newest_first_total (a b : Transaction.t) :
  newest_first a b = true \/ newest_first b a = true.
Proof.
  unfold newest_first.
  destruct (Z.leb_spec (Transaction.timestamp b) (Transaction.timestamp a));
    [left; reflexivity | right; apply Z.leb_le; lia].
Qed.

Lemma newest_first_Sorted (l : list Transaction.t) :
  Sorted (fun a b => Transaction.timestamp b <= Transaction.timestamp a)
         (sort newest_first l).
Proof.
  eapply Sorted_impl; [|apply (sort_Sorted newest_first), newest_first_total].
  intros a b Hab. apply Z.leb_le. exact Hab.
Qed.

Lemma history_of_match (q : ExportQuery.t) (address : string) (d : Transaction.t) :
  history_match address (history_of q) d = String.eqb (Transaction.buyerAddress d) address.
Proof.
  unfold history_match, history_of, date_filter. simpl. rewrite !andb_true_r. reflexivity.
Qed.

(** X13. An export is the whole history of the address: every record of
    the ledger with that buyer address, whatever its type and status, each
    once and newest first, not paged; as JSON when a format other than
    "csv" is given, as CSV (a header line, then one line per record) when
    the format is "csv" or absent.  When no two of the records share a
    timestamp, it is what the pages of the unfiltered history of the address
    hold, one after the other. *)
Theorem export_is_the_whole_history (q : ExportQuery.t) (w : World.t) (address : string) :
  given (ExportQuery.address q) = Some address ->
  exists transactions,
    (forall d, In d transactions <->
               In d (ledger w) /\ Transaction.buyerAddress d = address) /\
    Permutation transactions
      (List.filter (fun d => String.eqb (Transaction.buyerAddress d) address) (ledger w)) /\
    Sorted (fun a b => Transaction.timestamp b <= Transaction.timestamp a) transactions /\
    (forall fmt, ExportQuery.format q = Some fmt -> fmt <> "csv"%string ->
       export_transactions q w = (respond 200 (ExportJson transactions), w)) /\
    (ExportQuery.format q = None \/ ExportQuery.format q = Some "csv"%string ->
       export_transactions q w
       = (respond 200 (ExportCsv
            (join newline (map (join ",") (csv_header :: map csv_row transactions)))), w)) /\
    (List.NoDup (map Transaction.timestamp transactions) ->
     first_pages (Z.to_nat (Math_ceil_div (Z.of_nat (length transactions)) 10))
                 (history_of q) w = transactions).
Proof.
  intros Ha.
  set (mine := fun d => String.eqb (Transaction.buyerAddress d) address).
  exists (sort newest_first (List.filter mine (ledger w))).
  split.
  { intros d. rewrite (sort_In newest_first), filter_In. unfold mine.
    rewrite String.eqb_eq. reflexivity. }
  split; [symmetry; apply sort_perm|].
  split; [apply newest_first_Sorted|].
  split; [|split].
  - intros fmt Hf Hne. unfold export_transactions, export. rewrite Ha, Hf.
    unfold bind, documents, ret. cbn [with_default].
    destruct (String.eqb_spec fmt "csv"); [congruence | reflexivity].
  - intros Hf. unfold export_transactions, export. rewrite Ha.
    unfold bind, documents, ret.
    destruct Hf as [-> | ->]; reflexivity.
  - intros _.
    pose proof (first_pages_all (history_of q) w address Ha) as Hcover.
    cbn [HistoryQuery.limit history_of with_default] in Hcover.
    rewrite (List.filter_ext _ mine) in Hcover by (intros d; apply history_of_match).
    rewrite <- (Permutation_length (sort_perm newest_first (List.filter mine (ledger w)))).
    exact Hcover.
Qed.

Lemma export_is_the_whole_history_witness :
  exists transactions,
    Permutation transactions
      (List.filter (fun d => String.eqb (Transaction.buyerAddress d) buyer_1)
                   (ledger demo_world)) /\
    export_transactions (ExportQuery.mk (Some buyer_1) (Some "json"%string)) demo_world
    = (respond 200 (ExportJson transactions), demo_world).
Proof.
  destruct (export_is_the_whole_history
              (ExportQuery.mk (Some buyer_1) (Some "json"%string)) demo_world buyer_1
              eq_refl)
    as (transactions & _ & Hperm & _ & Hjson & _).
  exists transactions. split; [exact Hperm|].
  apply (Hjson "json"%string eq_refl). discriminate.
Defined.

(** ** Reading an export back *)

Lemma split_on_free (sep : ascii) (s : string) :
  free_of sep s = true -> split_on sep s = [s].
Proof.
  unfold free_of. induction s as [|c s IH]; [reflexivity|].
  simpl. intros H. apply andb_true_iff in H as [Hc Hs].
  apply negb_true_iff in Hc. rewrite Hc, (IH Hs). reflexivity.
Qed.

Lemma split_on_app (sep : ascii) (a b : string) :
  free_of sep a = true ->
  split_on sep (a ++ String sep b)%string = a :: split_on sep b.
Proof.
  unfold free_of. induction a as [|c a IH]; simpl.
  - intros _. rewrite Ascii.eqb_refl. reflexivity.
  - intros H. apply andb_true_iff in H as [Hc Ha].
    apply negb_true_iff in Hc. rewrite Hc, (IH Ha). reflexivity.
Qed.

(** Splitting what was joined gives the fields back, when there is a field
    and no field holds the separator. *)
Lemma split_join (sep : ascii) (fields : list string) :
  fields <> [] -> forallb (free_of sep) fields = true ->
  split_on sep (join (String sep "") fields) = fields.
Proof.
  induction fields as [|x fields IH]; [congruence|]. intros _ H.
  simpl in H. apply andb_true_iff in H as [Hx Hf].
  destruct fields as [|y fields].
  - simpl. apply split_on_free. exact Hx.
  - change (join (String sep "") (x :: y :: fields))
      with (x ++ String sep (join (String sep "") (y :: fields)))%string.
    rewrite split_on_app by exact Hx. f_equal. apply IH; [discriminate | exact Hf].
Qed.

Lemma free_of_app (sep : ascii) (a b : string) :
  free_of sep (a ++ b)%string = free_of sep a && free_of sep b.
Proof. unfold free_of. rewrite chars_app. apply forallb_app. Qed.

Lemma free_of_join (sep c : ascii) (fields : list string) :
  c <> sep -> forallb (free_of sep) fields = true ->
  free_of sep (join (String c "") fields) = true.
Proof.
  intros Hc. induction fields as [|x fields IH]; [reflexivity|]. intros H.
  simpl in H. apply andb_true_iff in H as [Hx Hf].
  destruct fields as [|y fields]; [exact Hx|].
  change (join (String c "") (x :: y :: fields))
    with (x ++ String c "" ++ join (String c "") (y :: fields))%string.
  rewrite !free_of_app, Hx, (IH Hf), andb_true_r. simpl.
  unfold free_of. simpl. rewrite andb_true_r.
  apply negb_true_iff, Ascii.eqb_neq. exact Hc.
Qed.

Lemma rows_read_back (rows : list (list string)) :
  rows <> [] ->
  Forall (fun row => row <> [] /\ forallb plain row = true) rows ->
  map (split_on ","%char) (split_on (ascii_of_nat 10) (join newline (map (join ",") rows)))
  = rows.
Proof.
  intros Hne Hrows.
  assert (Hlines : forallb (free_of (ascii_of_nat 10)) (map (join ",") rows) = true).
  { apply forallb_forall. intros line Hin. apply in_map_iff in Hin as [row [<- Hin]].
    rewrite List.Forall_forall in Hrows. destruct (Hrows row Hin) as [_ Hp].
    apply (free_of_join _ ","%char); [discriminate|].
    apply forallb_forall. intros f Hf. rewrite forallb_forall in Hp.
    specialize (Hp f Hf). unfold plain in Hp. apply andb_true_iff in Hp. tauto. }
  unfold newline. rewrite split_join; [|destruct rows; [congruence|discriminate]|exact Hlines].
  rewrite map_map. rewrite <- (map_id rows) at 2.
  apply map_ext_in. intros row Hin.
  rewrite List.Forall_forall in Hrows. destruct (Hrows row Hin) as [Hrne Hp].
  apply split_join; [exact Hrne|].
  apply forallb_forall. intros f Hf. rewrite forallb_forall in Hp.
  specialize (Hp f Hf). unfold plain in Hp. apply andb_true_iff in Hp. tauto.
Qed.

(** X14. A CSV export reads back.  The fields are joined without quoting
    or escaping, so: when no field of the records of the address holds a
    comma or a line feed, splitting the file at the line feeds and each
    line at the commas gives back the header and, for each record of the
    address, newest first, its seven fields. *)
Theorem csv_export_reads_back (q : ExportQuery.t) (w : World.t) (address : string) :
  given (ExportQuery.address q) = Some address ->
  ExportQuery.format q = None \/ ExportQuery.format q = Some "csv"%string ->
  (forall d, In d (ledger w) -> Transaction.buyerAddress d = address ->
             forallb plain (csv_row d) = true) ->
  exists csv transactions,
    export_transactions q w = (respond 200 (ExportCsv csv), w) /\
    Permutation transactions
      (List.filter (fun d => String.eqb (Transaction.buyerAddress d) address) (ledger w)) /\
    Sorted (fun a b => Transaction.timestamp b <= Transaction.timestamp a) transactions /\
    map (split_on ","%char) (split_on (ascii_of_nat 10) csv)
    = csv_header :: map csv_row transactions /\
    Forall (fun row => length row = 7%nat) (map (split_on ","%char)
                                               (split_on (ascii_of_nat 10) csv)).
Proof.
  intros Ha Hf Hplain.
  set (mine := fun d => String.eqb (Transaction.buyerAddress d) address).
  assert (Hback : map (split_on ","%char)
                    (split_on (ascii_of_nat 10)
                       (join newline
                          (map (join ",")
                             (csv_header
                              :: map csv_row (sort newest_first (List.filter mine (ledger w)))))))
                  = csv_header
                    :: map csv_row (sort newest_first (List.filter mine (ledger w)))).
  { apply rows_read_back; [discriminate|].
    constructor; [split; [discriminate | reflexivity]|].
    apply List.Forall_forall. intros row Hin.
    apply in_map_iff in Hin as [d [<- Hin]].
    apply (sort_In newest_first), filter_In in Hin as [Hin Hd].
    apply String.eqb_eq in Hd.
    split; [discriminate | apply Hplain; assumption]. }
  exists (join newline
            (map (join ",")
               (csv_header
                :: map csv_row (sort newest_first (List.filter mine (ledger w)))))),
         (sort newest_first (List.filter mine (ledger w))).
  split.
  { unfold export_transactions, export. rewrite Ha.
    unfold bind, documents, ret. destruct Hf as [-> | ->]; reflexivity. }
  split; [symmetry; apply sort_perm|].
  split; [apply newest_first_Sorted|].
  split; [exact Hback|].
  rewrite Hback. constructor; [reflexivity|].
  apply List.Forall_forall. intros row Hin.
  apply in_map_iff in Hin as [d [<- _]]. reflexivity.
Qed.

Lemma csv_export_reads_back_witness :
  exists csv transactions,
    export_transactions (ExportQuery.mk (Some buyer_1) None) demo_world
    = (respond 200 (ExportCsv csv), demo_world) /\
    Permutation transactions
      (List.filter (fun d => String.eqb (Transaction.buyerAddress d) buyer_1)
                   (ledger demo_world)) /\
    Sorted (fun a b => Transaction.timestamp b <= Transaction.timestamp a) transactions /\
    map (split_on ","%char) (split_on (ascii_of_nat 10) csv)
    = csv_header :: map csv_row transactions /\
    Forall (fun row => length row = 7%nat) (map (split_on ","%char)
                                               (split_on (ascii_of_nat 10) csv)).
Proof.
  apply (csv_export_reads_back (ExportQuery.mk (Some buyer_1) None) demo_world buyer_1).
  - reflexivity.
  - left. reflexivity.
  - intros d Hin _. simpl in Hin.
    destruct Hin as [<-|[<-|[<-|[<-|[]]]]]; vm_compute; reflexivity.
Defined.

(** ** The records the server writes *)

(** What holds of every record of a ledger that only requests made. *)
Lemma served_ledger_ind ADMIN (P : Transaction.t -> Prop) (R : Request -> Prop) :
  (forall gw now u b w,
     R (BuyTokens gw now u b) ->
     (forall d, In d (ledger w) -> P d) ->
     forall d, In d (ledger (snd (buy_tokens ADMIN gw now u b w))) -> P d) ->
  forall rs, Forall R rs ->
  forall w, (forall d, In d (ledger w) -> P d) ->
  forall d, In d (ledger (serve_all ADMIN rs w)) -> P d.
Proof.
  intros Hbuy rs Hrs. induction Hrs as [|r rs Hr Hrs IH]; intros w Hw; [exact Hw|].
  simpl. apply IH.
  destruct r as [gw now u b| |gw a|q|q|q].
  - simpl. pose proof (Hbuy gw now u b w Hr Hw) as Hstep.
    destruct (buy_tokens ADMIN gw now u b w). exact Hstep.
  - exact Hw.
  - destruct (serve_store_step ADMIN (UsdtAllowance gw a) w) as [_ [Hp|[Hl _]]];
      [discriminate Hp | rewrite Hl; exact Hw].
  - destruct (serve_store_step ADMIN (TransactionHistory q) w) as [_ [Hp|[Hl _]]];
      [discriminate Hp | rewrite Hl; exact Hw].
  - destruct (serve_store_step ADMIN (Stats q) w) as [_ [Hp|[Hl _]]];
      [discriminate Hp | rewrite Hl; exact Hw].
  - destruct (serve_store_step ADMIN (ExportTransactions q) w) as [_ [Hp|[Hl _]]];
      [discriminate Hp | rewrite Hl; exact Hw].
Qed.

Lemma plain_app (a b : string) : plain (a ++ b)%string = plain a && plain b.
Proof.
  unfold plain. rewrite !free_of_app.
  destruct (free_of "," a), (free_of "," b), (free_of (ascii_of_nat 10) a); reflexivity.
Qed.

Lemma digits_plain (l : list ascii) :
  Chars.all_digits l = true -> plain (string_of_list_ascii l) = true.
Proof.
  unfold plain, free_of. rewrite list_ascii_of_string_of_list_ascii.
  induction l as [|c l IH]; [reflexivity|].
  unfold Chars.all_digits. simpl. intros H. apply andb_true_iff in H as [Hc Hl].
  specialize (IH Hl). apply andb_true_iff in IH as [IH1 IH2].
  rewrite IH1, IH2, !andb_true_r.
  assert (Hne : c <> ","%char /\ c <> ascii_of_nat 10)
    by (split; intros ->; discriminate Hc).
  destruct Hne as [H1 H2]. apply Ascii.eqb_neq in H1, H2. rewrite H1, H2. reflexivity.
Qed.

Lemma decimal_plain (z : Z) : plain (Chars.decimal z) = true.
Proof.
  rewrite <- (string_of_list_ascii_of_string (Chars.decimal z)).
  apply digits_plain, decimal_digits.
Qed.

Lemma zeros_plain (n : nat) : plain (Chars.zeros n) = true.
Proof.
  induction n as [|n IH]; [reflexivity|].
  change (Chars.zeros (S n)) with ("0" ++ Chars.zeros n)%string.
  rewrite plain_app, IH. reflexivity.
Qed.

Lemma pad_plain (width : nat) (z : Z) : plain (pad width z) = true.
Proof. unfold pad. rewrite plain_app, zeros_plain, decimal_plain. reflexivity. Qed.

Lemma toISOString_plain (ms : Z) : plain (toISOString ms) = true.
Proof.
  unfold toISOString. destruct (civil_from_days (ms / ms_per_day)) as [[y m] d].
  rewrite !plain_app, !pad_plain.
  destruct ((0 <=? y) && (y <=? 9999)); [rewrite pad_plain; reflexivity|].
  rewrite plain_app, pad_plain. destruct (y <? 0); reflexivity.
Qed.

(** What [parseUnits] accepts is made of digits, a sign and a point. *)
Lemma parseUnits_plain (s : string) (decimals : nat) (v : Z) :
  parseUnits s decimals = Ok v -> plain s = true.
Proof.
  unfold parseUnits.
  destruct (match list_ascii_of_string s with
            | "-"%char :: r => (true, r)
            | _ => (false, list_ascii_of_string s)
            end) as [neg l1] eqn:Hsign.
  destruct (Chars.span_digits l1) as [whole l2] eqn:Hw.
  match goal with
  | |- context [Chars.span_digits ?l3] =>
      destruct (Chars.span_digits l3) as [dec l4] eqn:Hd
  end.
  destruct l4; [|discriminate]. intros _.
  apply span_digits_spec in Hw as (-> & Hwd & _).
  apply span_digits_spec in Hd as (Hl3 & Hdd & _). rewrite app_nil_r in Hl3.
  assert (Hbody : plain (string_of_list_ascii (whole ++ l2)) = true).
  { rewrite string_of_chars_app, plain_app, (digits_plain whole Hwd). simpl.
    destruct l2 as [|c l2]; [reflexivity|].
    destruct (Ascii.eqb_spec c "."%char) as [->|Hne].
    - subst l2. change (string_of_list_ascii ("."%char :: dec))
        with ("." ++ string_of_list_ascii dec)%string.
      rewrite plain_app, (digits_plain dec Hdd). reflexivity.
    - assert (Hl3' : c :: l2 = dec).
      { destruct c as [[] [] [] [] [] [] [] []]; try exact Hl3. congruence. }
      rewrite Hl3'. apply digits_plain. exact Hdd. }
  rewrite <- (string_of_list_ascii_of_string s).
  destruct (list_ascii_of_string s) as [|c l]; [reflexivity|].
  destruct (Ascii.eqb_spec c "-"%char) as [->|Hne].
  - simpl in Hsign. injection Hsign as _ Hl1. rewrite Hl1.
    change (string_of_list_ascii ("-"%char :: whole ++ l2))
      with ("-" ++ string_of_list_ascii (whole ++ l2))%string.
    rewrite plain_app, Hbody. reflexivity.
  - assert (Hl1 : c :: l = whole ++ l2).
    { destruct c as [[] [] [] [] [] [] [] []];
        try (simpl in Hsign; injection Hsign as _ Heq; exact Heq).
      congruence. }
    rewrite Hl1. exact Hbody.
Qed.

Lemma pending_doc_plain now usdtAmount s req tok buyer buyerAddress :
  prepared usdtAmount buyerAddress s req tok buyer ->
  forallb plain (csv_row (Transaction.set_status Transaction.FAILED
                            (pending_doc now usdtAmount s buyer))) = true /\
  forall hash,
    plain hash = true ->
    forallb plain (csv_row (Transaction.set_txHash hash
                              (Transaction.set_status Transaction.SUCCESS
                                 (pending_doc now usdtAmount s buyer)))) = true.
Proof.
  intros (_ & _ & _ & Hreq & Htok & _).
  split; [|intros hash Hh]; unfold csv_row, pending_doc;
    cbn [Transaction.set_txHash Transaction.set_status Transaction.timestamp
         Transaction.type Transaction.amount Transaction.status Transaction.txHash
         Transaction.tokenPrice Transaction.usdtAmount Transaction.type_name
         Transaction.status_name forallb];
    rewrite toISOString_plain, (parseUnits_plain _ _ _ Htok),
      (parseUnits_plain _ _ _ Hreq), ?Hh; reflexivity.
Qed.

Lemma buy_tokens_plain ADMIN gw now usdtAmount buyerAddress w :
  (forall to amount hash, gw_mint gw to amount = Ok hash -> plain hash = true) ->
  (forall d, In d (ledger w) -> forallb plain (csv_row d) = true) ->
  forall d, In d (ledger (snd (buy_tokens ADMIN gw now usdtAmount buyerAddress w))) ->
            forallb plain (csv_row d) = true.
Proof.
  intros Hgw Hw.
  destruct (buy_tokens ADMIN gw now usdtAmount buyerAddress w) as [resp w'] eqn:Hrun.
  apply buy_tokens_run in Hrun as [r [Hrun _]]. cbn [snd].
  inversion Hrun; subst; cbn [ledger after_calls after_purchase]; try exact Hw;
    intros d Hin; apply in_app_or in Hin as [Hin|[<-|[]]]; try (apply Hw; exact Hin);
    match goal with
    | Hp : prepared _ _ _ _ _ _ |- _ =>
        destruct (pending_doc_plain now _ _ _ _ _ _ Hp) as [Hf Hs]
    end;
    first [exact Hf | apply Hs; eapply Hgw; eassumption].
Qed.

(** X15. The records the server writes can be exported.  Whatever requests
    were served since the store was empty, if the gateway names mint
    transactions by strings without comma or line feed (hashes are), no
    field of the export row of any ledger record holds a comma or a line
    feed: the amounts were accepted by [parseUnits], so they are made of
    digits, a sign and a point. *)
Theorem served_records_are_plain ADMIN (rs : list Request) :
  Forall plain_hashes rs ->
  forall d, In d (ledger (serve_all ADMIN rs World.empty)) ->
            forallb plain (csv_row d) = true.
Proof.
  intros Hrs.
  apply (served_ledger_ind ADMIN (fun d => forallb plain (csv_row d) = true)
           plain_hashes); [|exact Hrs|intros d []].
  intros gw now u b w Hr Hw. apply buy_tokens_plain; assumption.
Qed.

Lemma served_records_are_plain_witness :
  forallb plain
    (csv_row (Transaction.set_status Transaction.FAILED
                (pending_doc demo_now (JStr "80") "80" buyer_1))) = true.
Proof.
  apply (served_records_are_plain admin_0
           [BuyTokens mint_reverts demo_now (JStr "80") (JStr buyer_1)]).
  - constructor; [|constructor]. intros to amount hash H. discriminate H.
  - vm_compute. left. reflexivity.
Defined.

(** ** The statistics add up *)

Section GroupSums.
Context {A : Type} (key : A -> string).

Lemma add_to_group_concat (k : string) (x : A) (gs : list (string * list A)) :
  Permutation (concat (map snd (add_to_group k x gs))) (x :: concat (map snd gs)).
Proof.
  induction gs as [|[k' g] gs IH]; simpl; [reflexivity|].
  destruct (String.eqb k k'); simpl.
  - rewrite <- app_assoc. simpl. symmetry. apply Permutation_middle.
  - rewrite IH. symmetry. apply Permutation_middle.
Qed.

Lemma group_by_concat (l : list A) :
  Permutation (concat (map snd (group_by key l))) l.
Proof.
  induction l as [|x l IH] using rev_ind; [reflexivity|].
  rewrite group_by_snoc, add_to_group_concat, IH.
  apply Permutation_cons_append.
Qed.

End GroupSums.

Lemma Zsum_perm (l l' : list Z) :
  Permutation l l' -> fold_right Z.add 0 l = fold_right Z.add 0 l'.
Proof. induction 1; simpl; lia. Qed.


Lemma Zsum_lengths {A} (gs : list (list A)) :
  fold_right Z.add 0 (map (fun g => Z.of_nat (length g)) gs)
  = Z.of_nat (length (concat gs)).
Proof.
  induction gs as [|g gs IH]; [reflexivity|].
  simpl. rewrite IH, length_app. lia.
Qed.



Lemma Zsum_firstn (n : nat) (l : list Z) :
  Forall (fun z => 0 <= z) l -> fold_right Z.add 0 (firstn n l) <= fold_right Z.add 0 l.
Proof.
  intros Hl. revert n. induction Hl as [|z l Hz Hl IH]; intros n.
  - rewrite firstn_nil. reflexivity.
  - destruct n; simpl.
    + assert (0 <= fold_right Z.add 0 l).
      { clear IH. induction Hl; simpl; lia. }
      lia.
    + specialize (IH n). lia.
Qed.

Lemma all_some_length {A B} (f : A -> option B) (l : list A) (l' : list B) :
  all_some f l = Some l' -> length l' = length l.
Proof.
  intros H. apply all_some_Forall2 in H. symmetry. eapply Forall2_length. exact H.
Qed.

(** X16. The counts of a statistics report add up: [transactionCount] of
    the totals is the number of SUCCESS BUY records within the dates
    asked, the counts of the days add up to it, and the counts of the top
    buyers (ten at most) to no more than it. *)
Theorem statistics_counts_add_up (q : StatsQuery.t) (w : World.t) (sales : list Sale) :
  all_some sale_of (List.filter (stats_match q) (ledger w)) = Some sales ->
  exists totalStats dailyStats topBuyers,
    stats q w = (respond 200 (StatsReport totalStats dailyStats topBuyers), w) /\
    TotalStats.transactionCount totalStats
    = Z.of_nat (length (List.filter (stats_match q) (ledger w))) /\
    fold_right Z.add 0 (map DailyStats.transactionCount dailyStats)
    = TotalStats.transactionCount totalStats /\
    fold_right Z.add 0 (map TopBuyer.transactionCount topBuyers)
    <= TotalStats.transactionCount totalStats.
Proof.
  intros Hsales. do 3 eexists.
  split.
  { unfold stats, sale_stats, bind, documents. rewrite Hsales. reflexivity. }
  assert (Htotal : TotalStats.transactionCount
                     match total_pipeline sales with
                     | first :: _ => first
                     | [] => no_sales
                     end = Z.of_nat (length sales)).
  { unfold total_pipeline. destruct sales; reflexivity. }
  rewrite Htotal, (all_some_length _ _ _ Hsales).
  split; [reflexivity|]. split.
  - unfold daily_pipeline.
    erewrite Zsum_perm;
      [|apply Permutation_map; symmetry; apply sort_perm].
    rewrite map_map.
    rewrite (map_ext _ (fun p => Z.of_nat (length (snd p))))
      by (intros [day g]; reflexivity).
    rewrite <- (map_map snd (fun g => Z.of_nat (length g))), Zsum_lengths.
    rewrite (Permutation_length (group_by_concat sale_day sales)).
    rewrite (all_some_length _ _ _ Hsales). reflexivity.
  - unfold top_pipeline. rewrite <- firstn_map.
    etransitivity.
    { apply Zsum_firstn. apply List.Forall_forall. intros z Hz.
      apply in_map_iff in Hz as [b [<- Hb]].
      apply sort_In, in_map_iff in Hb as [[buyer g] [<- _]]. simpl. lia. }
    erewrite Zsum_perm;
      [|apply Permutation_map; symmetry; apply sort_perm].
    rewrite map_map.
    rewrite (map_ext _ (fun p => Z.of_nat (length (snd p))))
      by (intros [buyer g]; reflexivity).
    rewrite <- (map_map snd (fun g => Z.of_nat (length g))), Zsum_lengths.
    rewrite (Permutation_length (group_by_concat sale_buyer sales)).
    rewrite (all_some_length _ _ _ Hsales). reflexivity.
Qed.

Lemma statistics_counts_add_up_witness :
  exists totalStats dailyStats topBuyers,
    stats (StatsQuery.mk None None) demo_world
    = (respond 200 (StatsReport totalStats dailyStats topBuyers), demo_world) /\
    TotalStats.transactionCount totalStats = 3 /\
    fold_right Z.add 0 (map DailyStats.transactionCount dailyStats) = 3.
Proof.
  destruct (statistics_counts_add_up (StatsQuery.mk None None) demo_world
              [mkSale buyer_1 "2023-11-14" 10000000000000000000 10;
               mkSale buyer_2 "2023-11-14" 20000000000000000000 20;
               mkSale buyer_1 "2020-09-13" 5500000000000000000 (11 # 2)]
              ltac:(vm_compute; reflexivity))
    as (totalStats & dailyStats & topBuyers & Hres & Hcount & Hdays & _).
  exists totalStats, dailyStats, topBuyers.
  split; [exact Hres|].
  assert (H3 : TotalStats.transactionCount totalStats = 3) by exact Hcount.
  split; [exact H3|]. rewrite Hdays. exact H3.
Defined.



(** ** Purchases and the statistics *)

Lemma stats_of_matched (q : StatsQuery.t) (w w' : World.t) :
  List.filter (stats_match q) (ledger w') = List.filter (stats_match q) (ledger w) ->
  fst (stats q w') = fst (stats q w).
Proof.
  intros H. unfold stats, sale_stats, bind, documents. rewrite H.
  destruct (all_some sale_of _); reflexivity.
Qed.

(** X18. A purchase that is not answered 200 (refused, rejected, or failed
    at a chain write and recorded as FAILED) changes no statistics: after
    it, every statistics request is answered as it was before. *)
Theorem failed_purchase_leaves_statistics ADMIN gw now usdtAmount buyerAddress w resp w' :
  buy_tokens ADMIN gw now usdtAmount buyerAddress w = (resp, w') ->
  res_status resp <> 200 ->
  forall q, fst (stats q w') = fst (stats q w).
Proof.
  intros Hrun Hst q. apply stats_of_matched.
  apply buy_tokens_run in Hrun as [r [Hrun ->]].
  inversion Hrun; subst; simpl; try reflexivity.
  - rewrite List.filter_app. simpl.
    unfold stats_match at 2. simpl. rewrite !andb_false_r, app_nil_r. reflexivity.
  - rewrite List.filter_app. simpl.
    unfold stats_match at 2. simpl. rewrite !andb_false_r, app_nil_r. reflexivity.
  - exfalso. apply Hst. reflexivity.
Qed.

Lemma failed_purchase_leaves_statistics_witness :
  fst (stats (StatsQuery.mk None None)
         (snd (buy_tokens admin_0 mint_reverts demo_now (JStr "80") (JStr buyer_1)
                 demo_world)))
  = fst (stats (StatsQuery.mk None None) demo_world).
Proof.
  apply (failed_purchase_leaves_statistics admin_0 mint_reverts demo_now
           (JStr "80") (JStr buyer_1) demo_world
           (fst (buy_tokens admin_0 mint_reverts demo_now (JStr "80") (JStr buyer_1)
                   demo_world))).
  - vm_compute. reflexivity.
  - vm_compute. discriminate.
Defined.

(** ** What the store reads from an amount that [parseUnits] accepted *)

Lemma zero_chars (l : list ascii) :
  forallb is_zero_char l = true -> l = repeat "0"%char (length l).
Proof.
  induction l as [|c l IH]; [reflexivity|]. simpl. intros H.
  apply andb_true_iff in H as [Hc Hl]. apply Ascii.eqb_eq in Hc.
  rewrite <- (IH Hl), Hc. reflexivity.
Qed.

(** The parts of a numeral that [parseUnits] accepted. *)
Lemma parseUnits_inv (s : string) (decimals : nat) (v : Z) :
  parseUnits s decimals = Ok v ->
  exists (neg : bool) (whole l2 dec : list ascii),
    (match list_ascii_of_string s with
     | "-"%char :: r => (true, r)
     | _ => (false, list_ascii_of_string s)
     end) = (neg, whole ++ l2) /\
    Chars.span_digits (whole ++ l2) = (whole, l2) /\
    (l2 = "."%char :: dec \/ (l2 = [] /\ dec = [])) /\
    Chars.all_digits whole = true /\ Chars.all_digits dec = true /\
    (0 < length whole + length dec)%nat /\
    v * 10 ^ Z.of_nat (length dec)
    = (if neg then - Chars.digits_val (whole ++ dec) else Chars.digits_val (whole ++ dec))
      * 10 ^ Z.of_nat decimals.
Proof.
  unfold parseUnits.
  destruct (match list_ascii_of_string s with
            | "-"%char :: r => (true, r)
            | _ => (false, list_ascii_of_string s)
            end) as [neg l1] eqn:Hsign.
  destruct (Chars.span_digits l1) as [whole l2] eqn:Hw.
  match goal with
  | |- context [Chars.span_digits ?l3] =>
      destruct (Chars.span_digits l3) as [dec l4] eqn:Hd
  end.
  destruct l4; [|discriminate].
  destruct (Nat.eqb_spec (length whole + length dec) 0) as [|Hlen]; [discriminate|].
  destruct (forallb is_zero_char _) eqn:Hz; [|discriminate]. cbn [negb].
  destruct (in_range _); [|discriminate].
  intros Hv. injection Hv as <-.
  pose proof (span_digits_spec _ _ _ Hw) as (Hl1 & Hwd & Hhead).
  apply span_digits_spec in Hd as (Hl3 & Hdd & _). rewrite app_nil_r in Hl3.
  exists neg, whole, l2, dec. subst l1.
  split; [reflexivity|]. split; [exact Hw|].
  split.
  { destruct l2 as [|c l2]; [right; split; [reflexivity | symmetry; exact Hl3]|].
    destruct (Ascii.eqb_spec c "."%char) as [->|Hne]; [left; f_equal; exact Hl3|].
    exfalso.
    assert (Hl3' : c :: l2 = dec).
    { destruct c as [[] [] [] [] [] [] [] []]; try exact Hl3. congruence. }
    rewrite <- Hl3' in Hdd. unfold Chars.all_digits in Hdd. cbn [forallb] in Hdd.
    cbn beta iota in Hhead. rewrite Hhead in Hdd. discriminate Hdd. }
  split; [exact Hwd|]. split; [exact Hdd|]. split; [lia|].
  set (n := length dec) in *.
  assert (Hval : Chars.digits_val
                   (whole ++ firstn decimals (dec ++ repeat "0"%char (decimals - n)))
                 * 10 ^ Z.of_nat n
                 = Chars.digits_val (whole ++ dec) * 10 ^ Z.of_nat decimals).
  { destruct (Nat.le_gt_cases n decimals) as [Hle|Hgt].
    - rewrite firstn_all2 by (rewrite length_app, repeat_length; subst n; lia).
      rewrite app_assoc, (digits_val_app (whole ++ dec)), digits_val_zeros, repeat_length.
      replace (Z.of_nat decimals) with (Z.of_nat (decimals - n) + Z.of_nat n) by lia.
      rewrite Z.pow_add_r by lia. ring.
    - replace (decimals - n)%nat with O in * by lia.
      simpl repeat in *. rewrite app_nil_r in *.
      apply zero_chars in Hz. rewrite length_skipn in Hz. fold n in Hz.
      rewrite <- (firstn_skipn decimals dec) at 2. rewrite Hz.
      rewrite app_assoc, (digits_val_app (whole ++ firstn decimals dec)),
        digits_val_zeros, repeat_length.
      replace (Z.of_nat n) with (Z.of_nat (n - decimals) + Z.of_nat decimals) at 1 by lia.
      rewrite Z.pow_add_r by lia. ring. }
  destruct neg; [|exact Hval].
  rewrite !Z.mul_opp_l. f_equal. exact Hval.
Qed.

Lemma inject_Z_nonzero (z : Z) : z <> 0 -> ~ (inject_Z z == 0)%Q.
Proof. intros Hz H. unfold Qeq in H. simpl in H. lia. Qed.

Lemma Qdiv_inject_eq (a b c d : Z) :
  0 < b -> 0 < d -> a * d = c * b ->
  (inject_Z a / inject_Z b == inject_Z c / inject_Z d)%Q.
Proof.
  intros Hb Hd H.
  assert (Hq : (inject_Z a * inject_Z d == inject_Z c * inject_Z b)%Q)
    by (rewrite <- !inject_Z_mult, H; reflexivity).
  assert (Hb' := inject_Z_nonzero b ltac:(lia)).
  assert (Hd' := inject_Z_nonzero d ltac:(lia)).
  transitivity (inject_Z a * inject_Z d / (inject_Z b * inject_Z d))%Q;
    [field; auto|].
  rewrite Hq. field. auto.
Qed.

Lemma toDouble_of_parsed (s : string) (decimals : nat) (v : Z) :
  parseUnits s decimals = Ok v ->
  exists x, toDouble s = Some x /\
            (x == inject_Z v / inject_Z (10 ^ Z.of_nat decimals))%Q.
Proof.
  intros Hparse.
  destruct (parseUnits_inv s decimals v Hparse)
    as (neg & whole & l2 & dec & Hsign & Hspan & Hl2 & Hwd & Hdd & Hlen & Hval).
  unfold toDouble.
  assert (Hsign' : match list_ascii_of_string s with
                   | "-"%char :: r => (true, r)
                   | "+"%char :: r => (false, r)
                   | _ => (false, list_ascii_of_string s)
                   end = (neg, whole ++ l2)).
  { destruct (list_ascii_of_string s) as [|c l]; [exact Hsign|].
    destruct (Ascii.eqb_spec c "+"%char) as [->|Hne].
    - exfalso. simpl in Hsign. injection Hsign as <- Hl.
      destruct whole as [|c' whole'].
      + simpl in Hl. subst l2. destruct Hl2 as [H|[H _]]; discriminate H.
      + simpl in Hl. injection Hl as <- _.
        unfold Chars.all_digits in Hwd. simpl in Hwd. discriminate Hwd.
    - destruct c as [[] [] [] [] [] [] [] []]; try exact Hsign. congruence. }
  rewrite Hsign', Hspan.
  assert (Hfrac : match l2 with
                  | "."%char :: r => Chars.span_digits r
                  | _ => ([], l2)
                  end = (dec, [])).
  { destruct Hl2 as [->|[-> ->]]; [apply span_digits_all; exact Hdd | reflexivity]. }
  rewrite Hfrac.
  destruct (whole ++ dec) as [|c ds] eqn:Hds.
  { apply (f_equal (@length ascii)) in Hds. rewrite length_app in Hds. simpl in Hds. lia. }
  cbn beta iota.
  set (m := if neg then - Chars.digits_val (c :: ds)
            else Chars.digits_val (c :: ds)) in *.
  set (n := Z.of_nat (length dec)) in *.
  eexists. split; [reflexivity|].
  rewrite Qred_correct.
  assert (Hn : 0 <= n) by (subst n; lia).
  assert (Hp : 0 < 10 ^ n) by (apply Z.pow_pos_nonneg; lia).
  assert (Hpd : 0 < 10 ^ Z.of_nat decimals) by (apply Z.pow_pos_nonneg; lia).
  transitivity (inject_Z m / inject_Z (10 ^ n))%Q.
  - replace (0 - n) with (- n) by lia.
    destruct (Z.leb_spec 0 (- n)) as [H0|H0].
    + assert (Hn0 : n = 0) by lia. rewrite Hn0.
      change (10 ^ (- 0)) with 1. change (10 ^ 0) with 1.
      rewrite Z.mul_1_r. change (inject_Z 1) with 1%Q. field.
    + rewrite Z.opp_involutive, Qmake_Qdiv, Z2Pos.id by exact Hp. reflexivity.
  - apply Qdiv_inject_eq; [exact Hp | exact Hpd | symmetry; exact Hval].
Qed.





(** ** The ledger and the chain *)

Lemma count_app {A} (f : A -> bool) (a b : list A) :
  count f (a ++ b) = (count f a + count f b)%nat.
Proof. unfold count. rewrite List.filter_app, length_app. reflexivity. Qed.

Lemma reconciled_calls (w : World.t) (calls : list ChainCall) :
  count is_payment calls = 0%nat -> count confirmed_mint calls = 0%nat ->
  count failed_write calls = 0%nat ->
  reconciled w -> reconciled (after_calls w calls).
Proof.
  intros H1 H2 H3 (Hp & Hm & Hf & Hh). unfold reconciled, after_calls. simpl.
  rewrite !count_app, H1, H2, H3, !Nat.add_0_r.
  repeat split; try assumption.
  intros d Hd Hs. destruct (Hh d Hd Hs) as [amount Hin].
  exists amount. apply in_or_app. left. exact Hin.
Qed.

Lemma buy_tokens_reconciled ADMIN gw now usdtAmount buyerAddress w :
  reconciled w -> reconciled (snd (buy_tokens ADMIN gw now usdtAmount buyerAddress w)).
Proof.
  intros Hw.
  destruct (buy_tokens ADMIN gw now usdtAmount buyerAddress w) as [resp w'] eqn:Hrun.
  apply buy_tokens_run in Hrun as [r [Hrun _]]. simpl.
  inversion Hrun; subst; try exact Hw;
    try (apply reconciled_calls; [reflexivity..|exact Hw]);
    destruct Hw as (Hp & Hm & Hf & Hh);
    unfold reconciled, after_purchase; simpl;
    rewrite !count_app, !length_app, Hp, Hm, Hf; simpl;
    (repeat split; try lia);
    intros d Hd Hs; apply in_app_or in Hd as [Hd|[<-|[]]];
    try discriminate Hs;
    try (destruct (Hh d Hd Hs) as [amount Hin];
         exists amount; apply in_or_app; left; exact Hin).
  exists tok. apply in_or_app. right. simpl. auto.
Qed.

Lemma serve_reconciled ADMIN r w : reconciled w -> reconciled (snd (serve ADMIN r w)).
Proof.
  intros Hw. destruct r as [gw now u b| |gw a|q|q|q]; simpl.
  - pose proof (buy_tokens_reconciled ADMIN gw now u b w Hw) as Hstep.
    destruct (buy_tokens ADMIN gw now u b w). exact Hstep.
  - exact Hw.
  - unfold usdt_allowance. destruct (given a) as [address|]; [|exact Hw].
    unfold call.
    destruct (gw_allowance gw address ADMIN); simpl;
      apply (reconciled_calls w [_]); try reflexivity; exact Hw.
  - destruct reports_read_only as (Hh & _ & _). specialize (Hh q w).
    destruct (transaction_history q w). simpl in *. subst. exact Hw.
  - destruct reports_read_only as (_ & Hs & _). specialize (Hs q w).
    destruct (stats q w). simpl in *. subst. exact Hw.
  - destruct reports_read_only as (_ & _ & He). specialize (He q w).
    destruct (export_transactions q w). simpl in *. subst. exact Hw.
Qed.

(** X20. The ledger can be reconciled with the chain.  Whatever requests
    were served since the store was empty: there are as many records as
    payments attempted, as many SUCCESS records as confirmed mints, as many
    FAILED records as failed writes, and every SUCCESS record carries the
    hash of a confirmed mint made to its buyer. *)
Theorem ledger_matches_chain ADMIN (rs : list Request) :
  reconciled (serve_all ADMIN rs World.empty).
Proof.
  assert (Hgen : forall w, reconciled w -> reconciled (serve_all ADMIN rs w)).
  { induction rs as [|r rs IH]; intros w Hw; [exact Hw|].
    simpl. apply IH, serve_reconciled, Hw. }
  apply Hgen. repeat split. intros d [].
Qed.

(** X21. What a request does to the chain: it only adds to the log of
    calls, four calls at most; a request other than a purchase sends no
    write and makes one read at most (the allowance endpoint's), and the
    price, history, statistics and export endpoints leave the world as it
    was. *)
Theorem requests_and_the_chain ADMIN (r : Request) (w : World.t) :
  chain_log w `prefix_of` chain_log (snd (serve ADMIN r w)) /\
  (length (new_calls w (snd (serve ADMIN r w))) <= 4)%nat /\
  (is_purchase r = false ->
   World.writes (new_calls w (snd (serve ADMIN r w))) = [] /\
   (length (new_calls w (snd (serve ADMIN r w))) <= 1)%nat) /\
  (match r with
   | BuyTokens _ _ _ _ | UsdtAllowance _ _ => True
   | _ => snd (serve ADMIN r w) = w
   end).
Proof.
  destruct r as [gw now u b| |gw a|q|q|q]; simpl.
  - destruct (buy_tokens ADMIN gw now u b w) as [resp w'] eqn:Hrun.
    apply buy_tokens_run in Hrun as [r [Hrun _]]. simpl.
    split; [|split; [|split; [discriminate | exact I]]].
    + inversion Hrun; subst; simpl; try reflexivity; apply prefix_app_r; reflexivity.
    + inversion Hrun; subst;
        rewrite ?new_calls_same, ?new_calls_after_calls, ?new_calls_after_purchase;
        simpl; lia.
  - rewrite new_calls_same. repeat split; simpl; try reflexivity; lia.
  - unfold usdt_allowance. destruct (given a) as [address|].
    + unfold call. destruct (gw_allowance gw address ADMIN); simpl;
        unfold new_calls; simpl; rewrite skipn_length_app;
        (split; [apply prefix_app_r; reflexivity|]); repeat split; simpl; lia.
    + simpl. rewrite new_calls_same. repeat split; simpl; try reflexivity; lia.
  - destruct reports_read_only as (Hh & _ & _). specialize (Hh q w).
    destruct (transaction_history q w). simpl in *. subst.
    rewrite new_calls_same. repeat split; simpl; try reflexivity; lia.
  - destruct reports_read_only as (_ & Hs & _). specialize (Hs q w).
    destruct (stats q w). simpl in *. subst.
    rewrite new_calls_same. repeat split; simpl; try reflexivity; lia.
  - destruct reports_read_only as (_ & _ & He). specialize (He q w).
    destruct (export_transactions q w). simpl in *. subst.
    rewrite new_calls_same. repeat split; simpl; try reflexivity; lia.
Qed.

(** ** The shape of the records *)

Lemma pending_doc_well_formed now usdtAmount buyerAddress s req tok buyer :
  prepared usdtAmount buyerAddress s req tok buyer ->
  well_formed (Transaction.set_status Transaction.FAILED
                 (pending_doc now usdtAmount s buyer)) /\
  forall hash,
    well_formed (Transaction.set_txHash hash
                   (Transaction.set_status Transaction.SUCCESS
                      (pending_doc now usdtAmount s buyer))).
Proof.
  intros (_ & _ & Hs & Hreq & Htok & _).
  split; [|intros hash]; unfold well_formed; simpl;
    (split; [reflexivity|]); (split; [reflexivity|]);
    (split; [discriminate|]);
    (split; [first [reflexivity | discriminate]|]);
    exists usdtAmount, req, tok; auto.
Qed.

Lemma buy_tokens_well_formed ADMIN gw now usdtAmount buyerAddress w
    (P : Transaction.t -> Prop) :
  (forall d, Transaction.timestamp d = now -> well_formed d -> P d) ->
  (forall d, In d (ledger w) -> P d) ->
  forall d, In d (ledger (snd (buy_tokens ADMIN gw now usdtAmount buyerAddress w))) -> P d.
Proof.
  intros Hnew Hw.
  destruct (buy_tokens ADMIN gw now usdtAmount buyerAddress w) as [resp w'] eqn:Hrun.
  apply buy_tokens_run in Hrun as [r [Hrun _]]. simpl.
  inversion Hrun; subst; simpl; try exact Hw;
    intros d Hin; apply in_app_or in Hin as [Hin|[<-|[]]]; try (apply Hw; exact Hin);
    match goal with
    | Hp : prepared _ _ _ _ _ _ |- _ =>
        destruct (pending_doc_well_formed now _ _ _ _ _ _ Hp) as [Hf Hs]
    end;
    (apply Hnew; [reflexivity | first [exact Hf | apply Hs]]).
Qed.

Lemma Forall_any {A} (l : list A) : Forall (fun _ => True) l.
Proof. induction l; constructor; auto. Qed.

Lemma served_well_formed ADMIN (rs : list Request) :
  forall d, In d (ledger (serve_all ADMIN rs World.empty)) -> well_formed d.
Proof.
  apply (served_ledger_ind ADMIN well_formed (fun _ => True));
    [|apply Forall_any|intros d []].
  intros gw now u b w _ Hw. apply buy_tokens_well_formed; [|exact Hw].
  intros d _ Hd. exact Hd.
Qed.

Lemma served_dated ADMIN (rs : list Request) :
  Forall dated rs ->
  forall d, In d (ledger (serve_all ADMIN rs World.empty)) ->
            exists day, dateToString (Transaction.timestamp d) = Some day.
Proof.
  intros Hrs.
  apply (served_ledger_ind ADMIN
           (fun d => exists day, dateToString (Transaction.timestamp d) = Some day)
           dated); [|exact Hrs|intros d []].
  intros gw now u b w Hr Hw. apply buy_tokens_well_formed; [|exact Hw].
  intros d Hd _. rewrite Hd. exact Hr.
Qed.

(** X22. Every record the server writes is a purchase.  Whatever requests
    were served since the store was empty, each ledger record is of type
    BUY at the fixed price, is settled (not PENDING), keeps the sentinel
    txHash when FAILED, and holds the two numerals printed from one
    request: the amount as it was sent, which [parseUnits] reads at six
    decimals, and the token amount computed from it, which [parseUnits]
    reads at eighteen.  The price of the record and the eighteen decimals
    are what the price endpoint reports.  The APPROVE type of the schema is
    never written, so a history filtered on it matches no record. *)
Theorem served_records_are_well_formed ADMIN (rs : list Request) :
  forall d, In d (ledger (serve_all ADMIN rs World.empty)) ->
    well_formed d /\
    (forall w, token_price w
               = (respond 200 (PriceInfo (Transaction.tokenPrice d) TOKEN_DECIMALS), w)) /\
    (forall q address,
       HistoryQuery.type q = Some "APPROVE"%string ->
       history_match address q d = false).
Proof.
  intros d Hd. pose proof (served_well_formed ADMIN rs d Hd) as Hwf.
  split; [exact Hwf|].
  split; [intros w; unfold token_price; destruct Hwf as (_ & -> & _); reflexivity|].
  intros q address Hty. unfold history_match. rewrite Hty. simpl.
  destruct Hwf as (-> & _). simpl. rewrite andb_false_r. reflexivity.
Qed.

Lemma served_records_are_well_formed_witness :
  well_formed (Transaction.set_status Transaction.FAILED
                 (pending_doc demo_now (JStr "80") "80" buyer_1)).
Proof.
  apply (served_records_are_well_formed admin_0
           [BuyTokens mint_reverts demo_now (JStr "80") (JStr buyer_1)]).
  vm_compute. left. reflexivity.
Defined.

Lemma all_some_total {A B} (f : A -> option B) (l : list A) :
  (forall x, In x l -> exists y, f x = Some y) -> exists l', all_some f l = Some l'.
Proof.
  induction l as [|x l IH]; intros H; [exists []; reflexivity|].
  destruct (H x (or_introl eq_refl)) as [y Hy].
  destruct IH as [ys Hys]; [intros z Hz; apply H; right; exact Hz|].
  exists (y :: ys). simpl. rewrite Hy, Hys. reflexivity.
Qed.

(** X23. The statistics cannot fail on what the server wrote.  Whatever
    requests were served since the store was empty, at instants the store
    can print as days (years 0 to 9999), every statistics request is
    answered 200: the amounts of every record are numerals the store
    converts. *)
Theorem statistics_never_fail ADMIN (rs : list Request) (q : StatsQuery.t) :
  Forall dated rs ->
  exists totalStats dailyStats topBuyers,
    fst (stats q (serve_all ADMIN rs World.empty))
    = respond 200 (StatsReport totalStats dailyStats topBuyers).
Proof.
  intros Hrs.
  destruct (all_some_total sale_of
              (List.filter (stats_match q) (ledger (serve_all ADMIN rs World.empty))))
    as [sales Hsales].
  { intros d Hd. apply filter_In in Hd as [Hd _].
    destruct (served_well_formed ADMIN rs d Hd)
      as (_ & _ & _ & _ & u & paid & minted & _ & Hp & _ & Hm).
    destruct (served_dated ADMIN rs Hrs d Hd) as [day Hday].
    destruct (toDouble_of_parsed _ _ _ Hp) as (x & Hx & _).
    destruct (toDouble_of_parsed _ _ _ Hm) as (a & Ha & _).
    unfold sale_of. rewrite Ha, Hx, Hday. eexists. reflexivity. }
  do 3 eexists. unfold stats, sale_stats, bind, documents. rewrite Hsales. reflexivity.
Qed.

Lemma statistics_never_fail_witness :
  exists totalStats dailyStats topBuyers,
    fst (stats (StatsQuery.mk None None)
           (serve_all admin_0
              [BuyTokens (demo_gateway 100000000 100000000) demo_now
                         (JStr "80") (JStr buyer_1);
               BuyTokens mint_reverts demo_now (JNum one_point_one) (JStr buyer_2)]
              World.empty))
    = respond 200 (StatsReport totalStats dailyStats topBuyers).
Proof.
  apply (statistics_never_fail admin_0
           [BuyTokens (demo_gateway 100000000 100000000) demo_now
                      (JStr "80") (JStr buyer_1);
            BuyTokens mint_reverts demo_now (JNum one_point_one) (JStr buyer_2)]
           (StatsQuery.mk None None)).
  repeat constructor; exists "2023-11-14"%string; vm_compute; reflexivity.
Defined.

(** ** Start-up *)

Lemma getenv_truthy (env : gmap string string) (name : string) :
  truthy (Startup.getenv env name) = true <-> configured env name.
Proof.
  unfold Startup.getenv, configured, truthy.
  destruct (env !! name) as [value|].
  - destruct (String.eqb_spec value ""); simpl; split.
    + discriminate.
    + intros [v [Hv Hne]]. injection Hv as <-. contradiction.
    + intros _. exists value. auto.
    + reflexivity.
  - split; [discriminate|]. intros [v [Hv _]]. discriminate Hv.
Qed.

Lemma getenv_insert (env : gmap string string) (name value n : string) :
  Startup.getenv (<[name := value]> env) n
  = if String.eqb n name then JStr value else Startup.getenv env n.
Proof.
  unfold Startup.getenv. destruct (String.eqb_spec n name) as [->|Hn].
  - rewrite lookup_insert_eq. reflexivity.
  - rewrite lookup_insert_ne by congruence. reflexivity.
Qed.

Lemma missing_spec (env : gmap string string) (name : string) :
  In name (Startup.missingEnvVars env)
  <-> In name Startup.requiredEnvVars /\ ~ configured env name.
Proof.
  unfold Startup.missingEnvVars. rewrite filter_In, negb_true_iff, <- getenv_truthy.
  destruct (truthy (Startup.getenv env name)); intuition congruence.
Qed.

(** X24. The server starts exactly when it is configured.  The script
    reaches [app.listen] if and only if each of the six required variables
    is set to a non-empty value (a variable set to the empty string counts
    as missing), and then on the port of the environment, or on 5001 when
    PORT is unset or empty; otherwise it exits with code 1 after reporting
    exactly the missing variables, in the order of the list.  Setting one
    variable to a non-empty value removes that variable, and no other, from
    the report. *)
Theorem server_starts_iff_configured (env : gmap string string) :
  (forall p, Startup.start env = Startup.Listen p <->
             p = Startup.port env /\
             forall name, In name Startup.requiredEnvVars -> configured env name) /\
  (forall code reported,
     Startup.start env = Startup.Exit code reported ->
     code = 1 /\ reported <> [] /\
     reported = List.filter (fun name => negb (truthy (Startup.getenv env name)))
                            Startup.requiredEnvVars /\
     forall name, In name reported <->
                  In name Startup.requiredEnvVars /\ ~ configured env name) /\
  (Startup.port env = JNum (of_Z 5001) <-> ~ configured env "PORT"%string) /\
  (forall name value,
     value <> ""%string ->
     Startup.missingEnvVars (<[name := value]> env)
     = List.filter (fun n => negb (String.eqb n name)) (Startup.missingEnvVars env)).
Proof.
  split; [|split; [|split]].
  - intros p. unfold Startup.start.
    destruct (Startup.missingEnvVars env) as [|m ms] eqn:Hm; simpl.
    + split.
      * intros H. injection H as <-. split; [reflexivity|].
        intros name Hin.
        destruct (truthy (Startup.getenv env name)) eqn:Ht;
          [apply getenv_truthy; exact Ht|].
        exfalso. assert (Hmiss : In name (Startup.missingEnvVars env)).
        { apply missing_spec. split; [exact Hin|].
          rewrite <- getenv_truthy, Ht. discriminate. }
        rewrite Hm in Hmiss. exact Hmiss.
      * intros [-> _]. reflexivity.
    + split; [discriminate|]. intros [_ Hall]. exfalso.
      assert (Hmiss : In m (Startup.missingEnvVars env)) by (rewrite Hm; left; reflexivity).
      apply missing_spec in Hmiss as [Hin Hno]. exact (Hno (Hall m Hin)).
  - intros code reported. unfold Startup.start.
    destruct (Startup.missingEnvVars env) as [|m ms] eqn:Hm; simpl; [discriminate|].
    intros H. injection H as <- <-. split; [reflexivity|]. split; [discriminate|].
    split; [symmetry; exact Hm|].
    intros name. rewrite <- Hm. apply missing_spec.
  - unfold Startup.port. pose proof (getenv_truthy env "PORT") as Hp.
    destruct (truthy (Startup.getenv env "PORT")) eqn:Ht.
    + split.
      * intros H. unfold Startup.getenv in H.
        destruct (env !! "PORT"%string); discriminate H.
      * intros Hno. exfalso. apply Hno, Hp. reflexivity.
    + split; [|reflexivity]. intros _ Hc. apply Hp in Hc. discriminate Hc.
  - intros name value Hne. unfold Startup.missingEnvVars.
    induction Startup.requiredEnvVars as [|n ns IH]; [reflexivity|].
    cbn [List.filter]. rewrite IH, getenv_insert.
    destruct (String.eqb_spec n name) as [->|Hn].
    + unfold truthy at 1. destruct (String.eqb_spec value ""); [contradiction|]. simpl.
      destruct (negb (truthy (Startup.getenv env name))); [|reflexivity].
      simpl. rewrite String.eqb_refl. reflexivity.
    + destruct (negb (truthy (Startup.getenv env n))); [|reflexivity].
      simpl. destruct (String.eqb_spec n name); [contradiction | reflexivity].
Qed.

(** The environment of the example starts the server on port 5001; without
    RPC_URL the script exits reporting it. *)
Lemma demo_env_starts :
  Startup.start demo_env = Startup.Listen (JNum (of_Z 5001)) /\
  Startup.start (delete "RPC_URL"%string demo_env) = Startup.Exit 1 ["RPC_URL"%string].
Proof. split; vm_compute; reflexivity. Qed.

(** ** Amounts sent as strings *)

Lemma digit_not_space (c : ascii) : Chars.is_digit c = true -> Chars.is_space c = false.
Proof.
  unfold Chars.is_digit, Chars.is_space. intros H.
  apply andb_true_iff in H as [H1 H2]. apply Nat.leb_le in H1, H2.
  apply orb_false_iff. split.
  - apply andb_false_iff. right. apply Nat.leb_gt. lia.
  - apply Nat.eqb_neq. lia.
Qed.

Lemma trim_digits (l : list ascii) : Chars.all_digits l = true -> Chars.trim l = l.
Proof.
  intros Hl.
  assert (Hdrop : forall k, Chars.all_digits k = true -> Chars.drop_spaces k = k).
  { intros [|c k] Hk; [reflexivity|]. unfold Chars.all_digits in Hk. simpl in Hk.
    apply andb_true_iff in Hk as [Hc _]. simpl. rewrite (digit_not_space c Hc). reflexivity. }
  unfold Chars.trim. rewrite (Hdrop l Hl), Hdrop, rev_involutive; [reflexivity|].
  rewrite all_digits_rev. exact Hl.
Qed.

Lemma lower_digit (c : ascii) : Chars.is_digit c = true -> lower c = c.
Proof.
  unfold Chars.is_digit, lower. intros H.
  apply andb_true_iff in H as [H1 H2]. apply Nat.leb_le in H1, H2.
  destruct (Nat.leb_spec 65 (nat_of_ascii c)); [lia | reflexivity].
Qed.

Lemma non_decimal_digits (l : list ascii) :
  Chars.all_digits l = true -> non_decimal l = None.
Proof.
  intros Hl. unfold non_decimal.
  destruct l as [|c0 [|c [|d r]]]; try reflexivity;
    try (destruct c0 as [[] [] [] [] [] [] [] []]; reflexivity).
  unfold Chars.all_digits in Hl. simpl in Hl.
  apply andb_true_iff in Hl as [_ Hl]. apply andb_true_iff in Hl as [Hc _].
  rewrite (lower_digit c Hc).
  destruct c0 as [[] [] [] [] [] [] [] []]; try reflexivity.
  destruct c as [[] [] [] [] [] [] [] []]; try reflexivity; discriminate Hc.
Qed.

Lemma unsigned_decimal_digits (l : list ascii) :
  Chars.all_digits l = true -> l <> [] ->
  unsigned_decimal l = Some (of_decimal (Chars.digits_val l) 0).
Proof.
  intros Hl Hne. unfold unsigned_decimal.
  assert (Hinf : String.eqb (string_of_list_ascii l) "Infinity" = false).
  { destruct l as [|c l]; [congruence|].
    unfold Chars.all_digits in Hl. simpl in Hl. apply andb_true_iff in Hl as [Hc _].
    apply String.eqb_neq. simpl. intros H. injection H as -> _. discriminate Hc. }
  rewrite Hinf, (span_digits_all l Hl). rewrite app_nil_r.
  destruct l as [|c l]; [congruence|]. reflexivity.
Qed.

Lemma signed_decimal_digits (l : list ascii) :
  Chars.all_digits l = true -> signed_decimal l = unsigned_decimal l.
Proof.
  intros Hl. unfold signed_decimal. destruct l as [|c l]; [reflexivity|].
  unfold Chars.all_digits in Hl. simpl in Hl. apply andb_true_iff in Hl as [Hc _].
  destruct c as [[] [] [] [] [] [] [] []]; try reflexivity; discriminate Hc.
Qed.

Lemma of_decimal_whole (n : Z) : 0 <= n -> of_decimal n 0 = of_Z n.
Proof.
  intros Hn. unfold of_decimal. destruct n as [|p|p]; [reflexivity| |lia].
  simpl. rewrite Pos.mul_1_r. reflexivity.
Qed.

(** A whole amount sent as its decimal numeral is read as that amount. *)
Lemma ToNumber_decimal (n : Z) : 0 <= n -> ToNumber (JStr (Chars.decimal n)) = of_Z n.
Proof.
  intros Hn. unfold ToNumber, StringToNumber.
  pose proof (decimal_digits n) as Hd. pose proof (decimal_not_empty n) as Hne.
  rewrite (trim_digits _ Hd).
  destruct (list_ascii_of_string (Chars.decimal n)) as [|c l] eqn:Hl; [congruence|].
  rewrite (non_decimal_digits _ Hd), (signed_decimal_digits _ Hd),
    (unsigned_decimal_digits _ Hd Hne).
  rewrite <- Hl, decimal_val by exact Hn. apply of_decimal_whole. exact Hn.
Qed.

Lemma whole_amount_truthy (n : Z) : 1 <= n <= 999 -> truthy (JNum (of_Z n)) = true.
Proof.
  intros Hn. pose proof (whole_amount_prints n Hn) as Hp.
  unfold truthy. destruct (of_Z n) eqn:Hz; try reflexivity; exfalso.
  - assert (H0 : Chars.digits_val (list_ascii_of_string (Chars.decimal n)) = 0)
      by (rewrite <- Hp; reflexivity).
    rewrite decimal_val in H0 by lia. lia.
  - pose proof (decimal_digits n) as Hd. rewrite <- Hp in Hd. discriminate Hd.
Qed.

(** X25. A whole amount can be sent as a JSON number or as its decimal
    numeral.  For [n] from 1 to 999 the string is read as the same Number,
    the token amount computed from it is the same, and the handler does the
    same with both requests: the same response, the same calls and the
    same record. *)
Theorem number_and_string_amounts_agree ADMIN gw now n buyerAddress w :
  1 <= n <= 999 ->
  ToNumber (JStr (Chars.decimal n)) = of_Z n /\
  calculateTokenAmount (JStr (Chars.decimal n)) = calculateTokenAmount (JNum (of_Z n)) /\
  buy_tokens ADMIN gw now (JStr (Chars.decimal n)) buyerAddress w
  = buy_tokens ADMIN gw now (JNum (of_Z n)) buyerAddress w.
Proof.
  intros Hn.
  assert (Hnum : ToNumber (JStr (Chars.decimal n)) = of_Z n)
    by (apply ToNumber_decimal; lia).
  assert (Hcalc : calculateTokenAmount (JStr (Chars.decimal n))
                  = calculateTokenAmount (JNum (of_Z n))).
  { unfold calculateTokenAmount. rewrite Hnum. reflexivity. }
  split; [exact Hnum|]. split; [exact Hcalc|].
  assert (Ht : truthy (JStr (Chars.decimal n)) = true).
  { unfold truthy. apply negb_true_iff, String.eqb_neq. intros H.
    apply (decimal_not_empty n). rewrite H. reflexivity. }
  unfold buy_tokens, purchase.
  rewrite Ht, (whole_amount_truthy n Hn), Hcalc.
  change (Js.toString (JStr (Chars.decimal n))) with (Ok (Chars.decimal n)).
  change (Js.toString (JNum (of_Z n))) with (Ok (JsNumber.toString (of_Z n))).
  rewrite (whole_amount_prints n Hn). reflexivity.
Qed.

Lemma number_and_string_amounts_agree_witness :
  buy_tokens admin_0 (demo_gateway 100000000 100000000) demo_now
             (JStr "80") (JStr buyer_1) demo_world
  = buy_tokens admin_0 (demo_gateway 100000000 100000000) demo_now
               (JNum (of_Z 80)) (JStr buyer_1) demo_world.
Proof.
  exact (proj2 (proj2 (number_and_string_amounts_agree admin_0
                         (demo_gateway 100000000 100000000) demo_now 80
                         (JStr buyer_1) demo_world ltac:(lia)))).
Defined.

(** ** Dates that bound nothing *)

Lemma date_filter_empty (a b : Z) (d : Transaction.t) :
  b < a -> date_filter (Some a) (Some b) d = false.
Proof.
  intros Hab. unfold date_filter.
  destruct (Z.leb_spec a (Transaction.timestamp d)); [|reflexivity].
  destruct (Z.leb_spec (Transaction.timestamp d) b); [lia | reflexivity].
Qed.

Lemma filter_none {A} (f : A -> bool) (l : list A) :
  (forall x, f x = false) -> List.filter f l = [].
Proof.
  intros H. induction l as [|x l IH]; [reflexivity|]. simpl. rewrite H. exact IH.
Qed.

(** X26. Dates that bound nothing.  When the start date of a request is
    later than its end date, no record matches: the statistics are answered
    200 with four zero totals and no day and no buyer, and a history
    request of any address is answered 200 with no transaction, a total of
    0 and 0 pages. *)
Theorem empty_date_range_reports_nothing (a b : Z) (w : World.t) :
  b < a ->
  stats (StatsQuery.mk (Some a) (Some b)) w
  = (respond 200 (StatsReport (TotalStats.mk 0 0 0 0) [] []), w) /\
  forall q address,
    given (HistoryQuery.address q) = Some address ->
    HistoryQuery.startDate q = Some a -> HistoryQuery.endDate q = Some b ->
    transaction_history q w
    = (respond 200 (HistoryPage [] 0
                      (Zpos (with_default 1%positive (HistoryQuery.page q)))
                      (Zpos (with_default 10%positive (HistoryQuery.limit q))) 0), w).
Proof.
  intros Hab. split.
  - unfold stats, sale_stats, bind, documents.
    rewrite filter_none; [reflexivity|].
    intros d. unfold stats_match. simpl. rewrite (date_filter_empty a b d Hab). reflexivity.
  - intros q address Ha Hs He. unfold transaction_history, history. rewrite Ha.
    unfold bind, documents, ret.
    rewrite filter_none.
    + simpl. rewrite skipn_nil, firstn_nil.
      assert (Hc : forall l : positive, Math_ceil_div 0 (Zpos l) = 0).
      { intros l. unfold Math_ceil_div. apply Z.div_small. lia. }
      change (Z.of_nat 0) with 0. rewrite Hc. reflexivity.
    + intros d. unfold history_match. rewrite Hs, He, (date_filter_empty a b d Hab).
      rewrite andb_false_r. reflexivity.
Qed.

Lemma empty_date_range_reports_nothing_witness :
  stats (StatsQuery.mk (Some 2000) (Some 1000)) demo_world
  = (respond 200 (StatsReport (TotalStats.mk 0 0 0 0) [] []), demo_world).
Proof.
  exact (proj1 (empty_date_range_reports_nothing 2000 1000 demo_world ltac:(lia))).
Defined.
